(** * stepic_utils.quiz: the quiz contract harness

    A shallow embedding of [src/stepic_utils/quiz.py]: the value cleaners,
    the user-code invoker, the two quiz variants ([DatasetQuiz] and
    [CodeQuiz]), their self checks and the fixed-case verifier
    ([QuizModuleTest]), followed by the properties of the specification. *)

From Stdlib Require Import ZArith QArith Qpower List String Ascii Bool Lia.
From Stdlib Require Import SpecFloat DecimalString.
Import ListNotations.

Close Scope Q_scope.
Local Open Scope string_scope.
Local Open Scope list_scope.

#[local] Set Warnings "-register-all".

(** ** Python values *)

(** A Python [float] is an IEEE-754 binary64: a [spec_float] that is
    canonical for precision 53 and maximal exponent 1024. *)
Definition prec64 : Z := 53.
Definition emax64 : Z := 1024.

Record float64 : Type := Float64 {
  f64_val : spec_float;
  f64_valid : valid_binary prec64 emax64 f64_val = true
}.

(** The values that cross the harness boundary.  [VFraction] is
    [fractions.Fraction] (the fourth built-in instance of [numbers.Real],
    next to [bool], [int] and [float]); [VObj] is any other object, named by
    its class, none of which is a [dict], [str], [bytes], [tuple], [list] or
    [numbers.Real]. A [dict] is kept as its list of items, in insertion
    order. *)
Inductive value : Type :=
| VNone
| VBool (b : bool)
| VInt (n : Z)
| VFloat (f : float64)
| VFraction (num : Z) (den : positive)
| VStr (s : string)
| VBytes (b : list Byte.byte)
| VTuple (xs : list value)
| VList (xs : list value)
| VDict (items : list (value * value))
| VObj (cls : string).

(** A message: a literal, or [template.format(args)]. *)
Inductive text : Type :=
| Text (s : string)
| Format (template : string) (args : list value).

(** Exceptions. [TypeError] and [ValueError] stand for an instance of that
    class or of one of its subclasses, [OtherError] for an instance of a
    class that derives from none of the classes listed here. *)
Inductive exn : Type :=
| SystemExit (code : Z)
| AssertionError (msg : text)
| TypeError
| ValueError
| OtherError (cls : string).

(** What the harness writes on [sys.stderr]. *)
Inductive line : Type :=
| Message (t : text)
| Traceback (e : exn).

Inductive result (A : Type) : Type :=
| Ok (a : A)
| Raise (e : exn).
Arguments Ok {A} a.
Arguments Raise {A} e.

(** ** The harness monad: user world, standard error, exceptions *)

Section Monad.
(** Whatever user code can read and change: globals, the random
    generator, its own output. *)
Context {W : Type}.

Record state : Type := State { world : W; stderr : list line }.

Definition M (A : Type) : Type := state -> result A * state.

Definition ret {A} (a : A) : M A := fun s => (Ok a, s).

Definition bind {A B} (m : M A) (k : A -> M B) : M B :=
  fun s => match m s with
           | (Ok a, s') => k a s'
           | (Raise e, s') => (Raise e, s')
           end.

Definition raise {A} (e : exn) : M A := fun s => (Raise e, s).

Definition lift {A} (r : result A) : M A := fun s => (r, s).

Definition print_stderr (l : line) : M unit :=
  fun s => (Ok tt, State (world s) (stderr s ++ [l])).

(** [try: m  except <catches>: handler] *)
Definition try_except {A} (m : M A) (catches : exn -> bool)
           (handler : exn -> M A) : M A :=
  fun s => match m s with
           | (Ok a, s') => (Ok a, s')
           | (Raise e, s') => if catches e then handler e s' else (Raise e, s')
           end.
End Monad.
Arguments state : clear implicits.
Arguments M : clear implicits.

Declare Scope harness_scope.
Delimit Scope harness_scope with harness.
Notation "x <- m ;; k" := (bind m (fun x => k))
  (at level 61, m at next level, right associativity) : harness_scope.
Notation "' p <- m ;; k" := (bind m (fun x => let p := x in k))
  (at level 61, p pattern, m at next level, right associativity) : harness_scope.
Notation "m ;; k" := (bind m (fun _ => k))
  (at level 61, right associativity) : harness_scope.
Local Open Scope harness_scope.

(** ** User functions and module attributes *)

(** A function object: its declared parameters ([inspect.signature]) and
    its body, which runs on the user world. *)
Record pyfun (W : Type) : Type := PyFun {
  params : list string;
  body : list value -> W -> result value * W
}.
Arguments PyFun {W} params body.
Arguments params {W} p.
Arguments body {W} p.

(** A module attribute: a function, or a value that is not callable. *)
Inductive attr (W : Type) : Type :=
| Fn (f : pyfun W)
| Val (v : value).
Arguments Fn {W} f.
Arguments Val {W} v.

Section Calls.
Context {W : Type}.

(** Calling a function of positional parameters: a call with the
    wrong number of arguments raises [TypeError]. *)
Definition apply_fun (f : pyfun W) (args : list value) : W -> result value * W :=
  fun w =>
    if Nat.eqb (List.length args) (List.length (params f))
    then body f args w
    else (Raise TypeError, w).

(** Calling an attribute: a value that is not callable raises
    [TypeError]. *)
Definition call (f : attr W) (args : list value) : W -> result value * W :=
  match f with
  | Fn g => apply_fun g args
  | Val _ => fun w => (Raise TypeError, w)
  end.

(** User code runs on the user world and leaves the harness's standard
    error alone. *)
Definition run_user (c : W -> result value * W) : M W value :=
  fun s => let (r, w) := c (world s) in (r, State w (stderr s)).

Definition fail_with_message (message : text) : M W unit :=
  print_stderr (Message message) ;;
  raise (SystemExit (-1)).

Definition call_user_code (function : attr W) (args : list value) : M W value :=
  try_except (run_user (call function args)) (fun _ => true)
    (fun e => print_stderr (Traceback e) ;;
              fail_with_message (Text "Quiz failed with exception!") ;;
              ret VNone).

Definition callable (f : attr W) : bool :=
  match f with Fn _ => true | Val _ => false end.

(** [signature(f).parameters.keys()] *)
Definition signature (f : attr W) : M W (list string) :=
  match f with
  | Fn g => ret (params g)
  | Val _ => raise TypeError
  end.

Definition string_of_nat (n : nat) : string :=
  NilEmpty.string_of_uint (Nat.to_uint n).

(** specs: [(name, function, expected number of args)] *)
Fixpoint check_signatures (specs : list (string * attr W * nat)) : M W unit :=
  match specs with
  | [] => ret tt
  | (name, f, n_param) :: specs' =>
      (if negb (callable f)
       then fail_with_message (Text ("`" ++ name ++ "` is not callable."))
       else ret tt) ;;
      parameters <- signature f ;;
      (if negb (Nat.eqb (List.length parameters) n_param)
       then
         let parms := match parameters with
                      | [] => "none"
                      | _ => String.concat ", " parameters
                      end in
         fail_with_message
           (Text ("Expected `" ++ name ++ "` with " ++ string_of_nat n_param
                  ++ " arguments, got " ++ parms ++ "."))
       else ret tt) ;;
      check_signatures specs'
  end.

(** A list comprehension whose element expression has effects. *)
Fixpoint mapM {A B} (f : A -> M W B) (xs : list A) : M W (list B) :=
  match xs with
  | [] => ret []
  | x :: xs' =>
      y <- f x ;;
      ys <- mapM f xs' ;;
      ret (y :: ys)
  end.

(** [all(itertools.starmap(f, cases))]: [all] stops at the first false. *)
Fixpoint all_starmap (f : value -> value -> M W bool)
         (cases : list (value * value)) : M W bool :=
  match cases with
  | [] => ret true
  | (a, b) :: cases' =>
      ok <- f a b ;;
      if ok then all_starmap f cases' else ret false
  end.
End Calls.

(** ** Numbers: [numbers.Real], comparison with a float, equality with 1 *)

(** The number a finite float denotes. *)
Definition SF2Q (f : spec_float) : option Q :=
  match f with
  | S754_zero _ => Some (0 # 1)%Q
  | S754_finite s m e => Some (inject_Z (cond_Zopp s (Zpos m)) * Qpower (2 # 1) e)%Q
  | S754_infinity _ | S754_nan => None
  end.

(** [float.__lt__] and friends against an [int] or a [Fraction] compare the
    exact values; a NaN compares with nothing. *)
Definition float_compare_Q (f : spec_float) (q : Q) : option comparison :=
  match f with
  | S754_nan => None
  | S754_infinity s => Some (if s then Lt else Gt)
  | _ => match SF2Q f with
         | Some p => Some (Qcompare p q)
         | None => None
         end
  end.

Definition bool_to_Z (b : bool) : Z := if b then 1%Z else 0%Z.

(** The exact value of a [bool], [int] or [Fraction]. *)
Definition exact_value (v : value) : option Q :=
  match v with
  | VBool b => Some (inject_Z (bool_to_Z b))
  | VInt n => Some (inject_Z n)
  | VFraction n d => Some (n # d)%Q
  | _ => None
  end.

(** [isinstance(v, numbers.Real)] *)
Definition is_real (v : value) : bool :=
  match v with
  | VBool _ | VInt _ | VFloat _ | VFraction _ _ => true
  | _ => false
  end.

Definition is_le (c : option comparison) : bool :=
  match c with Some Lt | Some Eq => true | _ => false end.

Definition is_ge (c : option comparison) : bool :=
  match c with Some Gt | Some Eq => true | _ => false end.

(** [c <= v] for a float [c]; on a [v] that is no number Python raises
    [TypeError], which [clean_score] never reaches: [is_real] is tested
    first. *)
Definition float_le_value (c : float64) (v : value) : bool :=
  match v with
  | VFloat f => SFleb (f64_val c) (f64_val f)
  | _ => match exact_value v with
         | Some q => is_le (float_compare_Q (f64_val c) q)
         | None => false
         end
  end.

(** [v <= c] for a float [c]. *)
Definition value_le_float (v : value) (c : float64) : bool :=
  match v with
  | VFloat f => SFleb (f64_val f) (f64_val c)
  | _ => match exact_value v with
         | Some q => is_ge (float_compare_Q (f64_val c) q)
         | None => false
         end
  end.

(** The literals [0.0] and [1.0]. *)
Definition float_0_0 : float64 := Float64 (S754_zero false) eq_refl.
Definition float_1_0 : float64 :=
  Float64 (S754_finite false 4503599627370496 (-52)) eq_refl.

(** [v == 1] *)
Definition eq_one (v : value) : bool :=
  match v with
  | VFloat f => SFeqb (f64_val f) (f64_val float_1_0)
  | _ => match exact_value v with
         | Some q => Qeq_bool q (1 # 1)%Q
         | None => false
         end
  end.

(** ** The serialization utility *)

(** [utils.encode] and [utils.decode]: the module is imported by [quiz.py]
    and taken here as an interface. *)
Class Serialization : Type := {
  encode : value -> result value;
  decode : value -> result value
}.

(** ** Module objects *)

(** A module object, read through its attributes only: the (name, value)
    pairs, the first pair of a name being the attribute. *)
Definition pymodule (W : Type) : Type := list (string * attr W).

(** [getattr(module, name)], [None] when the module has no such attribute *)
Fixpoint getattr {W} (module : pymodule W) (name : string) : option (attr W) :=
  match module with
  | [] => None
  | (n, a) :: module' => if String.eqb n name then Some a else getattr module' name
  end.

Definition hasattr {W} (module : pymodule W) (name : string) : bool :=
  match getattr module name with Some _ => true | None => false end.

(** The classes that [QuizModuleTest.runTest] tests for. *)
Inductive pyclass : Type :=
| ClsList
| ClsTuple
| ClsStr.

Definition isinstance (obj : value) (cls : pyclass) : bool :=
  match cls, obj with
  | ClsList, VList _ => true
  | ClsTuple, VTuple _ => true
  | ClsStr, VStr _ => true
  | _, _ => false
  end.

(** ** BaseQuiz *)

Record quiz (W G : Type) : Type := Quiz {
  generate : M W G;
  solve : value -> M W value;
  check : value -> value -> M W (value * value)
}.
Arguments Quiz {W G} generate solve check.
Arguments generate {W G} q.
Arguments solve {W G} q.
Arguments check {W G} q.

(** [a, b = xs] *)
Definition unpack2 (xs : list value) : result (value * value) :=
  match xs with
  | [a; b] => Ok (a, b)
  | _ => Raise ValueError
  end.

Definition is_ValueError (e : exn) : bool :=
  match e with ValueError => true | _ => false end.

Definition is_TypeError_or_ValueError (e : exn) : bool :=
  match e with TypeError | ValueError => true | _ => false end.

Definition is_file_key (k : value) : bool :=
  match k with VStr s => String.eqb s "file" | _ => false end.

(** [dataset['file']] *)
Fixpoint dict_get_file (items : list (value * value)) : result value :=
  match items with
  | [] => Raise (OtherError "KeyError")
  | (k, v) :: rest => if is_file_key k then Ok v else dict_get_file rest
  end.

Module BaseQuiz.
Section BaseQuiz.
Context {W : Type} {ser : Serialization}.

Definition clean_dataset (dataset : value) : M W value :=
  (match dataset with
   | VDict _ | VStr _ | VBytes _ => ret tt
   | _ => fail_with_message
            (Format "dataset should be one of (dict, str, bytes) instead of {}" [dataset])
   end) ;;
  match dataset with
  | VStr _ | VBytes _ => ret (VDict [(VStr "file", dataset)])
  | _ => ret dataset
  end.

Definition clean_clue (clue : value) : M W value :=
  try_except
    (b <- lift (encode clue) ;;
     cleaned_clue <- lift (decode b) ;;
     ret cleaned_clue)
    is_TypeError_or_ValueError
    (fun _ => fail_with_message (Format "clue is not serializable: {}" [clue]) ;;
              ret VNone).

Definition clean_answer (answer : value) : M W value :=
  (match answer with
   | VStr _ => ret tt
   | _ => fail_with_message (Format "answer should be a str instead of {}" [answer])
   end) ;;
  ret answer.

Definition clean_score (score : value) : M W value :=
  (if negb (is_real score && (float_le_value float_0_0 score && value_le_float score float_1_0))
   then fail_with_message (Text "score should be a number in range [0, 1]")
   else ret tt) ;;
  ret score.

Definition clean_hint (hint : value) : M W value :=
  (match hint with
   | VStr _ => ret tt
   | _ => fail_with_message (Text "hint should be a str")
   end) ;;
  ret hint.

(** [self_solve] is [self.solve], [self_clean_dataset] is
    [self.clean_dataset]: both are looked up on the instance when the
    wrapped function runs. *)
Definition wrap_generate (self_solve : value -> M W value)
           (self_clean_dataset : value -> M W value)
           (generate : attr W) : M W (value * value) :=
  ret_ <- call_user_code generate [] ;;
  '(dataset, clue) <-
    (match ret_ with
     | VTuple xs =>
         try_except (lift (unpack2 xs)) is_ValueError
           (fun _ =>
              fail_with_message
                (Text ("generate() returned a tuple but it's length is not 2." ++ String "010" ""
                       ++ "generate should return either a dataset "
                       ++ "or a (dataset, clue) tuple.")) ;;
              raise (AssertionError (Text "")))
     | _ =>
         clue <- self_solve ret_ ;;
         ret (ret_, clue)
     end) ;;
  dataset <- self_clean_dataset dataset ;;
  clue <- clean_clue clue ;;
  ret (dataset, clue).

Definition wrap_solve (solve : attr W) : value -> M W value :=
  fun dataset =>
    dataset <-
      (match dataset with
       | VDict items =>
           if existsb (fun kv => is_file_key (fst kv)) items
              && Nat.eqb (List.length items) 1
           then lift (dict_get_file items)
           else ret dataset
       | _ => ret dataset
       end) ;;
    answer <- call_user_code solve [dataset] ;;
    clean_answer answer.

Definition wrap_check (check : attr W) : value -> value -> M W (value * value) :=
  fun reply clue =>
    ret_ <- call_user_code check [reply; clue] ;;
    '(score_value, hint) <-
      (match ret_ with
       | VTuple xs =>
           try_except (lift (unpack2 xs)) is_ValueError
             (fun _ =>
                fail_with_message
                  (Text ("check() returned a tuple but it's length is not 2." ++ String "010" ""
                         ++ "check should return either a score or a (score, hit) tuple.")) ;;
                raise (AssertionError (Text "")))
       | _ => ret (ret_, VStr "")
       end) ;;
    score_value <- clean_score score_value ;;
    hint <- clean_hint hint ;;
    ret (score_value, hint).

(** [BaseQuiz.__init__], for a class whose [wrap_generate] and
    [clean_dataset] are the base ones. *)
Definition init (generate_fun solve_fun check_fun : attr W)
  : quiz W (value * value) :=
  let solve := wrap_solve solve_fun in
  Quiz (wrap_generate solve clean_dataset generate_fun)
       solve
       (wrap_check check_fun).

Definition no_function_msg (attr_name : string) (attrs : list string) : text :=
  Text ("Can't export `" ++ attr_name ++ "` from quiz module." ++ String "010" ""
        ++ "Quiz should export " ++ String.concat ", " attrs ++ ".").

(** The loop of [import_quiz] over [attrs]; [all] is the whole list, for
    the message. *)
Fixpoint require_attrs (module : pymodule W) (attrs all : list string) : M W unit :=
  match attrs with
  | [] => ret tt
  | attr :: attrs' =>
      (if negb (hasattr module attr)
       then fail_with_message (no_function_msg attr all)
       else ret tt) ;;
      require_attrs module attrs' all
  end.

(** [getattr(module, name)] without a default *)
Definition getattr_required (module : pymodule W) (name : string) : M W (attr W) :=
  match getattr module name with
  | Some a => ret a
  | None => raise (OtherError "AttributeError")
  end.

(** [import_quiz] on a module object; the branch that loads a module from a
    path goes through the import system and is not part of this model.
    [cls] is the constructor of the class the method is called on. *)
Definition import_quiz {G} (cls : attr W -> attr W -> attr W -> M W (quiz W G))
           (module : pymodule W) : M W (quiz W G) :=
  let attrs := ["solve"; "check"] in
  require_attrs module attrs attrs ;;
  let generate := match getattr module "generate" with
                  | Some a => a
                  | None => Val VNone
                  end in
  solve <- getattr_required module "solve" ;;
  check <- getattr_required module "check" ;;
  cls generate solve check.
End BaseQuiz.
End BaseQuiz.

Module DatasetQuiz.
Section DatasetQuiz.
Context {W : Type} {ser : Serialization}.

Definition clean_dataset : value -> M W value := BaseQuiz.clean_dataset.

(** [lambda: ({}, '')] *)
Definition default_generate : attr W :=
  Fn (PyFun [] (fun _ w => (Ok (VTuple [VDict []; VStr ""]), w))).

(** [lambda dataset: solve_fun()] *)
Definition default_solve (solve_fun : attr W) : attr W :=
  Fn (PyFun ["dataset"] (fun _ => call solve_fun [])).

(** [lambda reply, clue: check_fun(reply)] *)
Definition default_check (check_fun : attr W) : attr W :=
  Fn (PyFun ["reply"; "clue"] (fun args => call check_fun [nth 0 args VNone])).

(** [DatasetQuiz.__init__]; [Val VNone] is [None]. *)
Definition init (generate_fun solve_fun check_fun : attr W)
  : M W (quiz W (value * value)) :=
  match generate_fun with
  | Val VNone =>
      check_signatures [("solve", solve_fun, 0%nat);
                        ("check", check_fun, 1%nat)] ;;
      ret (BaseQuiz.init default_generate
                         (default_solve solve_fun)
                         (default_check check_fun))
  | _ =>
      check_signatures [("generate", generate_fun, 0%nat);
                        ("solve", solve_fun, 1%nat);
                        ("check", check_fun, 2%nat)] ;;
      ret (BaseQuiz.init generate_fun solve_fun check_fun)
  end.

Definition self_check (self : quiz W (value * value)) : M W bool :=
  '(dataset, clue) <- generate self ;;
  answer <- solve self dataset ;;
  '(score, hint) <- check self answer clue ;;
  ret (eq_one score).
End DatasetQuiz.
End DatasetQuiz.

Module CodeQuiz.
Section CodeQuiz.
Context {W : Type} {ser : Serialization}.

Definition clean_dataset (dataset : value) : M W value :=
  (match dataset with
   | VStr _ => ret tt
   | _ => fail_with_message (Format "dataset should be a str instead of {}" [dataset])
   end) ;;
  ret dataset.

Definition is_dataset (x : value) : bool :=
  match x with VStr _ => true | _ => false end.

Definition is_dataset_and_clue (x : value) : bool :=
  match x with
  | VTuple xs =>
      Nat.eqb (List.length xs) 2
      && match nth 0 xs VNone with VStr _ => true | _ => false end
  | _ => false
  end.

(** [dataset, clue = x] for an element [x] of the list *)
Definition unpack_pair (x : value) : result (value * value) :=
  match x with
  | VTuple xs => unpack2 xs
  | _ => Raise TypeError
  end.

(** Where the source falls off the end of the function after
    [fail_with_message], which does not return, the empty list stands for
    the result. *)
Definition wrap_generate (self_solve : value -> M W value)
           (generate : attr W) : M W (list (value * value)) :=
  ret_ <- call_user_code generate [] ;;
  match ret_ with
  | VList xs =>
      if forallb is_dataset xs then
        mapM (fun dataset =>
                d <- clean_dataset dataset ;;
                answer <- self_solve dataset ;;
                c <- BaseQuiz.clean_clue answer ;;
                ret (d, c)) xs
      else if forallb is_dataset_and_clue xs then
        mapM (fun x =>
                '(dataset, clue) <- lift (unpack_pair x) ;;
                d <- clean_dataset dataset ;;
                c <- BaseQuiz.clean_clue clue ;;
                ret (d, c)) xs
      else
        fail_with_message
          (Format ("generate() should return list of dataset or list of pairs "
                   ++ "(dataset, clue) instead of {}") [ret_]) ;;
        ret []
  | _ =>
      fail_with_message
        (Format "generate() should return a list instead of {}" [ret_]) ;;
      ret []
  end.

(** [CodeQuiz.__init__] *)
Definition init (generate_fun solve_fun check_fun : attr W)
  : M W (quiz W (list (value * value))) :=
  (match generate_fun with
   | Val VNone => fail_with_message (Text "Code Quiz should export generate")
   | _ => ret tt
   end) ;;
  check_signatures [("generate", generate_fun, 0%nat);
                    ("solve", solve_fun, 1%nat);
                    ("check", check_fun, 2%nat)] ;;
  ret (let solve := BaseQuiz.wrap_solve solve_fun in
       Quiz (wrap_generate solve generate_fun)
            solve
            (BaseQuiz.wrap_check check_fun)).

Definition is_correct (self : quiz W (list (value * value)))
           (dataset clue : value) : M W bool :=
  answer <- solve self dataset ;;
  '(score, hint) <- check self answer clue ;;
  ret (eq_one score).

Definition self_check (self : quiz W (list (value * value))) : M W bool :=
  test_cases <- generate self ;;
  all_starmap (is_correct self) test_cases.
End CodeQuiz.
End CodeQuiz.

(** ** QuizModuleTest: the fixed-case verifier *)

Module QuizModuleTest.
Section QuizModuleTest.
Context {W G : Type}.

(** [self.assertEqual(score, 1, msg)] *)
Definition assertEqual_1 (score : value) (msg : text) : M W unit :=
  if eq_one score then ret tt else raise (AssertionError msg).

(** The passes run on [self.tests], the (dataset, clue, reply) triples
    that [runTest] has validated. *)
Fixpoint testSamples (self_quiz : quiz W G)
         (tests : list (value * value * value)) : M W unit :=
  match tests with
  | [] => ret tt
  | (dataset, clue, reply) :: tests' =>
      '(score, _) <- check self_quiz reply clue ;;
      assertEqual_1 score
        (Format (String "010" "score(reply, clue) != 1!"
                 ++ String "010" "score({}, {}) == {}")
                [reply; clue; score]) ;;
      testSamples self_quiz tests'
  end.

Fixpoint testSolve (self_quiz : quiz W G)
         (tests : list (value * value * value)) : M W unit :=
  match tests with
  | [] => ret tt
  | (dataset, clue, reply) :: tests' =>
      computed_reply <- solve self_quiz dataset ;;
      '(score, _) <- check self_quiz computed_reply clue ;;
      assertEqual_1 score
        (Format (String "010" "score(solve(dataset), clue) != 1!"
                 ++ String "010" "score({}, {}) == {}")
                [computed_reply; clue; score]) ;;
      testSolve self_quiz tests'
  end.

(** An instance: [self.quiz] and [self.tests]. *)
Record test : Type := Test {
  the_quiz : quiz W G;
  the_tests : attr W
}.

(** [QuizModuleTest.__init__] *)
Definition init (quiz_cls : attr W -> attr W -> attr W -> M W (quiz W G))
           (module : pymodule W) : M W test :=
  q <- BaseQuiz.import_quiz quiz_cls module ;;
  ret (Test q (match getattr module "tests" with
               | Some a => a
               | None => Val (VList [])
               end)).

Definition tests_msg : text :=
  Text "tests should be a list of 3-tuples of strings: [(dataset, clue, reply)]".

(** [self.assertIsInstance(obj, cls, msg)]; the failure carries [msg], before
    which the framework puts its own description of what failed. *)
Definition assertIsInstance (obj : value) (cls : pyclass) (msg : text) : M W unit :=
  if isinstance obj cls then ret tt else raise (AssertionError msg).

(** [self.assertEqual(len(test), 3, msg)] *)
Definition assertEqual_len_3 (test : value) (msg : text) : M W unit :=
  match test with
  | VTuple xs => if Nat.eqb (List.length xs) 3 then ret tt
                 else raise (AssertionError msg)
  | _ => raise TypeError
  end.

(** [dataset, clue, reply = test] *)
Definition unpack3 (test : value) : result (value * value * value) :=
  match test with
  | VTuple [dataset; clue; reply] => Ok (dataset, clue, reply)
  | VTuple _ => Raise ValueError
  | _ => Raise TypeError
  end.

(** The body of the loop of [runTest] on one element of [self.tests]; it
    hands back the triple it has unpacked. *)
Definition check_test_shape (test : value) : M W (value * value * value) :=
  assertIsInstance test ClsTuple tests_msg ;;
  assertEqual_len_3 test tests_msg ;;
  '(dataset, clue, reply) <- lift (unpack3 test) ;;
  assertIsInstance dataset ClsStr (Text "dataset should be a string") ;;
  assertIsInstance reply ClsStr (Text "reply should be a string") ;;
  ret (dataset, clue, reply).

(** [runTest]: the loop over [self.tests] checks every element, then the
    two passes run on the same list, whose elements unpack as the loop has
    seen them. *)
Definition runTest (self : test) : M W unit :=
  match the_tests self with
  | Val (VList tests) =>
      triples <- mapM check_test_shape tests ;;
      testSamples (the_quiz self) triples ;;
      testSolve (the_quiz self) triples
  | _ => raise (AssertionError tests_msg)
  end.
End QuizModuleTest.
End QuizModuleTest.

(** ** Who receives an exception that leaves the harness *)

Inductive verdict : Type :=
| Passed
| Reported (e : exn).

(** Modelled from the spec: the external test framework, of which no source
    is part of this repository. A test method runs under the framework's
    exception handling: whatever it raises is recorded against the test
    and the run goes on. *)
Definition run_in_framework {W} (test : M W unit) (s : state W) : verdict * state W :=
  match test s with
  | (Ok _, s') => (Passed, s')
  | (Raise e, s') => (Reported e, s')
  end.

(** Modelled from the spec: the process-level failure channel. Outside the
    framework nothing catches [SystemExit]: the process ends with the low
    eight bits of its code as status; another exception that nothing
    catches ends it with status 1. *)
Definition exit_status {W A} (r : result A * state W) : Z :=
  match fst r with
  | Ok _ => 0
  | Raise (SystemExit c) => c mod 256
  | Raise _ => 1
  end.

(** ** Vocabulary of the properties *)

Section Outcomes.
Context {W : Type}.

(** The state a fatal failure leaves: one more line on standard error. *)
Definition failed (t : text) (s : state W) : state W :=
  State (world s) (stderr s ++ [Message t]).

(** The state a fault in user code leaves: the trace, then the message. *)
Definition faulted (e : exn) (s : state W) : state W :=
  State (world s)
        (stderr s ++ [Traceback e; Message (Text "Quiz failed with exception!")]).
End Outcomes.

Inductive cleaner : Type :=
| ScoreCleaner
| AnswerCleaner
| DatasetCleaner
| CodeDatasetCleaner.

Inductive variant : Type :=
| DatasetQuizVariant
| CodeQuizVariant.

Definition clean_dataset_of {W} (k : variant) : value -> M W value :=
  match k with
  | DatasetQuizVariant => DatasetQuiz.clean_dataset
  | CodeQuizVariant => CodeQuiz.clean_dataset
  end.

Definition run_cleaner {W} (c : cleaner) : value -> M W value :=
  match c with
  | ScoreCleaner => BaseQuiz.clean_score
  | AnswerCleaner => BaseQuiz.clean_answer
  | DatasetCleaner => BaseQuiz.clean_dataset
  | CodeDatasetCleaner => CodeQuiz.clean_dataset
  end.

Definition is_mapping (v : value) : bool :=
  match v with VDict _ => true | _ => false end.

Definition is_str (v : value) : bool :=
  match v with VStr _ => true | _ => false end.

Definition is_str_or_bytes (v : value) : bool :=
  match v with VStr _ | VBytes _ => true | _ => false end.

Definition score_in_range (score : value) : bool :=
  is_real score
  && (float_le_value float_0_0 score && value_le_float score float_1_0).

(** The float literals [1.0001] and [-0.0001] (their nearest binary64). *)
Definition float_1_0001 : float64 :=
  Float64 (S754_finite false 4504049987333233 (-52)) eq_refl.
Definition float_neg_0_0001 : float64 :=
  Float64 (S754_finite true 7378697629483821 (-66)) eq_refl.

(** The real number a value denotes, when it is one: no NaN, no infinity. *)
Definition real_value (v : value) : option Q :=
  match v with
  | VFloat f => SF2Q (f64_val f)
  | _ => exact_value v
  end.

Definition in_unit_interval (v : value) : Prop :=
  exists q, real_value v = Some q /\ (0 <= q /\ q <= 1)%Q.

Definition is_tuple (v : value) : bool :=
  match v with VTuple _ => true | _ => false end.

Definition check_tuple_message : text :=
  Text ("check() returned a tuple but it's length is not 2." ++ String "010" ""
        ++ "check should return either a score or a (score, hit) tuple.").

(** What the wrapped check makes of the raw result, in the words of the
    specification: a 2-tuple is (score, hint), a tuple of another length is
    a configuration error, anything else is the score and the hint is
    empty; the score and the hint are then cleaned, in this order. *)
Definition check_result_spec {W} (raw : value)
  : M W (value * value) :=
  match raw with
  | VTuple [score_value; hint] =>
      score_value <- BaseQuiz.clean_score score_value ;;
      hint <- BaseQuiz.clean_hint hint ;;
      ret (score_value, hint)
  | VTuple _ =>
      fun s => (Raise (SystemExit (-1)), failed check_tuple_message s)
  | _ =>
      score_value <- BaseQuiz.clean_score raw ;;
      hint <- BaseQuiz.clean_hint (VStr "") ;;
      ret (score_value, hint)
  end.

(** [utils.decode(utils.encode(clue))] *)
Definition round_trip {ser : Serialization} (clue : value) : result value :=
  match encode clue with
  | Ok b => decode b
  | Raise e => Raise e
  end.

Definition unserializable {W} (clue : value) (s : state W) : result value * state W :=
  (Raise (SystemExit (-1)), failed (Format "clue is not serializable: {}" [clue]) s).

(** Two serializers for the examples. The first copies every value but an
    opaque object, which it refuses with [TypeError]; the second gives up on
    a list with [RecursionError], which is neither a [TypeError] nor a
    [ValueError]. *)
Definition copying_serialization : Serialization :=
  {| encode := fun v => match v with VObj _ => Raise TypeError | _ => Ok v end;
     decode := fun b => Ok b |}.

Definition shallow_serialization : Serialization :=
  {| encode := fun v => match v with
                        | VList _ => Raise (OtherError "RecursionError")
                        | _ => Ok v
                        end;
     decode := fun b => Ok b |}.

(** ** Functions for the examples *)

(** [def f(<ps>): return v] *)
Definition const_fun {W} (ps : list string) (v : value) : attr W :=
  Fn (PyFun ps (fun _ w => (Ok v, w))).

(** [def f(<ps>): raise e] *)
Definition raising_fun {W} (ps : list string) (e : exn) : attr W :=
  Fn (PyFun ps (fun _ w => (Raise e, w))).

(** A function that counts its calls in the world and returns [v]. *)
Definition counting_fun (ps : list string) (v : value) : attr nat :=
  Fn (PyFun ps (fun _ n => (Ok v, S n))).

(** [def check(reply): return 1 if reply == "42" else 0] *)
Definition check_42 {W} : attr W :=
  Fn (PyFun ["reply"]
            (fun args w =>
               (Ok (match nth 0 args VNone with
                    | VStr r => if String.eqb r "42" then VInt 1 else VInt 0
                    | _ => VInt 0
                    end), w))).

(** The float literal [0.5]. *)
Definition float_0_5 : float64 :=
  Float64 (S754_finite false 4503599627370496 (-53)) eq_refl.

(** ** Vocabulary of the signature check *)

(** [f] is a function that declares [n] parameters. *)
Definition declares {W} (f : attr W) (n : nat) : bool :=
  match f with
  | Fn g => Nat.eqb (List.length (params g)) n
  | Val _ => false
  end.

(** The message that names the function, the expected number of parameters
    and the parameters it has. *)
Definition arity_message (name : string) (n_param : nat) (ps : list string) : text :=
  Text ("Expected `" ++ name ++ "` with " ++ string_of_nat n_param
        ++ " arguments, got "
        ++ match ps with [] => "none" | _ => String.concat ", " ps end
        ++ ".").

Definition not_callable_message (name : string) : text :=
  Text ("`" ++ name ++ "` is not callable.").

Definition signature_error {W} (spec : string * attr W * nat) : option text :=
  let '(name, f, n_param) := spec in
  match f with
  | Val _ => Some (not_callable_message name)
  | Fn g => if Nat.eqb (List.length (params g)) n_param
            then None
            else Some (arity_message name n_param (params g))
  end.

Fixpoint first_signature_error {W} (specs : list (string * attr W * nat)) : option text :=
  match specs with
  | [] => None
  | spec :: specs' =>
      match signature_error spec with
      | Some t => Some t
      | None => first_signature_error specs'
      end
  end.

(** The dataset the raw solve receives: the value under ["file"] of a
    single-entry mapping, the dataset itself otherwise. *)
Definition unwrap_file (dataset : value) : value :=
  match dataset with
  | VDict [(k, v)] => if is_file_key k then v else dataset
  | _ => dataset
  end.

(** ** Vocabulary of the case list of a CodeQuiz *)

Definition is_list (v : value) : bool :=
  match v with VList _ => true | _ => false end.

(** A tuple of two components. *)
Definition is_pair (x : value) : bool :=
  match x with VTuple [_; _] => true | _ => false end.

(** The list holds a bare string and a 2-tuple. *)
Definition mixes_strings_and_pairs (xs : list value) : bool :=
  existsb is_str xs && existsb is_pair xs.

Definition pair_value (p : string * value) : value :=
  VTuple [VStr (fst p); snd p].

Definition not_a_list_message (v : value) : text :=
  Format "generate() should return a list instead of {}" [v].

Definition not_uniform_message (v : value) : text :=
  Format ("generate() should return list of dataset or list of pairs "
          ++ "(dataset, clue) instead of {}") [v].

(** ** Vocabulary of the self checks *)

(** Every case, in order, is solved and checked with a score equal to 1;
    the states are those the run goes through. *)
Inductive all_perfect {W G} (q : quiz W G)
  : list (value * value) -> state W -> state W -> Prop :=
| perfect_nil (s : state W) : all_perfect q [] s s
| perfect_cons (dataset clue answer score hint : value)
               (cases : list (value * value)) (s s1 s2 s3 : state W) :
    solve q dataset s = (Ok answer, s1) ->
    check q answer clue s1 = (Ok (score, hint), s2) ->
    eq_one score = true ->
    all_perfect q cases s2 s3 ->
    all_perfect q ((dataset, clue) :: cases) s s3.

(** ** Vocabulary of the fixed cases *)

(** The (dataset, clue) pair of a declared (dataset, clue, reply) triple. *)
Definition case_of (t : value * value * value) : value * value :=
  (fst (fst t), snd (fst t)).

(** The triple that a well-formed element of [tests] is. *)
Definition shape (test : value) : option (value * value * value) :=
  match test with
  | VTuple [VStr dataset; clue; VStr reply] => Some (VStr dataset, clue, VStr reply)
  | _ => None
  end.

(** The message of the assertion that an ill-formed element fails. *)
Definition shape_error (test : value) : text :=
  match test with
  | VTuple [dataset; _; _] =>
      if isinstance dataset ClsStr
      then Text "reply should be a string"
      else Text "dataset should be a string"
  | _ => QuizModuleTest.tests_msg
  end.

(** Every declared reply, in order, is checked against its clue with a
    score equal to 1; the states are those the run goes through. *)
Inductive samples_perfect {W G} (q : quiz W G)
  : list (value * value * value) -> state W -> state W -> Prop :=
| samples_nil (s : state W) : samples_perfect q [] s s
| samples_cons (dataset clue reply score hint : value)
               (tests : list (value * value * value)) (s s1 s2 : state W) :
    check q reply clue s = (Ok (score, hint), s1) ->
    eq_one score = true ->
    samples_perfect q tests s1 s2 ->
    samples_perfect q ((dataset, clue, reply) :: tests) s s2.

(** The specs of a module that exports [generate]. *)
Definition full_specs {W} (generate_fun solve_fun check_fun : attr W)
  : list (string * attr W * nat) :=
  [("generate", generate_fun, 0%nat);
   ("solve", solve_fun, 1%nat);
   ("check", check_fun, 2%nat)].

Definition spec_holds {W} (spec : string * attr W * nat) : bool :=
  declares (snd (fst spec)) (snd spec).

Definition is_None {W} (a : attr W) : bool :=
  match a with Val VNone => true | _ => false end.

(** ** Vocabulary of what a run prints *)

(** Nothing was printed between [s] and [s']. *)
Definition quiet {W} (s s' : state W) : Prop := stderr s' = stderr s.

(** Something was printed between [s] and [s'], and nothing was erased. *)
Definition printed {W} (s s' : state W) : Prop :=
  exists l, l <> [] /\ stderr s' = stderr s ++ l.

Definition generate_tuple_message : text :=
  Text ("generate() returned a tuple but it's length is not 2." ++ String "010" ""
        ++ "generate should return either a dataset "
        ++ "or a (dataset, clue) tuple.").

(** [def check(reply, clue): return 1 if clue == "4" else 0], counting its
    calls in the world. *)
Definition counting_check_clue_4 : attr nat :=
  Fn (PyFun ["reply"; "clue"]
            (fun args n =>
               (Ok (match nth 1 args VNone with
                    | VStr c => if String.eqb c "4" then VInt 1 else VInt 0
                    | _ => VInt 0
                    end), S n))).

(** ** Vocabulary of the cases and of the passes *)

(** What a returned case has to do with the element of the raw list it
    comes from: its dataset is a string, the element itself or the first
    component of the element, and its clue is a value that the serializer
    has decoded. *)
Definition case_from {ser : Serialization} (x : value) (case : value * value) : Prop :=
  is_str (fst case) = true
  /\ (x = fst case \/ exists clue, x = VTuple [fst case; clue])
  /\ exists y, round_trip y = Ok (snd case).

Definition samples_message (reply clue score : value) : text :=
  Format (String "010" "score(reply, clue) != 1!"
          ++ String "010" "score({}, {}) == {}") [reply; clue; score].

Definition solve_message (computed_reply clue score : value) : text :=
  Format (String "010" "score(solve(dataset), clue) != 1!"
          ++ String "010" "score({}, {}) == {}") [computed_reply; clue; score].

(** How a pass can end: it passes or an assertion fails, and then nothing
    was printed; or the harness has printed and raised [SystemExit (-1)]. *)
Definition pass_outcome {W} (s : state W) (r : result unit) (s' : state W) : Prop :=
  (r = Ok tt /\ quiet s s')
  \/ ((exists msg, r = Raise (AssertionError msg)) /\ quiet s s')
  \/ (r = Raise (SystemExit (-1)) /\ printed s s').

Definition is_shaped (test : value) : bool :=
  match shape test with Some _ => true | None => false end.

(** ** Vocabulary of the score of a check result *)

(** The score and the hint that a raw check result holds: the two
    components of a 2-tuple; no score in a tuple of another length; the
    result itself, with the empty hint, otherwise. *)
Definition raw_score (raw : value) : option value :=
  match raw with
  | VTuple [score; _] => Some score
  | VTuple _ => None
  | _ => Some raw
  end.

Definition raw_hint (raw : value) : value :=
  match raw with
  | VTuple [_; hint] => hint
  | _ => VStr ""
  end.

(** The float literal [1.5]. *)
Definition float_1_5 : float64 :=
  Float64 (S754_finite false 6755399441055744 (-52)) eq_refl.

(** * Properties *)

(** ** The monad and the invoker *)

Ltac unfold_m :=
  unfold bind, ret, raise, lift, try_except, print_stderr, fail_with_message,
    run_user in *.

Ltac inv H := inversion H; subst; clear H.

Section MonadFacts.
Context {W : Type}.

Lemma state_eta (s : state W) : State (world s) (stderr s) = s.
Proof. destruct s; reflexivity. Qed.

Lemma bind_ok {A B} (m : M W A) (k : A -> M W B) s a s' :
  m s = (Ok a, s') -> bind m k s = k a s'.
Proof. intros H; unfold bind; rewrite H; reflexivity. Qed.

Lemma bind_raise {A B} (m : M W A) (k : A -> M W B) s e s' :
  m s = (Raise e, s') -> bind m k s = (Raise e, s').
Proof. intros H; unfold bind; rewrite H; reflexivity. Qed.

Lemma bind_ext {A B} (m : M W A) (k k' : A -> M W B) s :
  (forall a s', k a s' = k' a s') -> bind m k s = bind m k' s.
Proof.
  intros H; unfold bind; destruct (m s) as [[a | e] s']; [apply H | reflexivity].
Qed.

Lemma bind_inv_ok {A B} (m : M W A) (k : A -> M W B) s b s' :
  bind m k s = (Ok b, s') ->
  exists a s1, m s = (Ok a, s1) /\ k a s1 = (Ok b, s').
Proof.
  unfold bind; destruct (m s) as [[a | e] s1]; intros H.
  - exists a, s1; split; [reflexivity | exact H].
  - discriminate H.
Qed.

Lemma call_user_code_returns (f : attr W) args s v w :
  call f args (world s) = (Ok v, w) ->
  call_user_code f args s = (Ok v, State w (stderr s)).
Proof.
  intros H; unfold call_user_code; unfold_m; rewrite H; reflexivity.
Qed.

Lemma call_user_code_faults (f : attr W) args s e w :
  call f args (world s) = (Raise e, w) ->
  call_user_code f args s
  = (Raise (SystemExit (-1)), faulted e (State w (stderr s))).
Proof.
  intros H; unfold call_user_code, faulted; unfold_m; rewrite H; simpl.
  rewrite <- app_assoc; reflexivity.
Qed.

End MonadFacts.

(** ** Binary64 comparison is comparison of the denoted numbers *)

Section Binary64.
Local Open Scope Z_scope.

Lemma digits2_pos_size (m : positive) : digits2_pos m = Pos.size m.
Proof. induction m; simpl; congruence. Qed.

Lemma bounded64_inv (m : positive) (e : Z) :
bounded prec64 emax64 m e = true ->
Zpos m < 2 ^ 53 /\ -1074 <= e /\ (e = -1074 \/ 2 ^ 52 <= Zpos m).
Proof.
unfold bounded, canonical_mantissa, fexp, emin, prec64, emax64.
rewrite andb_true_iff, Z.eqb_eq, Z.leb_le, digits2_pos_size.
intros [Hc _].
pose proof (Pos.size_gt m) as Hgt.
pose proof (Pos.size_le m) as Hle.
apply Pos2Z.pos_lt_pos in Hgt. apply Pos2Z.pos_le_pos in Hle.
rewrite Pos2Z.inj_pow in Hgt, Hle.
set (d := Z.pos (Pos.size m)) in *.
assert (0 < d) by (unfold d; lia).
assert (Hd : d <= 53) by lia.
split; [| split; [lia |]].
- eapply Z.lt_le_trans; [exact Hgt |]. apply Z.pow_le_mono_r; lia.
- destruct (Z.eq_dec e (-1074)) as [|Hne]; [now left | right].
  assert (d = 53) by lia.
  replace (2 ^ d) with (2 * 2 ^ 52) in Hle by (subst d; rewrite H0; reflexivity).
  rewrite Pos2Z.inj_xO in Hle. lia.
Qed.

Local Open Scope Q_scope.

Lemma Qcompare_scale (a b : Z) (c : Q) :
0 < c -> (inject_Z a * c ?= inject_Z b * c) = (a ?= b)%Z.
Proof.
intros Hc. destruct (Z.compare_spec a b) as [E | L | G].
- subst; apply Qeq_alt; reflexivity.
- apply Qlt_alt, Qmult_lt_r; [exact Hc |]. now rewrite <- Zlt_Qlt.
- apply Qgt_alt, Qmult_lt_r; [exact Hc |]. now rewrite <- Zlt_Qlt.
Qed.

Lemma pow2_pos (e : Z) : 0 < (2 # 1) ^ e.
Proof. apply Qpower_0_lt; reflexivity. Qed.

Lemma pow2_shift (b e1 e2 : Z) :
(e1 <= e2)%Z ->
inject_Z b * (2 # 1) ^ e2 == inject_Z (b * 2 ^ (e2 - e1)) * (2 # 1) ^ e1.
Proof.
intros H. replace e2 with ((e2 - e1) + e1)%Z at 1 by lia.
rewrite Qpower_plus by discriminate.
rewrite inject_Z_mult, Zpower_Qpower by lia.
change (inject_Z 2) with (2 # 1). ring.
Qed.

Lemma finite_compare (m1 m2 : positive) (e1 e2 : Z) :
bounded prec64 emax64 m1 e1 = true -> bounded prec64 emax64 m2 e2 = true ->
(inject_Z (Zpos m1) * (2 # 1) ^ e1 ?= inject_Z (Zpos m2) * (2 # 1) ^ e2)
= match (e1 ?= e2)%Z with
  | Lt => Lt
  | Gt => Gt
  | Eq => Pos.compare_cont Eq m1 m2
  end.
Proof.
intros B1 B2.
apply bounded64_inv in B1 as (U1 & L1 & N1).
apply bounded64_inv in B2 as (U2 & L2 & N2).
destruct (Z.compare_spec e1 e2) as [E | L | G].
- subst e2. rewrite Qcompare_scale by apply pow2_pos. reflexivity.
- rewrite (pow2_shift (Zpos m2) e1 e2) by lia.
  rewrite Qcompare_scale by apply pow2_pos.
  apply Z.compare_lt_iff.
  assert (2 ^ 1 <= 2 ^ (e2 - e1))%Z by (apply Z.pow_le_mono_r; lia).
  nia.
- rewrite (pow2_shift (Zpos m1) e2 e1) by lia.
  rewrite Qcompare_scale by apply pow2_pos.
  apply Z.compare_gt_iff.
  assert (2 ^ 1 <= 2 ^ (e1 - e2))%Z by (apply Z.pow_le_mono_r; lia).
  nia.
Qed.

Lemma Qcompare_opp (a b : Q) : (- a ?= - b) = (b ?= a).
Proof.
unfold Qcompare; simpl. rewrite !Z.mul_opp_l, Z.compare_opp. reflexivity.
Qed.

Lemma finite_pos (m : positive) (e : Z) : 0 < inject_Z (Zpos m) * (2 # 1) ^ e.
Proof.
apply Qmult_lt_0_compat; [reflexivity | apply pow2_pos].
Qed.

Lemma finite_neg (m : positive) (e : Z) :
inject_Z (Zneg m) * (2 # 1) ^ e == - (inject_Z (Zpos m) * (2 # 1) ^ e).
Proof.
change (inject_Z (Zneg m)) with (- inject_Z (Zpos m)). ring.
Qed.

(** On canonical binary64 values that denote numbers, [SFcompare] is the
  comparison of those numbers. *)
Lemma SFcompare_exact (f g : spec_float) (p q : Q) :
valid_binary prec64 emax64 f = true ->
valid_binary prec64 emax64 g = true ->
SF2Q f = Some p -> SF2Q g = Some q ->
SFcompare f g = Some (p ?= q).
Proof.
intros Vf Vg Hp Hq.
destruct f as [sf | sf | | sf mf ef]; try discriminate Hp;
  destruct g as [sg | sg | | sg mg eg]; try discriminate Hq;
  simpl in Hp, Hq; inv Hp; inv Hq; simpl in Vf, Vg.
- reflexivity.
- simpl; f_equal; symmetry. destruct sg; simpl.
  + apply Qgt_alt. rewrite finite_neg.
    apply (Qopp_lt_compat 0). apply finite_pos.
  + apply Qlt_alt, finite_pos.
- simpl; f_equal; symmetry. destruct sf; simpl.
  + apply Qlt_alt. rewrite finite_neg.
    apply (Qopp_lt_compat 0). apply finite_pos.
  + apply Qgt_alt, finite_pos.
- simpl; f_equal; symmetry. destruct sf, sg; simpl.
  + rewrite !finite_neg, Qcompare_opp, <- Qcompare_antisym.
    rewrite (finite_compare _ _ _ _ Vf Vg).
    destruct (ef ?= eg)%Z; reflexivity.
  + apply Qlt_alt. rewrite finite_neg.
    apply Qlt_trans with 0; [apply (Qopp_lt_compat 0) |]; apply finite_pos.
  + apply Qgt_alt. rewrite finite_neg.
    apply Qlt_trans with 0; [apply (Qopp_lt_compat 0) |]; apply finite_pos.
  + rewrite (finite_compare _ _ _ _ Vf Vg).
    destruct (ef ?= eg)%Z; reflexivity.
Qed.

Lemma is_le_Qle (p q : Q) : is_le (Some (p ?= q)) = true <-> p <= q.
Proof.
rewrite Qle_alt. unfold is_le.
destruct (p ?= q); split; intros H;
  solve [ reflexivity | discriminate H | intros H'; discriminate H'
        | exfalso; apply H; reflexivity ].
Qed.

Lemma is_ge_Qle (p q : Q) : is_ge (Some (p ?= q)) = true <-> q <= p.
Proof.
rewrite Qle_alt, <- (Qcompare_antisym p q). unfold is_ge.
destruct (p ?= q); simpl; split; intros H;
  solve [ reflexivity | discriminate H | intros H'; discriminate H'
        | exfalso; apply H; reflexivity ].
Qed.

Lemma SF2Q_one : inject_Z (Zpos 4503599627370496) * (2 # 1) ^ (-52) == 1.
Proof. reflexivity. Qed.

Lemma SFleb_exact (f g : spec_float) (p q : Q) :
valid_binary prec64 emax64 f = true ->
valid_binary prec64 emax64 g = true ->
SF2Q f = Some p -> SF2Q g = Some q ->
SFleb f g = true <-> p <= q.
Proof.
intros Vf Vg Hp Hq. unfold SFleb.
rewrite (SFcompare_exact f g p q Vf Vg Hp Hq).
apply is_le_Qle.
Qed.

(** The test of [clean_score] holds exactly of the values that denote a
  number of the closed unit interval. *)
Lemma score_in_range_iff (v : value) :
score_in_range v = true <-> in_unit_interval v.
Proof.
unfold score_in_range, in_unit_interval.
destruct v as [ | b | n | [f Vf] | n d | | | | | | ];
  try (simpl; split; [discriminate | intros (q & H & _); discriminate H]);
  cbn [is_real float_le_value value_le_float exact_value real_value andb
       float_compare_Q float_0_0 float_1_0 f64_val SF2Q cond_Zopp].
- (* bool *)
  rewrite andb_true_iff, is_le_Qle, is_ge_Qle, SF2Q_one.
  split; [intros H; eexists; split; [reflexivity | exact H]
         | intros (q & H & Hq); inv H; exact Hq].
- (* int *)
  rewrite andb_true_iff, is_le_Qle, is_ge_Qle, SF2Q_one.
  split; [intros H; eexists; split; [reflexivity | exact H]
         | intros (q & H & Hq); inv H; exact Hq].
- (* float *)
  destruct (SF2Q f) as [q |] eqn:Hq.
  + rewrite andb_true_iff.
    rewrite (SFleb_exact (S754_zero false) f 0 q eq_refl Vf eq_refl Hq).
    rewrite (SFleb_exact f (S754_finite false 4503599627370496 (-52)) q _
                         Vf eq_refl Hq eq_refl), SF2Q_one.
    split; [intros H; eexists; split; [reflexivity | exact H]
           | intros (q' & H & Hq'); inv H; exact Hq'].
  + split; [| intros (q & H & _); discriminate H].
    destruct f as [ | [|] | | ]; try discriminate Hq; simpl; discriminate.
- (* Fraction *)
  rewrite andb_true_iff, is_le_Qle, is_ge_Qle, SF2Q_one.
  split; [intros H; eexists; split; [reflexivity | exact H]
         | intros (q & H & Hq); inv H; exact Hq].
Qed.
End Binary64.

(** ** The cleaners *)

Section CleanerFacts.
Context {W : Type} {ser : Serialization}.

Lemma clean_score_accepts (v : value) (s : state W) :
  score_in_range v = true -> BaseQuiz.clean_score v s = (Ok v, s).
Proof.
  unfold BaseQuiz.clean_score, score_in_range; intros ->; reflexivity.
Qed.

Lemma clean_score_rejects (v : value) (s : state W) :
  score_in_range v = false ->
  BaseQuiz.clean_score v s
  = (Raise (SystemExit (-1)),
     failed (Text "score should be a number in range [0, 1]") s).
Proof.
  unfold BaseQuiz.clean_score, score_in_range; intros ->; reflexivity.
Qed.

Lemma clean_score_inv (v v' : value) (s s' : state W) :
  BaseQuiz.clean_score v s = (Ok v', s') ->
  score_in_range v = true /\ v' = v /\ s' = s.
Proof.
  destruct (score_in_range v) eqn:E.
  - rewrite (clean_score_accepts _ _ E); intros H; inv H; auto.
  - rewrite (clean_score_rejects _ _ E); discriminate.
Qed.

Lemma clean_answer_inv (v v' : value) (s s' : state W) :
  BaseQuiz.clean_answer v s = (Ok v', s') ->
  is_str v = true /\ v' = v /\ s' = s.
Proof.
  destruct v; cbn; intros H; inv H; auto.
Qed.

Lemma clean_hint_inv (v v' : value) (s s' : state W) :
  BaseQuiz.clean_hint v s = (Ok v', s') ->
  is_str v = true /\ v' = v /\ s' = s.
Proof.
  destruct v; cbn; intros H; inv H; auto.
Qed.

Lemma base_clean_dataset_inv (v v' : value) (s s' : state W) :
  BaseQuiz.clean_dataset v s = (Ok v', s') ->
  s' = s
  /\ ((is_mapping v = true /\ v' = v)
      \/ (is_str_or_bytes v = true /\ v' = VDict [(VStr "file", v)])).
Proof.
  destruct v; cbn; intros H; inv H; auto.
Qed.

Lemma code_clean_dataset_inv (v v' : value) (s s' : state W) :
  CodeQuiz.clean_dataset v s = (Ok v', s') ->
  is_str v = true /\ v' = v /\ s' = s.
Proof.
  destruct v; cbn; intros H; inv H; auto.
Qed.
End CleanerFacts.

(** C8: a score, an answer or a dataset that its cleaner accepts is cleaned
    to a value that the same cleaner accepts again and returns as it is;
    this holds of the dataset cleaner of either variant, and standard error
    is untouched throughout. *)
Theorem cleaning_is_idempotent
        {W : Type} (c : cleaner)
        (v v' : value) (s s' : state W) :
  run_cleaner c v s = (Ok v', s') ->
  run_cleaner c v' s' = (Ok v', s') /\ s' = s.
Proof.
  destruct c; simpl; intros H.
  - apply clean_score_inv in H as (E & -> & ->).
    split; [now apply clean_score_accepts | reflexivity].
  - apply clean_answer_inv in H as (E & -> & ->).
    destruct v; try discriminate E; split; reflexivity.
  - apply base_clean_dataset_inv in H as (-> & [[E ->] | [E ->]]).
    + destruct v; try discriminate E; split; reflexivity.
    + split; reflexivity.
  - apply code_clean_dataset_inv in H as (E & -> & ->).
    destruct v; try discriminate E; split; reflexivity.
Qed.

Lemma cleaning_is_idempotent_witness :
  run_cleaner (W := unit) DatasetCleaner
              (VDict [(VStr "file", VStr "3 4")]) (State tt [])
  = (Ok (VDict [(VStr "file", VStr "3 4")]), State tt [])
  /\ State tt [] = State tt [].
Proof.
  apply (cleaning_is_idempotent
           DatasetCleaner (VStr "3 4") _ (State tt []) (State tt [])).
  reflexivity.
Defined.

(** C9: a dataset that comes out of the base cleaner, which is the cleaner
    of [DatasetQuiz], is a mapping: the input itself when that was a
    mapping, the single entry ["file"] for a string or a byte sequence; one
    that comes out of the [CodeQuiz] cleaner is a string, the input. *)
Theorem cleaned_dataset_type
        {W : Type} (k : variant)
        (v v' : value) (s s' : state W) :
  clean_dataset_of k v s = (Ok v', s') ->
  match k with
  | DatasetQuizVariant =>
      is_mapping v' = true
      /\ v' = (if is_str_or_bytes v then VDict [(VStr "file", v)] else v)
  | CodeQuizVariant => is_str v' = true /\ v' = v
  end.
Proof.
  destruct k; simpl; intros H.
  - apply base_clean_dataset_inv in H as (-> & [[E ->] | [E ->]]).
    + destruct v; try discriminate E; split; reflexivity.
    + rewrite E; split; reflexivity.
  - apply code_clean_dataset_inv in H as (E & -> & ->); auto.
Qed.

Lemma cleaned_dataset_type_witness :
  is_mapping (VDict [(VStr "file", VBytes [Byte.x00; Byte.x01])]) = true
  /\ VDict [(VStr "file", VBytes [Byte.x00; Byte.x01])]
     = (if is_str_or_bytes (VBytes [Byte.x00; Byte.x01])
        then VDict [(VStr "file", VBytes [Byte.x00; Byte.x01])]
        else VBytes [Byte.x00; Byte.x01]).
Proof.
  apply (cleaned_dataset_type (W := unit)
           DatasetQuizVariant (VBytes [Byte.x00; Byte.x01]) _
           (State tt []) (State tt [])).
  reflexivity.
Defined.

(** ** The wrapped check *)

Section WrapCheck.
Context {W : Type} {ser : Serialization}.

Lemma clean_hint_rejects (h : value) (s : state W) :
  is_str h = false ->
  BaseQuiz.clean_hint h s
  = (Raise (SystemExit (-1)), failed (Text "hint should be a str") s).
Proof. destruct h; try discriminate; reflexivity. Qed.

Lemma wrap_check_refines (check_fun : attr W) (reply clue : value) (s : state W) :
  BaseQuiz.wrap_check check_fun reply clue s
  = (raw <- call_user_code check_fun [reply; clue] ;; check_result_spec raw) s.
Proof.
  unfold BaseQuiz.wrap_check. apply bind_ext. intros raw s1.
  destruct raw; try reflexivity.
  destruct xs as [| a [| b [| c xs]]]; reflexivity.
Qed.

Lemma check_result_spec_inv (raw sc h : value) (s s' : state W) :
  check_result_spec raw s = (Ok (sc, h), s') ->
  s' = s /\ score_in_range sc = true /\ is_str h = true
  /\ (raw = VTuple [sc; h] \/ (is_tuple raw = false /\ raw = sc /\ h = VStr "")).
Proof.
  intros H.
  assert (K : forall a b,
             (x <- BaseQuiz.clean_score a ;;
              y <- BaseQuiz.clean_hint b ;; ret (x, y)) s = (Ok (sc, h), s') ->
             s' = s /\ score_in_range sc = true /\ is_str h = true
             /\ a = sc /\ b = h).
  { intros a b K.
    apply bind_inv_ok in K as (x & s1 & K1 & K).
    apply bind_inv_ok in K as (y & s2 & K2 & K).
    apply clean_score_inv in K1 as (E1 & -> & ->).
    apply clean_hint_inv in K2 as (E2 & -> & ->).
    inv K. auto. }
  destruct raw;
    try (apply K in H as (-> & E1 & E2 & <- & <-);
         repeat split; auto; right; repeat split; reflexivity).
  destruct xs as [| a [| b [| c xs]]]; try discriminate H.
  apply K in H as (-> & E1 & E2 & -> & ->). repeat split; auto.
Qed.

Lemma wrap_check_inv (check_fun : attr W) (reply clue sc h : value)
      (s s' : state W) :
  BaseQuiz.wrap_check check_fun reply clue s = (Ok (sc, h), s') ->
  score_in_range sc = true /\ is_str h = true
  /\ exists raw,
      call_user_code check_fun [reply; clue] s = (Ok raw, s')
      /\ (raw = VTuple [sc; h]
          \/ (is_tuple raw = false /\ raw = sc /\ h = VStr "")).
Proof.
  rewrite wrap_check_refines. intros H.
  apply bind_inv_ok in H as (raw & s1 & H1 & H).
  apply check_result_spec_inv in H as (-> & E1 & E2 & E).
  repeat split; auto. exists raw; auto.
Qed.
End WrapCheck.

(** C6: the wrapped check invokes the raw check and reads its result as
    [check_result_spec] says: a 2-tuple as (score, hint), a tuple of another
    length as a configuration error that ends in a fatal failure, anything
    else as the score with the empty hint; the score and the hint then go
    through [clean_score] and [clean_hint], a hint that is no string is
    fatal, and a pair that is returned holds a score of the range and a
    string. *)
Theorem wrap_check_contract {W : Type}
        (check_fun : attr W) (reply clue : value) (s : state W) :
  BaseQuiz.wrap_check check_fun reply clue s
  = (raw <- call_user_code check_fun [reply; clue] ;; check_result_spec raw) s
  /\ (forall xs s1,
         call_user_code check_fun [reply; clue] s = (Ok (VTuple xs), s1) ->
         List.length xs <> 2%nat ->
         BaseQuiz.wrap_check check_fun reply clue s
         = (Raise (SystemExit (-1)), failed check_tuple_message s1))
  /\ (forall raw s1,
         call_user_code check_fun [reply; clue] s = (Ok raw, s1) ->
         is_tuple raw = false ->
         BaseQuiz.wrap_check check_fun reply clue s
         = (sc <- BaseQuiz.clean_score raw ;; ret (sc, VStr "")) s1)
  /\ (forall sc h s1,
         call_user_code check_fun [reply; clue] s = (Ok (VTuple [sc; h]), s1) ->
         is_str h = false ->
         BaseQuiz.wrap_check check_fun reply clue s
         = (Raise (SystemExit (-1)),
            failed (if score_in_range sc
                    then Text "hint should be a str"
                    else Text "score should be a number in range [0, 1]") s1))
  /\ (forall sc h s',
         BaseQuiz.wrap_check check_fun reply clue s = (Ok (sc, h), s') ->
         score_in_range sc = true /\ is_str h = true).
Proof.
  split; [apply wrap_check_refines |].
  split; [| split; [| split]].
  - intros xs s1 H L. rewrite wrap_check_refines, (bind_ok _ _ _ _ _ H).
    destruct xs as [| a [| b [| c xs]]]; try reflexivity. now elim L.
  - intros raw s1 H T. rewrite wrap_check_refines, (bind_ok _ _ _ _ _ H).
    destruct raw; try discriminate T; unfold check_result_spec, bind;
      match goal with
      | |- context [BaseQuiz.clean_score ?v s1] =>
          destruct (BaseQuiz.clean_score v s1) as [[x | e] s2]; reflexivity
      end.
  - intros sc h s1 H E2.
    rewrite wrap_check_refines, (bind_ok _ _ _ _ _ H). cbn [check_result_spec].
    destruct (score_in_range sc) eqn:E1.
    + rewrite (bind_ok _ _ _ _ _ (clean_score_accepts sc s1 E1)).
      rewrite (bind_raise _ _ _ _ _ (clean_hint_rejects h s1 E2)). reflexivity.
    + rewrite (bind_raise _ _ _ _ _ (clean_score_rejects sc s1 E1)). reflexivity.
  - intros sc h s' H. apply wrap_check_inv in H as (E1 & E2 & _). auto.
Qed.

Lemma wrap_check_contract_witness :
  BaseQuiz.wrap_check (W := unit)
    (const_fun ["reply"; "clue"] (VTuple [VInt 1; VStr "well done"; VNone]))
    (VStr "42") VNone (State tt [])
  = (Raise (SystemExit (-1)), failed check_tuple_message (State tt []))
  /\ BaseQuiz.wrap_check (W := unit)
       (const_fun ["reply"; "clue"] (VFloat float_0_5))
       (VStr "42") VNone (State tt [])
     = (Ok (VFloat float_0_5, VStr ""), State tt [])
  /\ BaseQuiz.wrap_check (W := unit)
       (const_fun ["reply"; "clue"] (VTuple [VInt 1; VInt 7]))
       (VStr "42") VNone (State tt [])
     = (Raise (SystemExit (-1)), failed (Text "hint should be a str") (State tt []))
  /\ (score_in_range (VInt 1) = true /\ is_str (VStr "well done") = true).
Proof.
  split; [| split; [| split]].
  - apply (proj1 (proj2 (wrap_check_contract
                           (const_fun ["reply"; "clue"]
                                      (VTuple [VInt 1; VStr "well done"; VNone]))
                           (VStr "42") VNone (State tt [])))
                 [VInt 1; VStr "well done"; VNone] (State tt []));
      [reflexivity | discriminate].
  - apply (proj1 (proj2 (proj2 (wrap_check_contract
                                  (const_fun ["reply"; "clue"] (VFloat float_0_5))
                                  (VStr "42") VNone (State tt []))))
                 (VFloat float_0_5) (State tt [])); reflexivity.
  - apply (proj1 (proj2 (proj2 (proj2
             (wrap_check_contract
                (const_fun ["reply"; "clue"] (VTuple [VInt 1; VInt 7]))
                (VStr "42") VNone (State tt [])))))
                 (VInt 1) (VInt 7) (State tt [])); reflexivity.
  - apply (proj2 (proj2 (proj2 (proj2
             (wrap_check_contract (W := unit)
                (const_fun ["reply"; "clue"] (VTuple [VInt 1; VStr "well done"]))
                (VStr "42") VNone (State tt [])))))
                 (VInt 1) (VStr "well done") (State tt [])); reflexivity.
Defined.

(** ** The score *)

Lemma fatal_exit_status {W A} (s : state W) :
  exit_status (@Raise A (SystemExit (-1)), s) = 255%Z.
Proof. reflexivity. Qed.

(** C4: [clean_score] returns the value it was given, and prints nothing,
    exactly when that value denotes a real number of [0, 1]; on any other
    value it ends in the fatal failure, whose exit status is not zero. The
    floats 0.0 and 1.0 are accepted; 1.0001, -0.0001 and whatever is not a
    [numbers.Real] are rejected. The wrapped check applies this cleaner to
    the score of every result of the raw check: it is the raw call, then
    [clean_score] on the score of the result, then the hint; so a raw score
    outside [0, 1] ends the wrapped check in the fatal failure of
    [clean_score], a raw score inside is the score returned, and a score
    that the wrapped check returns is the score of the raw result and has
    passed the cleaner. *)
Theorem clean_score_unit_interval {W : Type} :
  (forall v (s : state W),
      in_unit_interval v -> BaseQuiz.clean_score v s = (Ok v, s))
  /\ (forall v (s : state W),
         ~ in_unit_interval v ->
         BaseQuiz.clean_score v s
         = (Raise (SystemExit (-1)),
            failed (Text "score should be a number in range [0, 1]") s)
         /\ exit_status (BaseQuiz.clean_score v s) <> 0%Z)
  /\ (forall s : state W,
         BaseQuiz.clean_score (VFloat float_0_0) s = (Ok (VFloat float_0_0), s)
         /\ BaseQuiz.clean_score (VFloat float_1_0) s = (Ok (VFloat float_1_0), s))
  /\ (forall s : state W,
         BaseQuiz.clean_score (VFloat float_1_0001) s
         = (Raise (SystemExit (-1)),
            failed (Text "score should be a number in range [0, 1]") s)
         /\ BaseQuiz.clean_score (VFloat float_neg_0_0001) s
            = (Raise (SystemExit (-1)),
               failed (Text "score should be a number in range [0, 1]") s))
  /\ (forall v (s : state W),
         is_real v = false ->
         BaseQuiz.clean_score v s
         = (Raise (SystemExit (-1)),
            failed (Text "score should be a number in range [0, 1]") s))
  /\ (forall (check_fun : attr W) reply clue s sc h s',
         BaseQuiz.wrap_check check_fun reply clue s = (Ok (sc, h), s') ->
         in_unit_interval sc /\ BaseQuiz.clean_score sc s' = (Ok sc, s'))
  /\ (forall (check_fun : attr W) reply clue s raw s1 score,
         call_user_code check_fun [reply; clue] s = (Ok raw, s1) ->
         raw_score raw = Some score ->
         BaseQuiz.wrap_check check_fun reply clue s
         = (sc <- BaseQuiz.clean_score score ;;
            h <- BaseQuiz.clean_hint (raw_hint raw) ;;
            ret (sc, h)) s1
         /\ (~ in_unit_interval score ->
             BaseQuiz.wrap_check check_fun reply clue s
             = (Raise (SystemExit (-1)),
                failed (Text "score should be a number in range [0, 1]") s1))
         /\ (in_unit_interval score ->
             BaseQuiz.wrap_check check_fun reply clue s
             = (h <- BaseQuiz.clean_hint (raw_hint raw) ;; ret (score, h)) s1))
  /\ (forall (check_fun : attr W) reply clue s sc h s',
         BaseQuiz.wrap_check check_fun reply clue s = (Ok (sc, h), s') ->
         exists raw, call_user_code check_fun [reply; clue] s = (Ok raw, s')
                     /\ raw_score raw = Some sc /\ raw_hint raw = h).
Proof.
  assert (N : forall v, ~ in_unit_interval v -> score_in_range v = false).
  { intros v I. destruct (score_in_range v) eqn:E; [| reflexivity].
    apply score_in_range_iff in E. contradiction. }
  split; [| split; [| split; [| split; [| split; [| split; [| split]]]]]].
  - intros v s I. apply clean_score_accepts, score_in_range_iff, I.
  - intros v s I. rewrite (clean_score_rejects v s (N v I)).
    split; [reflexivity | rewrite fatal_exit_status; discriminate].
  - intros s. split; reflexivity.
  - intros s. split; reflexivity.
  - intros v s E. apply clean_score_rejects.
    unfold score_in_range. rewrite E. reflexivity.
  - intros check_fun reply clue s sc h s' H.
    apply wrap_check_inv in H as (E & _).
    split; [now apply score_in_range_iff | now apply clean_score_accepts].
  - intros check_fun reply clue s raw s1 score C R.
    assert (E : BaseQuiz.wrap_check check_fun reply clue s
                = (sc <- BaseQuiz.clean_score score ;;
                   h <- BaseQuiz.clean_hint (raw_hint raw) ;;
                   ret (sc, h)) s1).
    { rewrite wrap_check_refines, (bind_ok _ _ _ _ _ C).
      destruct raw; cbn in R; inv R; try reflexivity.
      destruct xs as [| a [| b [| c xs]]]; inv H0. reflexivity. }
    split; [exact E | split].
    + intros I. rewrite E.
      apply bind_raise, clean_score_rejects, N, I.
    + intros I. rewrite E.
      apply score_in_range_iff in I.
      rewrite (bind_ok _ _ _ _ _ (clean_score_accepts score s1 I)). reflexivity.
  - intros check_fun reply clue s sc h s' H.
    apply wrap_check_inv in H as (_ & _ & raw & C & [-> | (T & -> & ->)]).
    + exists (VTuple [sc; h]). repeat split; assumption.
    + exists sc. split; [exact C |].
      destruct sc; try discriminate T; split; reflexivity.
Qed.

Lemma clean_score_unit_interval_witness :
  BaseQuiz.clean_score (W := unit)
    (VFraction 1 3) (State tt [])
  = (Ok (VFraction 1 3), State tt [])
  /\ (BaseQuiz.clean_score (W := unit)
        (VInt 2) (State tt [])
      = (Raise (SystemExit (-1)),
         failed (Text "score should be a number in range [0, 1]") (State tt []))
      /\ exit_status (BaseQuiz.clean_score (W := unit)
                        (VInt 2) (State tt [])) <> 0%Z)
  /\ BaseQuiz.clean_score (W := unit)
       (VStr "1") (State tt [])
     = (Raise (SystemExit (-1)),
        failed (Text "score should be a number in range [0, 1]") (State tt []))
  /\ (in_unit_interval (VFloat float_0_5)
      /\ BaseQuiz.clean_score (W := unit)
           (VFloat float_0_5) (State tt [])
         = (Ok (VFloat float_0_5), State tt []))
  /\ BaseQuiz.wrap_check (W := nat) (counting_fun ["reply"; "clue"] (VFloat float_1_5))
       (VStr "42") VNone (State 0%nat [])
     = (Raise (SystemExit (-1)),
        failed (Text "score should be a number in range [0, 1]") (State 1%nat []))
  /\ BaseQuiz.wrap_check (W := nat)
       (counting_fun ["reply"; "clue"] (VTuple [VFloat float_0_5; VStr "half"]))
       (VStr "42") VNone (State 0%nat [])
     = (h <- BaseQuiz.clean_hint (VStr "half") ;; ret (VFloat float_0_5, h))
         (State 1%nat [])
  /\ (exists raw,
         call_user_code (W := nat)
           (counting_fun ["reply"; "clue"] (VTuple [VFloat float_0_5; VStr "half"]))
           [VStr "42"; VNone] (State 0%nat [])
         = (Ok raw, State 1%nat [])
         /\ raw_score raw = Some (VFloat float_0_5) /\ raw_hint raw = VStr "half").
Proof.
  pose proof (clean_score_unit_interval (W := unit))
    as (Hin & Hout & _ & _ & Hnon & Hchk & _).
  pose proof (clean_score_unit_interval (W := nat))
    as (_ & _ & _ & _ & _ & _ & Hraw & Hret).
  split; [| split; [| split; [| split; [| split; [| split]]]]].
  - apply Hin. exists (1 # 3)%Q. split; [reflexivity | split; discriminate].
  - apply Hout. intros (q & Hq & _ & H1). inversion Hq; subst q. apply H1. reflexivity.
  - apply Hnon. reflexivity.
  - apply (Hchk (const_fun ["reply"; "clue"] (VFloat float_0_5))
                (VStr "42") VNone (State tt []) (VFloat float_0_5) (VStr "")).
    reflexivity.
  - apply (proj1 (proj2 (Hraw (counting_fun ["reply"; "clue"] (VFloat float_1_5))
                              (VStr "42") VNone (State 0%nat [])
                              (VFloat float_1_5) (State 1%nat []) (VFloat float_1_5)
                              eq_refl eq_refl))).
    intros (q & Hq & _ & H1). inversion Hq; subst q. apply H1. reflexivity.
  - apply (proj2 (proj2 (Hraw (counting_fun ["reply"; "clue"]
                                            (VTuple [VFloat float_0_5; VStr "half"]))
                              (VStr "42") VNone (State 0%nat [])
                              (VTuple [VFloat float_0_5; VStr "half"])
                              (State 1%nat []) (VFloat float_0_5)
                              eq_refl eq_refl))).
    eexists. split; [reflexivity | split; discriminate].
  - apply (Hret (counting_fun ["reply"; "clue"]
                              (VTuple [VFloat float_0_5; VStr "half"]))
                (VStr "42") VNone (State 0%nat []) (VFloat float_0_5) (VStr "half")
                (State 1%nat [])).
    reflexivity.
Defined.

(** ** The clue *)

Section CleanClue.
Context {W : Type} {ser : Serialization}.

Lemma clean_clue_run (clue : value) (s : state W) :
  BaseQuiz.clean_clue clue s
  = match round_trip clue with
    | Ok v => (Ok v, s)
    | Raise e => if is_TypeError_or_ValueError e
                 then unserializable clue s
                 else (Raise e, s)
    end.
Proof.
  unfold BaseQuiz.clean_clue, round_trip, unserializable; unfold_m.
  destruct (encode clue) as [b | e]; simpl.
  - destruct (decode b) as [v | e]; simpl; [reflexivity |].
    destruct (is_TypeError_or_ValueError e); reflexivity.
  - destruct (is_TypeError_or_ValueError e); reflexivity.
Qed.

Lemma clean_clue_inv (clue v : value) (s s' : state W) :
  BaseQuiz.clean_clue clue s = (Ok v, s') -> round_trip clue = Ok v /\ s' = s.
Proof.
  rewrite clean_clue_run. unfold unserializable.
  destruct (round_trip clue) as [v0 | e].
  - intros H; inv H; auto.
  - destruct (is_TypeError_or_ValueError e); discriminate.
Qed.
End CleanClue.

(** C7, as the code has it: when [clean_clue] returns, encode and then
    decode have both returned and the value is the decoded one; when encode
    or decode raises [TypeError] or [ValueError] the clue is rejected as
    unserializable by the fatal failure; any other exception leaves
    [clean_clue] as it is, with nothing printed. *)
Theorem clean_clue_round_trip {W : Type} {ser : Serialization}
        (clue : value) (s : state W) :
  (forall v s', BaseQuiz.clean_clue clue s = (Ok v, s') ->
                round_trip clue = Ok v /\ s' = s)
  /\ (forall e, round_trip clue = Raise e ->
                is_TypeError_or_ValueError e = true ->
                BaseQuiz.clean_clue clue s = unserializable clue s)
  /\ (forall e, round_trip clue = Raise e ->
                is_TypeError_or_ValueError e = false ->
                BaseQuiz.clean_clue clue s = (Raise e, s)).
Proof.
  split; [| split].
  - intros v s'. apply clean_clue_inv.
  - intros e H E. rewrite clean_clue_run, H, E. reflexivity.
  - intros e H E. rewrite clean_clue_run, H, E. reflexivity.
Qed.

Lemma clean_clue_round_trip_witness :
  (BaseQuiz.clean_clue (ser := copying_serialization) (VStr "key") (State tt [])
   = (Ok (VStr "key"), State tt []) /\
   round_trip (ser := copying_serialization) (VStr "key") = Ok (VStr "key"))
  /\ BaseQuiz.clean_clue (ser := copying_serialization) (VObj "socket") (State tt [])
     = unserializable (VObj "socket") (State tt [])
  /\ BaseQuiz.clean_clue (ser := shallow_serialization) (VList []) (State tt [])
     = (Raise (OtherError "RecursionError"), State tt []).
Proof.
  split; [| split].
  - split; [reflexivity |].
    apply (proj1 (clean_clue_round_trip (ser := copying_serialization)
                    (VStr "key") (State tt []))
                 (VStr "key") (State tt [])).
    reflexivity.
  - apply (proj1 (proj2 (clean_clue_round_trip (ser := copying_serialization)
                           (VObj "socket") (State tt [])))
                 TypeError); reflexivity.
  - apply (proj2 (proj2 (clean_clue_round_trip (ser := shallow_serialization)
                           (VList []) (State tt [])))
                 (OtherError "RecursionError")); reflexivity.
Defined.

(** C7 as stated fails: a round trip that raises [RecursionError] is not
    turned into the fatal failure; the exception leaves [clean_clue] and
    standard error stays empty. *)
Lemma clean_clue_raise_not_fatal :
  round_trip (ser := shallow_serialization) (VList [])
  = Raise (OtherError "RecursionError")
  /\ BaseQuiz.clean_clue (ser := shallow_serialization) (VList []) (State tt [])
     = (Raise (OtherError "RecursionError"), State tt [])
  /\ BaseQuiz.clean_clue (ser := shallow_serialization) (VList []) (State tt [])
     <> unserializable (VList []) (State tt []).
Proof.
  split; [reflexivity | split; [reflexivity | discriminate]].
Qed.

(** ** Signatures and the construction of a DatasetQuiz *)

Section Signatures.
Context {W : Type}.

Lemma check_signatures_run (specs : list (string * attr W * nat)) (s : state W) :
  check_signatures specs s
  = match first_signature_error specs with
    | None => (Ok tt, s)
    | Some t => (Raise (SystemExit (-1)), failed t s)
    end.
Proof.
  induction specs as [| [[name f] n] specs IH]; [reflexivity |].
  cbn [check_signatures first_signature_error signature_error].
  destruct f as [g | v].
  - cbn [callable negb signature]. unfold bind at 1 2. cbn [ret].
    destruct (Nat.eqb (List.length (params g)) n); cbn [negb].
    + unfold bind, ret. exact IH.
    + reflexivity.
  - reflexivity.
Qed.

Lemma wrap_solve_run (solve_fun : attr W) (dataset : value) (s : state W) :
  BaseQuiz.wrap_solve solve_fun dataset s
  = (answer <- call_user_code solve_fun [unwrap_file dataset] ;;
     BaseQuiz.clean_answer answer) s.
Proof.
  unfold BaseQuiz.wrap_solve.
  destruct dataset; try reflexivity.
  destruct items as [| [k v] [| kv items]]; cbn [existsb List.length Nat.eqb fst].
  - reflexivity.
  - rewrite orb_false_r, andb_true_r. unfold unwrap_file, dict_get_file.
    destruct (is_file_key k); reflexivity.
  - rewrite andb_false_r. reflexivity.
Qed.

Lemma default_solve_call (solve_fun : attr W) (dataset : value) :
  call (DatasetQuiz.default_solve solve_fun) [dataset] = call solve_fun [].
Proof. reflexivity. Qed.

End Signatures.

(** C3: a [DatasetQuiz] of a module without [generate] is built exactly
    when [solve] declares no parameter and [check] declares one. Otherwise
    the construction ends in the fatal failure; for a function of the wrong
    arity the message names the function, the expected number of parameters
    and the parameters declared. The contract that is built generates
    [({}, "")] (the clue goes through [clean_clue] like any other), its
    solve calls the raw solve with no argument whatever the dataset, and its
    check calls the raw check on the reply alone whatever the clue. *)
Theorem dataset_quiz_without_generate {W : Type} {ser : Serialization}
        (solve_fun check_fun : attr W) (s : state W) :
  let implicit := BaseQuiz.init DatasetQuiz.default_generate
                                (DatasetQuiz.default_solve solve_fun)
                                (DatasetQuiz.default_check check_fun) in
  (declares solve_fun 0 && declares check_fun 1 = true ->
   DatasetQuiz.init (Val VNone) solve_fun check_fun s = (Ok implicit, s))
  /\ (declares solve_fun 0 && declares check_fun 1 = false ->
      exists t, DatasetQuiz.init (Val VNone) solve_fun check_fun s
                = (Raise (SystemExit (-1)), failed t s))
  /\ (forall g, solve_fun = Fn g -> declares solve_fun 0 = false ->
                DatasetQuiz.init (Val VNone) solve_fun check_fun s
                = (Raise (SystemExit (-1)),
                   failed (arity_message "solve" 0 (params g)) s))
  /\ (forall h, declares solve_fun 0 = true -> check_fun = Fn h ->
                declares check_fun 1 = false ->
                DatasetQuiz.init (Val VNone) solve_fun check_fun s
                = (Raise (SystemExit (-1)),
                   failed (arity_message "check" 1 (params h)) s))
  /\ (forall w, call (W := W) DatasetQuiz.default_generate [] w
                = (Ok (VTuple [VDict []; VStr ""]), w))
  /\ (forall s1, generate implicit s1
                 = (clue <- BaseQuiz.clean_clue (VStr "") ;;
                    ret (VDict [], clue)) s1)
  /\ (forall dataset s1,
         solve implicit dataset s1
         = (answer <- call_user_code solve_fun [] ;;
            BaseQuiz.clean_answer answer) s1)
  /\ (forall reply clue s1,
         check implicit reply clue s1
         = (raw <- call_user_code check_fun [reply] ;; check_result_spec raw) s1).
Proof.
  intros implicit.
  assert (I : DatasetQuiz.init (Val VNone) solve_fun check_fun s
              = match first_signature_error
                        [("solve", solve_fun, 0%nat); ("check", check_fun, 1%nat)] with
                | None => (Ok implicit, s)
                | Some t => (Raise (SystemExit (-1)), failed t s)
                end).
  { unfold DatasetQuiz.init, bind. rewrite check_signatures_run.
    destruct (first_signature_error _); reflexivity. }
  split; [| split; [| split; [| split; [| split; [| split; [| split]]]]]].
  - intros D. apply andb_true_iff in D as [D1 D2]. rewrite I.
    destruct solve_fun as [g |]; [| discriminate D1].
    destruct check_fun as [h |]; [| discriminate D2].
    simpl in D1, D2 |- *. rewrite D1, D2. reflexivity.
  - intros D. rewrite I.
    destruct solve_fun as [g | v]; [| eexists; reflexivity]. simpl in D |- *.
    destruct (Nat.eqb (List.length (params g)) 0); [| eexists; reflexivity].
    destruct check_fun as [h | v]; [| eexists; reflexivity]. simpl in D |- *.
    rewrite D. eexists; reflexivity.
  - intros g -> D. rewrite I. simpl in D |- *. rewrite D. reflexivity.
  - intros h D1 -> D2. rewrite I.
    destruct solve_fun as [g |]; [| discriminate D1].
    simpl in D1, D2 |- *. rewrite D1, D2. reflexivity.
  - reflexivity.
  - intros s1. unfold implicit, BaseQuiz.init; cbn [generate].
    unfold BaseQuiz.wrap_generate.
    rewrite (bind_ok _ _ _ _ _
               (call_user_code_returns DatasetQuiz.default_generate [] s1 _ _ eq_refl)).
    rewrite state_eta. reflexivity.
  - intros dataset s1. unfold implicit, BaseQuiz.init; cbn [solve].
    rewrite wrap_solve_run. apply (f_equal (fun m => bind m _ s1)).
    unfold call_user_code. rewrite default_solve_call. reflexivity.
  - intros reply clue s1. unfold implicit, BaseQuiz.init; cbn [check].
    rewrite wrap_check_refines. reflexivity.
Qed.

Lemma dataset_quiz_without_generate_witness :
  DatasetQuiz.init (W := unit) (ser := copying_serialization)
    (Val VNone) (const_fun [] (VStr "42")) check_42 (State tt [])
  = (Ok (BaseQuiz.init (ser := copying_serialization)
                       DatasetQuiz.default_generate
                       (DatasetQuiz.default_solve (const_fun [] (VStr "42")))
                       (DatasetQuiz.default_check check_42)),
     State tt [])
  /\ (exists t,
         DatasetQuiz.init (W := unit) (ser := copying_serialization)
           (Val VNone) (const_fun ["dataset"] (VStr "42")) check_42 (State tt [])
         = (Raise (SystemExit (-1)), failed t (State tt [])))
  /\ DatasetQuiz.init (W := unit) (ser := copying_serialization)
       (Val VNone) (const_fun ["dataset"] (VStr "42")) check_42 (State tt [])
     = (Raise (SystemExit (-1)),
        failed (Text "Expected `solve` with 0 arguments, got dataset.") (State tt []))
  /\ DatasetQuiz.init (W := unit) (ser := copying_serialization)
       (Val VNone) (const_fun [] (VStr "42")) (const_fun ["reply"; "clue"] (VInt 1))
       (State tt [])
     = (Raise (SystemExit (-1)),
        failed (Text "Expected `check` with 1 arguments, got reply, clue.")
               (State tt [])).
Proof.
  split; [| split; [| split]].
  - apply (proj1 (dataset_quiz_without_generate (ser := copying_serialization)
                    (const_fun [] (VStr "42")) check_42 (State tt []))).
    reflexivity.
  - apply (proj1 (proj2 (dataset_quiz_without_generate (ser := copying_serialization)
                           (const_fun ["dataset"] (VStr "42")) check_42 (State tt [])))).
    reflexivity.
  - apply (proj1 (proj2 (proj2
             (dataset_quiz_without_generate (ser := copying_serialization)
                (const_fun ["dataset"] (VStr "42")) check_42 (State tt []))))
                 (PyFun ["dataset"] (fun _ w => (Ok (VStr "42"), w))));
      reflexivity.
  - apply (proj1 (proj2 (proj2 (proj2
             (dataset_quiz_without_generate (ser := copying_serialization)
                (const_fun [] (VStr "42")) (const_fun ["reply"; "clue"] (VInt 1))
                (State tt [])))))
                 (PyFun ["reply"; "clue"] (fun _ w => (Ok (VInt 1), w))));
      reflexivity.
Defined.

(** ** The case list of a CodeQuiz *)

Section CodeGenerate.
Context {W : Type} {ser : Serialization}.

Lemma mapM_map {A B C} (f : B -> M W C) (g : A -> B) (xs : list A) (s : state W) :
  mapM f (map g xs) s = mapM (fun x => f (g x)) xs s.
Proof.
  revert s; induction xs as [| x xs IH]; intros s; [reflexivity |].
  cbn [map mapM]. apply bind_ext; intros y s1.
  unfold bind. rewrite IH. reflexivity.
Qed.

Lemma mapM_ext {A B} (f g : A -> M W B) (xs : list A) (s : state W) :
  (forall x s', f x s' = g x s') -> mapM f xs s = mapM g xs s.
Proof.
  intros E; revert s; induction xs as [| x xs IH]; intros s; [reflexivity |].
  cbn [mapM]. unfold bind. rewrite E.
  destruct (g x s) as [[y | e] s1]; [| reflexivity].
  rewrite IH. reflexivity.
Qed.

(** The first components of what a comprehension returns. *)
Lemma mapM_fst {A} (key : A -> value) (f : A -> M W value)
      (xs : list A) (s s' : state W) (cases : list (value * value)) :
  mapM (fun x => c <- f x ;; ret (key x, c)) xs s = (Ok cases, s') ->
  map fst cases = map key xs.
Proof.
  revert s cases; induction xs as [| x xs IH]; intros s cases H.
  - inv H. reflexivity.
  - cbn [mapM] in H.
    apply bind_inv_ok in H as ([k c] & s1 & H1 & H).
    apply bind_inv_ok in H as (ys & s2 & H2 & H).
    apply bind_inv_ok in H1 as (c' & s3 & _ & H1).
    inv H1. inv H. cbn [map fst]. f_equal. eapply IH, H2.
Qed.

Lemma forallb_exists_false {A} (p q : A -> bool) (xs : list A) :
  existsb p xs = true -> (forall x, p x = true -> q x = false) ->
  forallb q xs = false.
Proof.
  intros E H. apply existsb_exists in E as (x & I & Px).
  destruct (forallb q xs) eqn:F; [| reflexivity].
  rewrite forallb_forall in F. specialize (F x I). rewrite (H x Px) in F.
  discriminate F.
Qed.

Lemma strings_are_datasets (ds : list string) :
  forallb CodeQuiz.is_dataset (map VStr ds) = true.
Proof. induction ds; [reflexivity | assumption]. Qed.

Lemma pairs_are_datasets_and_clues (ps : list (string * value)) :
  forallb CodeQuiz.is_dataset_and_clue (map pair_value ps) = true.
Proof. induction ps; [reflexivity | assumption]. Qed.

Lemma pairs_are_not_datasets (ps : list (string * value)) :
  ps <> [] -> forallb CodeQuiz.is_dataset (map pair_value ps) = false.
Proof. destruct ps; [intros H; now elim H | reflexivity]. Qed.

Lemma wrap_generate_not_list (self_solve : value -> M W value)
      (generate_fun : attr W) (s s1 : state W) (v : value) :
  call_user_code generate_fun [] s = (Ok v, s1) ->
  is_list v = false ->
  CodeQuiz.wrap_generate self_solve generate_fun s
  = (Raise (SystemExit (-1)), failed (not_a_list_message v) s1).
Proof.
  intros H L. unfold CodeQuiz.wrap_generate. rewrite (bind_ok _ _ _ _ _ H).
  destruct v; try discriminate L; reflexivity.
Qed.

Lemma wrap_generate_mixed (self_solve : value -> M W value)
      (generate_fun : attr W) (s s1 : state W) (xs : list value) :
  call_user_code generate_fun [] s = (Ok (VList xs), s1) ->
  mixes_strings_and_pairs xs = true ->
  CodeQuiz.wrap_generate self_solve generate_fun s
  = (Raise (SystemExit (-1)), failed (not_uniform_message (VList xs)) s1).
Proof.
  intros H Mx. apply andb_true_iff in Mx as [Ms Mp].
  unfold CodeQuiz.wrap_generate. rewrite (bind_ok _ _ _ _ _ H).
  rewrite (forallb_exists_false is_pair CodeQuiz.is_dataset xs Mp).
  - rewrite (forallb_exists_false is_str CodeQuiz.is_dataset_and_clue xs Ms).
    + reflexivity.
    + intros [] E; try discriminate E; reflexivity.
  - intros [] E; try discriminate E; reflexivity.
Qed.

Lemma wrap_generate_strings (self_solve : value -> M W value)
      (generate_fun : attr W) (s s1 : state W) (ds : list string) :
  call_user_code generate_fun [] s = (Ok (VList (map VStr ds)), s1) ->
  CodeQuiz.wrap_generate self_solve generate_fun s
  = mapM (fun d => clue <- (answer <- self_solve (VStr d) ;;
                            BaseQuiz.clean_clue answer) ;;
                   ret (VStr d, clue)) ds s1.
Proof.
  intros H. unfold CodeQuiz.wrap_generate. rewrite (bind_ok _ _ _ _ _ H).
  rewrite strings_are_datasets, mapM_map.
  apply mapM_ext. intros d s'. unfold CodeQuiz.clean_dataset, bind, ret.
  destruct (self_solve (VStr d) s') as [[a | e] s2]; [| reflexivity].
  destruct (BaseQuiz.clean_clue a s2) as [[c | e] s3]; reflexivity.
Qed.

Lemma wrap_generate_pairs (self_solve : value -> M W value)
      (generate_fun : attr W) (s s1 : state W) (ps : list (string * value)) :
  call_user_code generate_fun [] s = (Ok (VList (map pair_value ps)), s1) ->
  CodeQuiz.wrap_generate self_solve generate_fun s
  = mapM (fun p => clue <- BaseQuiz.clean_clue (snd p) ;;
                   ret (VStr (fst p), clue)) ps s1.
Proof.
  intros H. unfold CodeQuiz.wrap_generate. rewrite (bind_ok _ _ _ _ _ H).
  destruct ps as [| p ps]; [reflexivity |].
  rewrite pairs_are_not_datasets by discriminate.
  rewrite pairs_are_datasets_and_clues, mapM_map.
  apply mapM_ext. intros [d c] s'. unfold pair_value. cbn [fst snd].
  unfold CodeQuiz.unpack_pair, unpack2, CodeQuiz.clean_dataset, lift, bind, ret.
  destruct (BaseQuiz.clean_clue c s') as [[c' | e] s2]; reflexivity.
Qed.
Lemma wrap_solve_returns_str (solve_fun : attr W) (d a : string) (s : state W) (w : W) :
  call solve_fun [VStr d] (world s) = (Ok (VStr a), w) ->
  BaseQuiz.wrap_solve solve_fun (VStr d) s = (Ok (VStr a), State w (stderr s)).
Proof.
  intros H. rewrite wrap_solve_run. cbn [unwrap_file].
  rewrite (bind_ok _ _ _ _ _ (call_user_code_returns _ _ _ _ _ H)). reflexivity.
Qed.

(** A raw solve that returns a string on every string, and a serializer
    that takes every string, make the comprehension return. *)
Lemma strings_comprehension_returns (solve_fun : attr W) (ds : list string) :
  (forall d w, exists a w', call solve_fun [VStr d] w = (Ok (VStr a), w')) ->
  (forall a, exists c, round_trip (VStr a) = Ok c) ->
  forall s, exists cases s',
    mapM (fun d => clue <- (answer <- BaseQuiz.wrap_solve solve_fun (VStr d) ;;
                            BaseQuiz.clean_clue answer) ;;
                   ret (VStr d, clue)) ds s = (Ok cases, s')
    /\ List.length cases = List.length ds.
Proof.
  intros Hs Hr. induction ds as [| d ds IH]; intros s.
  - exists [], s. split; reflexivity.
  - destruct (Hs d (world s)) as (a & w' & Ha).
    destruct (Hr a) as (c & Hc).
    destruct (IH (State w' (stderr s))) as (cases & s' & Hm & Hl).
    exists ((VStr d, c) :: cases), s'. split; [| simpl; now rewrite Hl].
    cbn [mapM].
    assert (E : (answer <- BaseQuiz.wrap_solve solve_fun (VStr d) ;;
                 BaseQuiz.clean_clue answer) s = (Ok c, State w' (stderr s))).
    { rewrite (bind_ok _ _ _ _ _ (wrap_solve_returns_str _ _ _ _ _ Ha)).
      rewrite clean_clue_run, Hc. reflexivity. }
    rewrite (bind_ok _ _ _ _ _ (bind_ok _ _ _ _ _ E)).
    unfold ret at 1. rewrite (bind_ok _ _ _ _ _ Hm). reflexivity.
Qed.
(** Clues that the serializer takes are returned as it decodes them, and
    the comprehension leaves the state alone. *)
Lemma pairs_comprehension_returns (ps : list (string * value)) (cs : list value)
      (s : state W) :
  Forall2 (fun p c => round_trip (snd p) = Ok c) ps cs ->
  mapM (fun p => clue <- BaseQuiz.clean_clue (snd p) ;;
                 ret (VStr (fst p), clue)) ps s
  = (Ok (combine (map (fun p => VStr (fst p)) ps) cs), s).
Proof.
  induction 1 as [| p c ps cs Hc _ IH]; [reflexivity |].
  cbn [mapM map combine].
  assert (E : (clue <- BaseQuiz.clean_clue (snd p) ;; ret (VStr (fst p), clue)) s
              = (Ok (VStr (fst p), c), s)).
  { unfold bind. rewrite clean_clue_run, Hc. reflexivity. }
  rewrite (bind_ok _ _ _ _ _ E), (bind_ok _ _ _ _ _ IH). reflexivity.
Qed.
End CodeGenerate.

(** C2: the wrapped generate of a [CodeQuiz] ends in the fatal failure when
    the raw result is no list, and when the list holds a bare string and a
    2-tuple. On a list of strings it runs, element after element, the
    wrapped solve and [clean_clue] on the answer, and what it returns pairs
    each string with that clue; it does return when the raw solve returns a
    string on every string and the serializer takes every string. On a list
    of (string, clue) tuples it pairs each string with its cleaned clue: the
    decoded clues, when the serializer takes them all. In both cases the
    datasets returned are the strings of the raw list, in order. *)
Theorem code_quiz_generate_shapes {W : Type} {ser : Serialization}
        (generate_fun solve_fun : attr W) (s s1 : state W) (raw : value) :
  call_user_code generate_fun [] s = (Ok raw, s1) ->
  let wrapped_solve := BaseQuiz.wrap_solve solve_fun in
  let wrapped_generate := CodeQuiz.wrap_generate wrapped_solve generate_fun in
  (is_list raw = false ->
   wrapped_generate s = (Raise (SystemExit (-1)), failed (not_a_list_message raw) s1))
  /\ (forall xs, raw = VList xs -> mixes_strings_and_pairs xs = true ->
                 wrapped_generate s
                 = (Raise (SystemExit (-1)), failed (not_uniform_message raw) s1))
  /\ (forall ds, raw = VList (map VStr ds) ->
                 wrapped_generate s
                 = mapM (fun d => clue <- (answer <- wrapped_solve (VStr d) ;;
                                           BaseQuiz.clean_clue answer) ;;
                                  ret (VStr d, clue)) ds s1
                 /\ forall cases s', wrapped_generate s = (Ok cases, s') ->
                                     map fst cases = map VStr ds)
  /\ (forall ds, raw = VList (map VStr ds) ->
                 (forall d w, exists a w',
                       call solve_fun [VStr d] w = (Ok (VStr a), w')) ->
                 (forall a, exists c, round_trip (VStr a) = Ok c) ->
                 exists cases s', wrapped_generate s = (Ok cases, s')
                                  /\ List.length cases = List.length ds)
  /\ (forall ps, raw = VList (map pair_value ps) ->
                 wrapped_generate s
                 = mapM (fun p => clue <- BaseQuiz.clean_clue (snd p) ;;
                                  ret (VStr (fst p), clue)) ps s1
                 /\ (forall cases s', wrapped_generate s = (Ok cases, s') ->
                                      map fst cases = map (fun p => VStr (fst p)) ps)
                 /\ (forall cs,
                        Forall2 (fun p c => round_trip (snd p) = Ok c) ps cs ->
                        wrapped_generate s
                        = (Ok (combine (map (fun p => VStr (fst p)) ps) cs), s1))).
Proof.
  intros H wrapped_solve wrapped_generate.
  split; [| split; [| split; [| split]]].
  - intros L. now apply wrap_generate_not_list.
  - intros xs -> Mx. now apply wrap_generate_mixed.
  - intros ds ->.
    pose proof (wrap_generate_strings wrapped_solve _ _ _ _ H) as E.
    split; [exact E |]. intros cases s' R.
    unfold wrapped_generate in R. rewrite E in R.
    apply (mapM_fst VStr _ _ _ _ _ R).
  - intros ds -> Hs Hr. unfold wrapped_generate.
    rewrite (wrap_generate_strings wrapped_solve _ _ _ _ H).
    apply strings_comprehension_returns; assumption.
  - intros ps ->.
    pose proof (wrap_generate_pairs wrapped_solve _ _ _ _ H) as E.
    split; [exact E | split].
    + intros cases s' R. unfold wrapped_generate in R. rewrite E in R.
      apply (mapM_fst (fun p => VStr (fst p)) _ _ _ _ _ R).
    + intros cs F. unfold wrapped_generate. rewrite E.
      now apply pairs_comprehension_returns.
Qed.

Lemma code_quiz_generate_shapes_witness :
  let solve_fun := const_fun (W := unit) ["dataset"] (VStr "4") in
  let wrapped (generate_fun : attr unit) :=
    CodeQuiz.wrap_generate (ser := copying_serialization)
      (BaseQuiz.wrap_solve solve_fun) generate_fun (State tt []) in
  wrapped (const_fun [] (VStr "2 2"))
  = (Raise (SystemExit (-1)), failed (not_a_list_message (VStr "2 2")) (State tt []))
  /\ wrapped (const_fun [] (VList [VStr "2 2"; VTuple [VStr "1 3"; VStr "4"]]))
     = (Raise (SystemExit (-1)),
        failed (not_uniform_message (VList [VStr "2 2"; VTuple [VStr "1 3"; VStr "4"]]))
               (State tt []))
  /\ wrapped (const_fun [] (VList [VStr "2 2"; VStr "1 3"]))
     = (Ok [(VStr "2 2", VStr "4"); (VStr "1 3", VStr "4")], State tt [])
  /\ (exists cases s',
         wrapped (const_fun [] (VList [VStr "2 2"; VStr "1 3"])) = (Ok cases, s')
         /\ List.length cases = 2%nat)
  /\ wrapped (const_fun [] (VList [VTuple [VStr "2 2"; VInt 4]]))
     = (Ok [(VStr "2 2", VInt 4)], State tt []).
Proof.
  intros solve_fun wrapped.
  split; [| split; [| split; [| split]]].
  - apply (proj1 (code_quiz_generate_shapes (ser := copying_serialization)
                    (const_fun [] (VStr "2 2")) solve_fun
                    (State tt []) (State tt []) (VStr "2 2") eq_refl)).
    reflexivity.
  - apply (proj1 (proj2 (code_quiz_generate_shapes (ser := copying_serialization)
                    (const_fun [] (VList [VStr "2 2"; VTuple [VStr "1 3"; VStr "4"]]))
                    solve_fun (State tt []) (State tt []) _ eq_refl))
                 [VStr "2 2"; VTuple [VStr "1 3"; VStr "4"]]); reflexivity.
  - apply (proj1 (proj1 (proj2 (proj2
             (code_quiz_generate_shapes (ser := copying_serialization)
                (const_fun [] (VList [VStr "2 2"; VStr "1 3"]))
                solve_fun (State tt []) (State tt []) _ eq_refl)))
                 ["2 2"; "1 3"] eq_refl)).
  - apply (proj1 (proj2 (proj2 (proj2
             (code_quiz_generate_shapes (ser := copying_serialization)
                (const_fun [] (VList [VStr "2 2"; VStr "1 3"]))
                solve_fun (State tt []) (State tt []) _ eq_refl))))
                 ["2 2"; "1 3"] eq_refl).
    + intros d w. exists "4", w. reflexivity.
    + intros a. exists (VStr a). reflexivity.
  - apply (proj2 (proj2 (proj2 (proj2 (proj2 (proj2
             (code_quiz_generate_shapes (ser := copying_serialization)
                (const_fun [] (VList [VTuple [VStr "2 2"; VInt 4]]))
                solve_fun (State tt []) (State tt []) _ eq_refl))))
                 [("2 2", VInt 4)] eq_refl)) [VInt 4]).
    repeat constructor.
Defined.

(** ** The self checks *)

Section SelfCheck.
Context {W : Type}.

Lemma SFeqb_exact (f g : spec_float) (p q : Q) :
  valid_binary prec64 emax64 f = true ->
  valid_binary prec64 emax64 g = true ->
  SF2Q f = Some p -> SF2Q g = Some q ->
  SFeqb f g = true <-> (p == q)%Q.
Proof.
  intros Vf Vg Hp Hq. unfold SFeqb.
  rewrite (SFcompare_exact f g p q Vf Vg Hp Hq), Qeq_alt.
  destruct (p ?= q)%Q; split; intros H; try reflexivity; discriminate H.
Qed.

(** [score == 1] holds exactly of the values that denote the number 1. *)
Lemma eq_one_iff (v : value) :
  eq_one v = true <-> exists r, real_value v = Some r /\ (r == 1)%Q.
Proof.
  unfold eq_one.
  destruct v as [ | b | n | [f Vf] | n d | | | | | | ];
    try (simpl; split; [discriminate | intros (q & H & _); discriminate H]);
    cbn [exact_value real_value float_1_0 f64_val].
  - rewrite Qeq_bool_iff.
    split; [intros H; eexists; split; [reflexivity | exact H]
           | intros (q & H & Hq); inv H; exact Hq].
  - rewrite Qeq_bool_iff.
    split; [intros H; eexists; split; [reflexivity | exact H]
           | intros (q & H & Hq); inv H; exact Hq].
  - destruct (SF2Q f) as [q |] eqn:Hq.
    + rewrite (SFeqb_exact f (S754_finite false 4503599627370496 (-52)) q _
                           Vf eq_refl Hq eq_refl), SF2Q_one.
      split; [intros H; eexists; split; [reflexivity | exact H]
             | intros (q' & H & Hq'); inv H; exact Hq'].
    + split; [| intros (q & H & _); discriminate H].
      destruct f as [ | [|] | | ]; try discriminate Hq; simpl; discriminate.
  - rewrite Qeq_bool_iff.
    split; [intros H; eexists; split; [reflexivity | exact H]
           | intros (q & H & Hq); inv H; exact Hq].
Qed.

Lemma dataset_self_check_iff (q : quiz W (value * value)) (s s' : state W) (b : bool) :
  DatasetQuiz.self_check q s = (Ok b, s')
  <-> exists dataset clue answer score hint s1 s2,
      generate q s = (Ok (dataset, clue), s1)
      /\ solve q dataset s1 = (Ok answer, s2)
      /\ check q answer clue s2 = (Ok (score, hint), s')
      /\ b = eq_one score.
Proof.
  unfold DatasetQuiz.self_check. split.
  - intros H.
    apply bind_inv_ok in H as ([dataset clue] & s1 & Hg & H).
    apply bind_inv_ok in H as (answer & s2 & Hs & H).
    apply bind_inv_ok in H as ([score hint] & s3 & Hc & H).
    inv H. exists dataset, clue, answer, score, hint, s1, s2. auto.
  - intros (dataset & clue & answer & score & hint & s1 & s2 & Hg & Hs & Hc & ->).
    rewrite (bind_ok _ _ _ _ _ Hg). cbn beta iota.
    rewrite (bind_ok _ _ _ _ _ Hs), (bind_ok _ _ _ _ _ Hc). reflexivity.
Qed.

Lemma is_correct_true_iff {G} (q : quiz W G)
      (dataset clue : value) (s s' : state W) :
  (answer <- solve q dataset ;;
   '(score, hint) <- check q answer clue ;;
   ret (eq_one score)) s = (Ok true, s')
  <-> exists answer score hint s1,
      solve q dataset s = (Ok answer, s1)
      /\ check q answer clue s1 = (Ok (score, hint), s')
      /\ eq_one score = true.
Proof.
  split.
  - intros H.
    apply bind_inv_ok in H as (answer & s1 & Hs & H).
    apply bind_inv_ok in H as ([score hint] & s2 & Hc & H).
    inv H. exists answer, score, hint, s1. auto.
  - intros (answer & score & hint & s1 & Hs & Hc & E).
    rewrite (bind_ok _ _ _ _ _ Hs), (bind_ok _ _ _ _ _ Hc).
    cbn beta iota. unfold ret. now rewrite E.
Qed.

Lemma all_starmap_true_iff (q : quiz W (list (value * value)))
      (cases : list (value * value)) (s s' : state W) :
  all_starmap (CodeQuiz.is_correct q) cases s = (Ok true, s')
  <-> all_perfect q cases s s'.
Proof.
  split.
  - revert s. induction cases as [| [dataset clue] cases IH]; intros s H.
    + inv H. constructor.
    + cbn [all_starmap] in H.
      apply bind_inv_ok in H as (ok & s1 & Hc & H).
      destruct ok; [| discriminate H].
      apply is_correct_true_iff in Hc as (answer & score & hint & s0 & Hs & Hc & E).
      econstructor; eauto.
  - induction 1 as [s | dataset clue answer score hint cases s s1 s2 s3 Hs Hc E _ IH].
    + reflexivity.
    + cbn [all_starmap].
      assert (K : CodeQuiz.is_correct q dataset clue s = (Ok true, s2)).
      { apply is_correct_true_iff. exists answer, score, hint, s1. auto. }
      rewrite (bind_ok _ _ _ _ _ K). exact IH.
Qed.

Lemma code_self_check_iff (q : quiz W (list (value * value))) (s s' : state W) :
  CodeQuiz.self_check q s = (Ok true, s')
  <-> exists cases s1, generate q s = (Ok cases, s1) /\ all_perfect q cases s1 s'.
Proof.
  unfold CodeQuiz.self_check. split.
  - intros H. apply bind_inv_ok in H as (cases & s1 & Hg & H).
    exists cases, s1. split; [exact Hg | now apply all_starmap_true_iff].
  - intros (cases & s1 & Hg & H).
    rewrite (bind_ok _ _ _ _ _ Hg). now apply all_starmap_true_iff.
Qed.
End SelfCheck.

(** C5: the self check of a [DatasetQuiz] returns a boolean exactly when
    the wrapped generate, then the wrapped solve on the dataset, then the
    wrapped check on the answer and the clue have returned, one after the
    other on the states they leave, and the boolean is [score == 1]; the
    self check of a [CodeQuiz] returns true exactly when the wrapped
    generate has returned the cases and every case, in order, is solved and
    checked with [score == 1]; and [score == 1] holds exactly of a score
    that denotes the number 1. *)
Theorem self_check_oracles {W : Type} :
  (forall (q : quiz W (value * value)) (s s' : state W) (b : bool),
      DatasetQuiz.self_check q s = (Ok b, s')
      <-> exists dataset clue answer score hint s1 s2,
          generate q s = (Ok (dataset, clue), s1)
          /\ solve q dataset s1 = (Ok answer, s2)
          /\ check q answer clue s2 = (Ok (score, hint), s')
          /\ b = eq_one score)
  /\ (forall (q : quiz W (list (value * value))) (s s' : state W),
         CodeQuiz.self_check q s = (Ok true, s')
         <-> exists cases s1,
             generate q s = (Ok cases, s1) /\ all_perfect q cases s1 s')
  /\ (forall score : value,
         eq_one score = true
         <-> exists r, real_value score = Some r /\ (r == 1)%Q).
Proof.
  split; [| split].
  - intros q s s' b. apply dataset_self_check_iff.
  - intros q s s'. apply code_self_check_iff.
  - apply eq_one_iff.
Qed.

Lemma self_check_oracles_witness :
  DatasetQuiz.self_check
    (BaseQuiz.init (ser := copying_serialization)
       (counting_fun [] (VTuple [VStr "2 2"; VStr "4"]))
       (counting_fun ["dataset"] (VStr "4"))
       (counting_fun ["reply"; "clue"] (VInt 1)))
    (State 0%nat [])
  = (Ok true, State 3%nat [])
  /\ CodeQuiz.self_check
       (Quiz (CodeQuiz.wrap_generate (W := unit) (ser := copying_serialization)
                (BaseQuiz.wrap_solve (const_fun ["dataset"] (VStr "4")))
                (const_fun [] (VList [VStr "2 2"])))
             (BaseQuiz.wrap_solve (const_fun ["dataset"] (VStr "4")))
             (BaseQuiz.wrap_check (const_fun ["reply"; "clue"] (VBool true))))
       (State tt [])
     = (Ok true, State tt [])
  /\ (exists r, real_value (VBool true) = Some r /\ (r == 1)%Q).
Proof.
  split; [| split].
  - apply (proj1 (self_check_oracles (W := nat))).
    exists (VDict [(VStr "file", VStr "2 2")]), (VStr "4"), (VStr "4"), (VInt 1),
      (VStr ""), (State 1%nat []), (State 2%nat []).
    repeat split; reflexivity.
  - apply (proj1 (proj2 (self_check_oracles (W := unit)))).
    exists [(VStr "2 2", VStr "4")], (State tt []).
    split; [reflexivity |].
    apply (perfect_cons _ (VStr "2 2") (VStr "4") (VStr "4") (VBool true) (VStr "")
                        [] (State tt []) (State tt []) (State tt []) (State tt []));
      try reflexivity.
    apply perfect_nil.
  - apply (proj2 (proj2 (self_check_oracles (W := unit)))). reflexivity.
Defined.

(** ** The empty case list *)

Lemma code_quiz_init_inv {W : Type} {ser : Serialization}
      (generate_fun solve_fun check_fun : attr W)
      (q : quiz W (list (value * value))) (s s' : state W) :
  CodeQuiz.init generate_fun solve_fun check_fun s = (Ok q, s') ->
  q = Quiz (CodeQuiz.wrap_generate (BaseQuiz.wrap_solve solve_fun) generate_fun)
           (BaseQuiz.wrap_solve solve_fun)
           (BaseQuiz.wrap_check check_fun)
  /\ s' = s.
Proof.
  unfold CodeQuiz.init. intros H.
  apply bind_inv_ok in H as ([] & s1 & H1 & H).
  apply bind_inv_ok in H as ([] & s2 & H2 & H).
  inv H. split; [reflexivity |].
  rewrite check_signatures_run in H2.
  destruct (first_signature_error _); inv H2.
  destruct generate_fun as [g | []]; inv H1; reflexivity.
Qed.

(** C10: when the raw generate of a [CodeQuiz] returns the empty list, the
    wrapped generate returns the empty case list and the self check returns
    true, both in the state the raw generate left: whatever the raw solve
    and the raw check are, neither has run. *)
Theorem code_quiz_empty_case_list {W : Type} {ser : Serialization}
        (generate_fun solve_fun check_fun : attr W)
        (q : quiz W (list (value * value))) (s0 s0' s s1 : state W) :
  CodeQuiz.init generate_fun solve_fun check_fun s0 = (Ok q, s0') ->
  call_user_code generate_fun [] s = (Ok (VList []), s1) ->
  generate q s = (Ok [], s1)
  /\ CodeQuiz.self_check q s = (Ok true, s1).
Proof.
  intros I H. apply code_quiz_init_inv in I as [-> _].
  assert (G : CodeQuiz.wrap_generate (BaseQuiz.wrap_solve solve_fun) generate_fun s
              = (Ok [], s1)).
  { unfold CodeQuiz.wrap_generate. rewrite (bind_ok _ _ _ _ _ H). reflexivity. }
  split; [exact G |].
  unfold CodeQuiz.self_check; cbn [generate].
  rewrite (bind_ok _ _ _ _ _ G). reflexivity.
Qed.

Lemma code_quiz_empty_case_list_witness :
  let q := Quiz (CodeQuiz.wrap_generate (ser := copying_serialization)
                   (BaseQuiz.wrap_solve (counting_fun ["dataset"] (VStr "4")))
                   (counting_fun [] (VList [])))
                (BaseQuiz.wrap_solve (counting_fun ["dataset"] (VStr "4")))
                (BaseQuiz.wrap_check (counting_fun ["reply"; "clue"] (VInt 1))) in
  generate q (State 0%nat []) = (Ok [], State 1%nat [])
  /\ CodeQuiz.self_check q (State 0%nat []) = (Ok true, State 1%nat []).
Proof.
  apply (code_quiz_empty_case_list (ser := copying_serialization)
           (counting_fun [] (VList []))
           (counting_fun ["dataset"] (VStr "4"))
           (counting_fun ["reply"; "clue"] (VInt 1))
           _ (State 0%nat []) (State 0%nat [])); reflexivity.
Defined.

(** ** Faults of user code *)

Section Faults.
Context {W G : Type}.

Lemma testSamples_app (q : quiz W G) (pre post : list (value * value * value))
      (s s1 : state W) :
  QuizModuleTest.testSamples q pre s = (Ok tt, s1) ->
  QuizModuleTest.testSamples q (pre ++ post) s = QuizModuleTest.testSamples q post s1.
Proof.
  revert s. induction pre as [| [[d c] r] pre IH]; intros s H.
  - inv H. reflexivity.
  - cbn [app QuizModuleTest.testSamples] in H |- *.
    apply bind_inv_ok in H as ([score h] & s2 & Hc & H).
    apply bind_inv_ok in H as ([] & s3 & Ha & H).
    rewrite (bind_ok _ _ _ _ _ Hc). cbn beta iota.
    rewrite (bind_ok _ _ _ _ _ Ha). now apply IH.
Qed.

Lemma testSolve_app (q : quiz W G) (pre post : list (value * value * value))
      (s s1 : state W) :
  QuizModuleTest.testSolve q pre s = (Ok tt, s1) ->
  QuizModuleTest.testSolve q (pre ++ post) s = QuizModuleTest.testSolve q post s1.
Proof.
  revert s. induction pre as [| [[d c] r] pre IH]; intros s H.
  - inv H. reflexivity.
  - cbn [app QuizModuleTest.testSolve] in H |- *.
    apply bind_inv_ok in H as (a & s0 & Hs & H).
    apply bind_inv_ok in H as ([score h] & s2 & Hc & H).
    apply bind_inv_ok in H as ([] & s3 & Ha & H).
    rewrite (bind_ok _ _ _ _ _ Hs), (bind_ok _ _ _ _ _ Hc). cbn beta iota.
    rewrite (bind_ok _ _ _ _ _ Ha). now apply IH.
Qed.

Lemma wrap_check_faults (check_fun : attr W) (reply clue : value)
      (s : state W) (e : exn) (w : W) :
  call check_fun [reply; clue] (world s) = (Raise e, w) ->
  BaseQuiz.wrap_check check_fun reply clue s
  = (Raise (SystemExit (-1)), faulted e (State w (stderr s))).
Proof.
  intros H. unfold BaseQuiz.wrap_check.
  apply bind_raise. now apply call_user_code_faults.
Qed.

Lemma wrap_solve_faults (solve_fun : attr W) (dataset : value)
      (s : state W) (e : exn) (w : W) :
  call solve_fun [unwrap_file dataset] (world s) = (Raise e, w) ->
  BaseQuiz.wrap_solve solve_fun dataset s
  = (Raise (SystemExit (-1)), faulted e (State w (stderr s))).
Proof.
  intros H. rewrite wrap_solve_run.
  apply bind_raise. now apply call_user_code_faults.
Qed.

Lemma wrap_solve_returns (solve_fun : attr W) (dataset : value) (a : string)
      (s : state W) (w : W) :
  call solve_fun [unwrap_file dataset] (world s) = (Ok (VStr a), w) ->
  BaseQuiz.wrap_solve solve_fun dataset s = (Ok (VStr a), State w (stderr s)).
Proof.
  intros H. rewrite wrap_solve_run.
  rewrite (bind_ok _ _ _ _ _ (call_user_code_returns _ _ _ _ _ H)). reflexivity.
Qed.
End Faults.

(** C1: in the two passes of the fixed-case verifier a fault of the raw
    check, or of the raw solve, on some case (the cases before it having
    passed) prints the trace and the failure message and leaves the pass as
    the exception [SystemExit]; under the test framework that is a recorded
    verdict against the test, not the end of the process. The same fault in
    the invoker, or in a wrapped generate, solve or check that runs outside
    the framework, is the fatal failure: trace, message and a process exit
    status that is not zero. *)
Theorem user_fault_channels {W G : Type} {ser : Serialization}
        (gen : M W G) (generate_fun solve_fun check_fun : attr W)
        (pre post : list (value * value * value))
        (dataset clue reply : value) (e : exn) (s s1 : state W) (w : W) :
  let q := Quiz gen (BaseQuiz.wrap_solve solve_fun) (BaseQuiz.wrap_check check_fun) in
  let tests := pre ++ (dataset, clue, reply) :: post in
  let after := faulted e (State w (stderr s1)) in
  (QuizModuleTest.testSamples q pre s = (Ok tt, s1) ->
   call check_fun [reply; clue] (world s1) = (Raise e, w) ->
   run_in_framework (QuizModuleTest.testSamples q tests) s
   = (Reported (SystemExit (-1)), after))
  /\ (QuizModuleTest.testSolve q pre s = (Ok tt, s1) ->
      call solve_fun [unwrap_file dataset] (world s1) = (Raise e, w) ->
      run_in_framework (QuizModuleTest.testSolve q tests) s
      = (Reported (SystemExit (-1)), after))
  /\ (forall answer w1,
         QuizModuleTest.testSolve q pre s = (Ok tt, s1) ->
         call solve_fun [unwrap_file dataset] (world s1) = (Ok (VStr answer), w1) ->
         call check_fun [VStr answer; clue] w1 = (Raise e, w) ->
         run_in_framework (QuizModuleTest.testSolve q tests) s
         = (Reported (SystemExit (-1)), after))
  /\ (forall (f : attr W) (args : list value),
         call f args (world s1) = (Raise e, w) ->
         call_user_code f args s1 = (Raise (SystemExit (-1)), after)
         /\ exit_status (call_user_code f args s1) = 255%Z)
  /\ (call check_fun [reply; clue] (world s1) = (Raise e, w) ->
      check q reply clue s1 = (Raise (SystemExit (-1)), after)
      /\ exit_status (check q reply clue s1) <> 0%Z)
  /\ (call solve_fun [unwrap_file dataset] (world s1) = (Raise e, w) ->
      solve q dataset s1 = (Raise (SystemExit (-1)), after)
      /\ exit_status (solve q dataset s1) <> 0%Z)
  /\ (call generate_fun [] (world s1) = (Raise e, w) ->
      (BaseQuiz.wrap_generate (solve q) BaseQuiz.clean_dataset generate_fun s1
       = (Raise (SystemExit (-1)), after)
       /\ CodeQuiz.wrap_generate (solve q) generate_fun s1
          = (Raise (SystemExit (-1)), after))
      /\ exit_status (BaseQuiz.wrap_generate (solve q) BaseQuiz.clean_dataset
                                             generate_fun s1) <> 0%Z
      /\ exit_status (CodeQuiz.wrap_generate (solve q) generate_fun s1) <> 0%Z).
Proof.
  intros q tests after.
  split; [| split; [| split; [| split; [| split; [| split]]]]].
  - intros Hp Hc. unfold run_in_framework, tests.
    rewrite (testSamples_app q pre _ s s1 Hp). cbn [QuizModuleTest.testSamples].
    rewrite (bind_raise _ _ _ _ _ (wrap_check_faults _ _ _ _ _ _ Hc)). reflexivity.
  - intros Hp Hs. unfold run_in_framework, tests.
    rewrite (testSolve_app q pre _ s s1 Hp). cbn [QuizModuleTest.testSolve].
    rewrite (bind_raise _ _ _ _ _ (wrap_solve_faults _ _ _ _ _ Hs)). reflexivity.
  - intros answer w1 Hp Hs Hc. unfold run_in_framework, tests.
    rewrite (testSolve_app q pre _ s s1 Hp). cbn [QuizModuleTest.testSolve].
    rewrite (bind_ok _ _ _ _ _ (wrap_solve_returns _ _ _ _ _ Hs)).
    rewrite (bind_raise _ _ _ _ _
               (wrap_check_faults check_fun (VStr answer) clue
                                  (State w1 (stderr s1)) e w Hc)).
    reflexivity.
  - intros f args H. rewrite (call_user_code_faults _ _ _ _ _ H).
    split; reflexivity.
  - intros H. cbn [check q]. rewrite (wrap_check_faults _ _ _ _ _ _ H).
    split; [reflexivity | discriminate].
  - intros H. cbn [solve q]. rewrite (wrap_solve_faults _ _ _ _ _ H).
    split; [reflexivity | discriminate].
  - intros H.
    assert (B : BaseQuiz.wrap_generate (solve q) BaseQuiz.clean_dataset generate_fun s1
                = (Raise (SystemExit (-1)), after)).
    { unfold BaseQuiz.wrap_generate.
      apply bind_raise. now apply call_user_code_faults. }
    assert (C : CodeQuiz.wrap_generate (solve q) generate_fun s1
                = (Raise (SystemExit (-1)), after)).
    { unfold CodeQuiz.wrap_generate.
      apply bind_raise. now apply call_user_code_faults. }
    rewrite B, C. repeat split; discriminate.
Qed.

Lemma user_fault_channels_witness :
  let tests := [(VStr "d1", VStr "c1", VStr "r1")] in
  let solves := const_fun (W := unit) ["dataset"] (VStr "r1") in
  let crashes (ps : list string) := raising_fun (W := unit) ps (OtherError "KeyError") in
  let q solve_fun check_fun :=
    Quiz (ret (VDict [], VNone))
         (BaseQuiz.wrap_solve solve_fun) (BaseQuiz.wrap_check check_fun) in
  let after := faulted (OtherError "KeyError") (State tt []) in
  run_in_framework
    (QuizModuleTest.testSamples (q solves (crashes ["reply"; "clue"])) tests)
    (State tt [])
  = (Reported (SystemExit (-1)), after)
  /\ run_in_framework
       (QuizModuleTest.testSolve (q (crashes ["dataset"]) (crashes ["reply"; "clue"])) tests)
       (State tt [])
     = (Reported (SystemExit (-1)), after)
  /\ run_in_framework
       (QuizModuleTest.testSolve (q solves (crashes ["reply"; "clue"])) tests)
       (State tt [])
     = (Reported (SystemExit (-1)), after)
  /\ (call_user_code (crashes []) [] (State tt []) = (Raise (SystemExit (-1)), after)
      /\ exit_status (call_user_code (crashes []) [] (State tt [])) = 255%Z)
  /\ exit_status (BaseQuiz.wrap_check (crashes ["reply"; "clue"])
                                      (VStr "r1") (VStr "c1") (State tt [])) <> 0%Z
  /\ exit_status (BaseQuiz.wrap_solve (crashes ["dataset"])
                                      (VStr "d1") (State tt [])) <> 0%Z
  /\ exit_status (CodeQuiz.wrap_generate (ser := copying_serialization)
                                         (BaseQuiz.wrap_solve solves)
                                         (crashes []) (State tt [])) <> 0%Z.
Proof.
  intros tests solves crashes q after.
  pose proof (user_fault_channels (ser := copying_serialization)
                (ret (VDict [], VNone)) (crashes [])
                solves (crashes ["reply"; "clue"])
                [] [] (VStr "d1") (VStr "c1") (VStr "r1")
                (OtherError "KeyError") (State tt []) (State tt []) tt)
    as (T1 & _ & T3 & T4 & T5 & _ & T7).
  pose proof (user_fault_channels (ser := copying_serialization)
                (ret (VDict [], VNone)) (crashes [])
                (crashes ["dataset"]) (crashes ["reply"; "clue"])
                [] [] (VStr "d1") (VStr "c1") (VStr "r1")
                (OtherError "KeyError") (State tt []) (State tt []) tt)
    as (_ & T2 & _ & _ & _ & T6 & _).
  split; [| split; [| split; [| split; [| split; [| split]]]]].
  - apply T1; reflexivity.
  - apply T2; reflexivity.
  - apply (T3 "r1" tt); reflexivity.
  - apply (T4 (crashes []) []); reflexivity.
  - apply T5; reflexivity.
  - apply T6; reflexivity.
  - apply T7; reflexivity.
Defined.

(** * Further properties of the harness *)

(** ** Signatures and constructors *)

Section MoreSignatures.
Context {W : Type}.

Lemma signature_error_none (spec : string * attr W * nat) :
  signature_error spec = None <-> spec_holds spec = true.
Proof.
  destruct spec as [[name f] n]. unfold spec_holds; cbn [signature_error fst snd].
  destruct f as [g | v]; cbn [declares].
  - destruct (Nat.eqb (List.length (params g)) n); split; congruence.
  - split; discriminate.
Qed.

Lemma first_signature_error_none (specs : list (string * attr W * nat)) :
  first_signature_error specs = None <-> forallb spec_holds specs = true.
Proof.
  induction specs as [| spec specs IH]; [split; reflexivity |].
  cbn [first_signature_error forallb]. rewrite andb_true_iff, <- IH.
  rewrite <- signature_error_none.
  destruct (signature_error spec); intuition discriminate.
Qed.

Lemma first_signature_error_skip (pre post : list (string * attr W * nat)) :
  forallb spec_holds pre = true ->
  first_signature_error (pre ++ post) = first_signature_error post.
Proof.
  induction pre as [| spec pre IH]; [reflexivity |].
  cbn [forallb app first_signature_error]. rewrite andb_true_iff. intros [H1 H2].
  apply signature_error_none in H1. rewrite H1. now apply IH.
Qed.
End MoreSignatures.

(** X1: [check_signatures] returns, with nothing printed, exactly when every
    listed function is callable with the expected number of parameters.
    Otherwise it ends in the fatal failure with one single message, the
    one of the first entry that is wrong: the entries after it are not
    reported. *)
Theorem check_signatures_first_offender {W : Type}
        (pre post : list (string * attr W * nat))
        (name : string) (f : attr W) (n : nat) (s : state W) :
  forallb spec_holds pre = true ->
  declares f n = false ->
  check_signatures (pre ++ (name, f, n) :: post) s
  = (Raise (SystemExit (-1)),
     failed (match f with
             | Fn g => arity_message name n (params g)
             | Val _ => not_callable_message name
             end) s)
  /\ (forall specs, check_signatures specs s = (Ok tt, s)
                    <-> forallb spec_holds specs = true).
Proof.
  intros Hpre Hf. split.
  - rewrite check_signatures_run, (first_signature_error_skip _ _ Hpre).
    cbn [first_signature_error signature_error].
    destruct f as [g | v]; [| reflexivity].
    cbn [declares] in Hf. rewrite Hf. reflexivity.
  - intros specs. rewrite check_signatures_run, <- first_signature_error_none.
    destruct (first_signature_error specs); split; try reflexivity; discriminate.
Qed.

Lemma check_signatures_first_offender_witness :
  check_signatures (W := unit)
    ([("generate", const_fun [] VNone, 0%nat)]
       ++ ("solve", const_fun ["a"; "b"] VNone, 1%nat)
       :: [("check", Val (VInt 3), 2%nat)])
    (State tt [])
  = (Raise (SystemExit (-1)),
     failed (Text "Expected `solve` with 1 arguments, got a, b.") (State tt [])).
Proof.
  apply (proj1 (check_signatures_first_offender (W := unit)
                  [("generate", const_fun [] VNone, 0%nat)]
                  [("check", Val (VInt 3), 2%nat)]
                  "solve" (const_fun ["a"; "b"] VNone) 1%nat (State tt [])
                  eq_refl eq_refl)).
Defined.

(** X2: with a [generate], [DatasetQuiz] is built exactly when generate,
    solve and check are functions of 0, 1 and 2 parameters; what is built
    wraps the three raw functions as they are, with no synthesis, and a
    refusal is the fatal failure with a single message. *)
Theorem dataset_quiz_with_generate {W : Type} {ser : Serialization}
        (generate_fun solve_fun check_fun : attr W) (s : state W) :
  is_None generate_fun = false ->
  (forallb spec_holds (full_specs generate_fun solve_fun check_fun) = true ->
   DatasetQuiz.init generate_fun solve_fun check_fun s
   = (Ok (BaseQuiz.init generate_fun solve_fun check_fun), s))
  /\ (forallb spec_holds (full_specs generate_fun solve_fun check_fun) = false ->
      exists t, first_signature_error (full_specs generate_fun solve_fun check_fun)
                = Some t
                /\ DatasetQuiz.init generate_fun solve_fun check_fun s
                   = (Raise (SystemExit (-1)), failed t s)).
Proof.
  intros G.
  assert (I : DatasetQuiz.init generate_fun solve_fun check_fun s
              = match first_signature_error
                        (full_specs generate_fun solve_fun check_fun) with
                | None => (Ok (BaseQuiz.init generate_fun solve_fun check_fun), s)
                | Some t => (Raise (SystemExit (-1)), failed t s)
                end).
  { unfold DatasetQuiz.init, full_specs.
    destruct generate_fun as [g | []]; try discriminate G;
      unfold bind; rewrite check_signatures_run;
      destruct (first_signature_error _); reflexivity. }
  split; intros H.
  - rewrite I. apply first_signature_error_none in H. rewrite H. reflexivity.
  - rewrite I.
    destruct (first_signature_error (full_specs generate_fun solve_fun check_fun))
      as [t |] eqn:E.
    + exists t. split; reflexivity.
    + apply first_signature_error_none in E. congruence.
Qed.

Lemma dataset_quiz_with_generate_witness :
  DatasetQuiz.init (W := unit) (ser := copying_serialization)
    (const_fun [] (VStr "2 2")) (const_fun ["dataset"] (VStr "4"))
    (const_fun ["reply"; "clue"] (VInt 1)) (State tt [])
  = (Ok (BaseQuiz.init (ser := copying_serialization)
           (const_fun [] (VStr "2 2")) (const_fun ["dataset"] (VStr "4"))
           (const_fun ["reply"; "clue"] (VInt 1))),
     State tt [])
  /\ exists t,
      first_signature_error
        (full_specs (W := unit) (Val (VInt 0)) (const_fun ["dataset"] (VStr "4"))
                    (const_fun ["reply"; "clue"] (VInt 1)))
      = Some t
      /\ DatasetQuiz.init (W := unit) (ser := copying_serialization)
           (Val (VInt 0)) (const_fun ["dataset"] (VStr "4"))
           (const_fun ["reply"; "clue"] (VInt 1)) (State tt [])
         = (Raise (SystemExit (-1)), failed t (State tt [])).
Proof.
  split.
  - apply (proj1 (dataset_quiz_with_generate (ser := copying_serialization)
                    (const_fun [] (VStr "2 2")) (const_fun ["dataset"] (VStr "4"))
                    (const_fun ["reply"; "clue"] (VInt 1)) (State tt []) eq_refl)).
    reflexivity.
  - apply (proj2 (dataset_quiz_with_generate (ser := copying_serialization)
                    (Val (VInt 0)) (const_fun ["dataset"] (VStr "4"))
                    (const_fun ["reply"; "clue"] (VInt 1)) (State tt []) eq_refl)).
    reflexivity.
Defined.

(** X3: [CodeQuiz] refuses a module without [generate] with its own
    message, whatever solve and check are, and their signatures are not
    looked at; with a [generate] it is built exactly when the three
    functions have 0, 1 and 2 parameters. *)
Theorem code_quiz_construction {W : Type} {ser : Serialization}
        (generate_fun solve_fun check_fun : attr W) (s : state W) :
  (is_None generate_fun = true ->
   CodeQuiz.init generate_fun solve_fun check_fun s
   = (Raise (SystemExit (-1)),
      failed (Text "Code Quiz should export generate") s))
  /\ (is_None generate_fun = false ->
      (exists q, CodeQuiz.init generate_fun solve_fun check_fun s = (Ok q, s))
      <-> forallb spec_holds (full_specs generate_fun solve_fun check_fun) = true).
Proof.
  split.
  - destruct generate_fun as [g | []]; try discriminate. reflexivity.
  - intros G.
    assert (I : CodeQuiz.init generate_fun solve_fun check_fun s
                = match first_signature_error
                          (full_specs generate_fun solve_fun check_fun) with
                  | None =>
                      (Ok (Quiz (CodeQuiz.wrap_generate
                                   (BaseQuiz.wrap_solve solve_fun) generate_fun)
                                (BaseQuiz.wrap_solve solve_fun)
                                (BaseQuiz.wrap_check check_fun)), s)
                  | Some t => (Raise (SystemExit (-1)), failed t s)
                  end).
    { unfold CodeQuiz.init, full_specs.
      destruct generate_fun as [g | []]; try discriminate G;
        unfold bind at 1; cbn [ret]; unfold bind; rewrite check_signatures_run;
        destruct (first_signature_error _); reflexivity. }
    rewrite I, <- first_signature_error_none.
    destruct (first_signature_error _); split.
    + intros [q H]; discriminate H.
    + discriminate.
    + reflexivity.
    + intros _. eexists; reflexivity.
Qed.

Lemma code_quiz_construction_witness :
  CodeQuiz.init (W := unit) (ser := copying_serialization)
    (Val VNone) (Val (VInt 1)) (Val (VInt 2)) (State tt [])
  = (Raise (SystemExit (-1)),
     failed (Text "Code Quiz should export generate") (State tt []))
  /\ exists q,
      CodeQuiz.init (W := unit) (ser := copying_serialization)
        (const_fun [] (VList [])) (const_fun ["dataset"] (VStr "4"))
        (const_fun ["reply"; "clue"] (VInt 1)) (State tt [])
      = (Ok q, State tt []).
Proof.
  split.
  - apply (proj1 (code_quiz_construction (ser := copying_serialization)
                    (Val VNone) (Val (VInt 1)) (Val (VInt 2)) (State tt []))).
    reflexivity.
  - apply (proj2 (code_quiz_construction (ser := copying_serialization)
                    (const_fun [] (VList [])) (const_fun ["dataset"] (VStr "4"))
                    (const_fun ["reply"; "clue"] (VInt 1)) (State tt [])) eq_refl).
    reflexivity.
Defined.

(** ** Loading a quiz from a module *)

Section ImportQuiz.
Context {W G : Type} {ser : Serialization}.

Lemma import_quiz_run (cls : attr W -> attr W -> attr W -> M W (quiz W G))
      (module : pymodule W) (s : state W) :
  BaseQuiz.import_quiz cls module s
  = match getattr module "solve", getattr module "check" with
    | None, _ =>
        (Raise (SystemExit (-1)),
         failed (BaseQuiz.no_function_msg "solve" ["solve"; "check"]) s)
    | Some _, None =>
        (Raise (SystemExit (-1)),
         failed (BaseQuiz.no_function_msg "check" ["solve"; "check"]) s)
    | Some solve_fun, Some check_fun =>
        cls (match getattr module "generate" with
             | Some a => a
             | None => Val VNone
             end) solve_fun check_fun s
    end.
Proof.
  unfold BaseQuiz.import_quiz, BaseQuiz.require_attrs, BaseQuiz.getattr_required,
    hasattr.
  destruct (getattr module "solve") as [sv |]; [| reflexivity].
  destruct (getattr module "check") as [ck |]; reflexivity.
Qed.
End ImportQuiz.

Lemma dataset_quiz_without_generate_init {W : Type} {ser : Serialization}
      (solve_fun check_fun : attr W) (s : state W) :
  (declares solve_fun 0 && declares check_fun 1 = true ->
   DatasetQuiz.init (Val VNone) solve_fun check_fun s
   = (Ok (BaseQuiz.init DatasetQuiz.default_generate
                        (DatasetQuiz.default_solve solve_fun)
                        (DatasetQuiz.default_check check_fun)), s))
  /\ (declares solve_fun 0 && declares check_fun 1 = false ->
      exists t, DatasetQuiz.init (Val VNone) solve_fun check_fun s
                = (Raise (SystemExit (-1)), failed t s)).
Proof.
  assert (E : forallb spec_holds [("solve", solve_fun, 0%nat); ("check", check_fun, 1%nat)]
              = declares solve_fun 0 && declares check_fun 1).
  { cbn [forallb spec_holds fst snd]. now rewrite andb_true_r. }
  unfold DatasetQuiz.init, bind. rewrite check_signatures_run, <- E.
  destruct (first_signature_error _) as [t |] eqn:F.
  - split; intros H.
    + apply first_signature_error_none in H. congruence.
    + exists t. reflexivity.
  - split; intros H; [reflexivity |].
    apply first_signature_error_none in F. congruence.
Qed.

(** X4: [import_quiz] ends in the fatal failure when the module lacks
    [solve], and when it has [solve] but lacks [check]; the message names
    the missing function and the two that are required, and the class is
    not constructed. With both, whatever the class, it is constructed on the
    module's [generate] ([None] when there is none), [solve] and [check], and
    the outcome of [import_quiz] is the outcome of the constructor. So a module
    that exports no [generate] cannot be loaded as a [CodeQuiz], and is
    loaded as a [DatasetQuiz] exactly when its [solve] declares no parameter
    and its [check] declares one. *)
Theorem import_quiz_exports {W : Type} {ser : Serialization}
        (module : pymodule W) (s : state W) :
  (forall G (cls : attr W -> attr W -> attr W -> M W (quiz W G)),
      getattr module "solve" = None ->
      BaseQuiz.import_quiz cls module s
      = (Raise (SystemExit (-1)),
         failed (Text ("Can't export `solve` from quiz module." ++ String "010" ""
                       ++ "Quiz should export solve, check.")) s))
  /\ (forall G (cls : attr W -> attr W -> attr W -> M W (quiz W G)),
         getattr module "solve" <> None -> getattr module "check" = None ->
         BaseQuiz.import_quiz cls module s
         = (Raise (SystemExit (-1)),
            failed (Text ("Can't export `check` from quiz module." ++ String "010" ""
                          ++ "Quiz should export solve, check.")) s))
  /\ (forall G (cls : attr W -> attr W -> attr W -> M W (quiz W G))
             solve_fun check_fun,
         getattr module "solve" = Some solve_fun ->
         getattr module "check" = Some check_fun ->
         (forall generate_fun,
             getattr module "generate" = Some generate_fun ->
             BaseQuiz.import_quiz cls module s
             = cls generate_fun solve_fun check_fun s)
         /\ (getattr module "generate" = None ->
             BaseQuiz.import_quiz cls module s
             = cls (Val VNone) solve_fun check_fun s))
  /\ (forall solve_fun check_fun,
         getattr module "generate" = None ->
         getattr module "solve" = Some solve_fun ->
         getattr module "check" = Some check_fun ->
         BaseQuiz.import_quiz CodeQuiz.init module s
         = (Raise (SystemExit (-1)),
            failed (Text "Code Quiz should export generate") s)
         /\ BaseQuiz.import_quiz DatasetQuiz.init module s
            = DatasetQuiz.init (Val VNone) solve_fun check_fun s
         /\ ((exists q, BaseQuiz.import_quiz DatasetQuiz.init module s = (Ok q, s))
             <-> declares solve_fun 0 && declares check_fun 1 = true)).
Proof.
  split; [| split; [| split]].
  - intros G cls H. rewrite import_quiz_run, H. reflexivity.
  - intros G cls H1 H2. rewrite import_quiz_run, H2.
    destruct (getattr module "solve"); [reflexivity | now elim H1].
  - intros G cls solve_fun check_fun Hs Hc. split.
    + intros generate_fun Hg. rewrite import_quiz_run, Hs, Hc, Hg. reflexivity.
    + intros Hg. rewrite import_quiz_run, Hs, Hc, Hg. reflexivity.
  - intros solve_fun check_fun Hg Hs Hc.
    rewrite !import_quiz_run, Hg, Hs, Hc.
    split; [reflexivity | split; [reflexivity |]].
    pose proof (dataset_quiz_without_generate_init solve_fun check_fun s) as [Hy Hn].
    destruct (declares solve_fun 0 && declares check_fun 1) eqn:D.
    + split; [reflexivity |]. intros _. eexists. now apply Hy.
    + split; [| discriminate]. intros [q Hq].
      destruct (Hn eq_refl) as (t & Ht). rewrite Ht in Hq. discriminate Hq.
Qed.

Lemma import_quiz_exports_witness :
  let module : pymodule unit :=
    [("solve", const_fun [] (VStr "42")); ("check", check_42)] in
  BaseQuiz.import_quiz (DatasetQuiz.init (ser := copying_serialization))
    [("check", check_42)] (State tt [])
  = (Raise (SystemExit (-1)),
     failed (Text ("Can't export `solve` from quiz module." ++ String "010" ""
                   ++ "Quiz should export solve, check.")) (State tt []))
  /\ BaseQuiz.import_quiz (DatasetQuiz.init (ser := copying_serialization))
       [("solve", const_fun [] (VStr "42"))] (State tt [])
     = (Raise (SystemExit (-1)),
        failed (Text ("Can't export `check` from quiz module." ++ String "010" ""
                      ++ "Quiz should export solve, check.")) (State tt []))
  /\ BaseQuiz.import_quiz (CodeQuiz.init (ser := copying_serialization)) module
       (State tt [])
     = (Raise (SystemExit (-1)),
        failed (Text "Code Quiz should export generate") (State tt []))
  /\ BaseQuiz.import_quiz (CodeQuiz.init (ser := copying_serialization))
       [("generate", const_fun [] (VList []));
        ("solve", const_fun ["dataset"] (VStr "4"));
        ("check", const_fun ["reply"; "clue"] (VInt 1))] (State tt [])
     = CodeQuiz.init (ser := copying_serialization)
         (const_fun [] (VList [])) (const_fun ["dataset"] (VStr "4"))
         (const_fun ["reply"; "clue"] (VInt 1)) (State tt [])
  /\ BaseQuiz.import_quiz (DatasetQuiz.init (ser := copying_serialization)) module
       (State tt [])
     = DatasetQuiz.init (ser := copying_serialization)
         (Val VNone) (const_fun [] (VStr "42")) check_42 (State tt []).
Proof.
  intros module. split; [| split; [| split; [| split]]].
  - apply (proj1 (import_quiz_exports (ser := copying_serialization)
                    [("check", check_42)] (State tt []))).
    reflexivity.
  - apply (proj1 (proj2 (import_quiz_exports (ser := copying_serialization)
                           [("solve", const_fun [] (VStr "42"))] (State tt []))));
      [discriminate | reflexivity].
  - apply (proj2 (proj2 (proj2 (import_quiz_exports (ser := copying_serialization)
                                  module (State tt []))))
                 (const_fun [] (VStr "42")) check_42); reflexivity.
  - apply (proj1 (proj1 (proj2 (proj2
             (import_quiz_exports (ser := copying_serialization)
                [("generate", const_fun [] (VList []));
                 ("solve", const_fun ["dataset"] (VStr "4"));
                 ("check", const_fun ["reply"; "clue"] (VInt 1))] (State tt []))))
             _ (CodeQuiz.init (ser := copying_serialization))
             (const_fun ["dataset"] (VStr "4"))
             (const_fun ["reply"; "clue"] (VInt 1)) eq_refl eq_refl)
             (const_fun [] (VList [])) eq_refl).
  - apply (proj2 (proj1 (proj2 (proj2
             (import_quiz_exports (ser := copying_serialization)
                module (State tt []))))
             _ (DatasetQuiz.init (ser := copying_serialization))
             (const_fun [] (VStr "42")) check_42 eq_refl eq_refl) eq_refl).
Defined.

(** ** What the wrapped functions let out *)

Section Discipline.
Context {W : Type} {ser : Serialization}.

Lemma unwrap_file_cleaned (v d : value) (s s' : state W) :
  BaseQuiz.clean_dataset v s = (Ok d, s') -> unwrap_file d = unwrap_file v.
Proof.
  intros H. apply base_clean_dataset_inv in H as (_ & [[E ->] | [E ->]]);
    [reflexivity |].
  destruct v; try discriminate E; reflexivity.
Qed.

Lemma call_user_code_outcomes (f : attr W) (args : list value)
      (s s' : state W) (r : result value) :
  call_user_code f args s = (r, s') ->
  (exists v, r = Ok v /\ quiet s s') \/ (r = Raise (SystemExit (-1)) /\ printed s s').
Proof.
  destruct (call f args (world s)) as [[v | e] w] eqn:H; intros R.
  - rewrite (call_user_code_returns _ _ _ _ _ H) in R. inv R.
    left. exists v. split; reflexivity.
  - rewrite (call_user_code_faults _ _ _ _ _ H) in R. inv R.
    right. split; [reflexivity |]. eexists. split; [| reflexivity]. discriminate.
Qed.

Lemma failed_printed (t : text) (s : state W) : printed s (failed t s).
Proof. exists [Message t]. split; [discriminate | reflexivity]. Qed.

Lemma printed_after_quiet (s s1 s2 : state W) :
  quiet s s1 -> printed s1 s2 -> printed s s2.
Proof. unfold quiet, printed. intros -> H. exact H. Qed.

Lemma quiet_trans (s s1 s2 : state W) : quiet s s1 -> quiet s1 s2 -> quiet s s2.
Proof. unfold quiet. congruence. Qed.

Lemma clean_answer_outcomes (v : value) (s : state W) :
  (exists a, v = VStr a /\ BaseQuiz.clean_answer v s = (Ok v, s))
  \/ (exists t, BaseQuiz.clean_answer v s = (Raise (SystemExit (-1)), failed t s)).
Proof.
  destruct v; try (right; eexists; reflexivity).
  left. eexists. split; reflexivity.
Qed.

Lemma wrap_solve_outcomes (solve_fun : attr W) (dataset : value)
      (s s' : state W) (r : result value) :
  BaseQuiz.wrap_solve solve_fun dataset s = (r, s') ->
  (exists a, r = Ok (VStr a) /\ quiet s s')
  \/ (r = Raise (SystemExit (-1)) /\ printed s s').
Proof.
  rewrite wrap_solve_run. unfold bind.
  destruct (call_user_code solve_fun [unwrap_file dataset] s) as [[v | e] s1] eqn:C;
    apply call_user_code_outcomes in C as [(v' & E & Q) | (E & P)];
    try discriminate E; intros R.
  - inv E. destruct (clean_answer_outcomes v' s1) as [(a & -> & K) | (t & K)];
      rewrite K in R; inv R.
    + left. exists a. split; [reflexivity | exact Q].
    + right. split; [reflexivity |].
      eapply printed_after_quiet; [exact Q | apply failed_printed].
  - inv R. inv E. right. split; [reflexivity | exact P].
Qed.

Lemma check_result_spec_outcomes (raw : value) (s s' : state W)
      (r : result (value * value)) :
  check_result_spec raw s = (r, s') ->
  (exists sc h, r = Ok (sc, VStr h) /\ score_in_range sc = true /\ quiet s s')
  \/ (r = Raise (SystemExit (-1)) /\ printed s s').
Proof.
  assert (K : forall a b,
             (x <- BaseQuiz.clean_score a ;;
              y <- BaseQuiz.clean_hint b ;; ret (x, y)) s = (r, s') ->
             (exists sc h, r = Ok (sc, VStr h) /\ score_in_range sc = true
                           /\ quiet s s')
             \/ (r = Raise (SystemExit (-1)) /\ printed s s')).
  { intros a b R. unfold bind in R.
    destruct (score_in_range a) eqn:E.
    - rewrite (clean_score_accepts a s E) in R.
      destruct (is_str b) eqn:Eb.
      + destruct b; try discriminate Eb. cbn in R. inv R.
        left. eexists _, _. repeat split. exact E.
      + rewrite (clean_hint_rejects b s Eb) in R. inv R.
        right. split; [reflexivity | apply failed_printed].
    - rewrite (clean_score_rejects a s E) in R. inv R.
      right. split; [reflexivity | apply failed_printed]. }
  destruct raw; try apply K.
  destruct xs as [| a [| b [| c xs]]]; try apply K;
    intros R; inv R; right; (split; [reflexivity | apply failed_printed]).
Qed.

Lemma wrap_check_outcomes (check_fun : attr W) (reply clue : value)
      (s s' : state W) (r : result (value * value)) :
  BaseQuiz.wrap_check check_fun reply clue s = (r, s') ->
  (exists sc h, r = Ok (sc, VStr h) /\ score_in_range sc = true /\ quiet s s')
  \/ (r = Raise (SystemExit (-1)) /\ printed s s').
Proof.
  rewrite wrap_check_refines. unfold bind.
  destruct (call_user_code check_fun [reply; clue] s) as [[v | e] s1] eqn:C;
    apply call_user_code_outcomes in C as [(v' & E & Q) | (E & P)];
    try discriminate E; intros R.
  - inv E. apply check_result_spec_outcomes in R
      as [(sc & h & -> & E & Q') | (-> & P')].
    + left. exists sc, h. repeat split; [exact E | eapply quiet_trans; eauto].
    + right. split; [reflexivity | eapply printed_after_quiet; eauto].
  - inv R. inv E. right. split; [reflexivity | exact P].
Qed.
End Discipline.

(** X5: a wrapped solve either returns a string, having printed nothing,
    or raises [SystemExit (-1)], having printed; a wrapped check either
    returns a score of the range with a string hint, having printed
    nothing, or raises [SystemExit (-1)], having printed. No exception of
    the user's function, no other exit code and no other type of value
    comes out of either, and what was on standard error stays there. *)
Theorem wrapped_solve_and_check_outcomes {W : Type}
        (solve_fun check_fun : attr W) (dataset reply clue : value) (s : state W) :
  (forall r s',
      BaseQuiz.wrap_solve solve_fun dataset s = (r, s') ->
      (exists a, r = Ok (VStr a) /\ quiet s s')
      \/ (r = Raise (SystemExit (-1)) /\ printed s s'))
  /\ (forall r s',
         BaseQuiz.wrap_check check_fun reply clue s = (r, s') ->
         (exists sc h, r = Ok (sc, VStr h) /\ score_in_range sc = true /\ quiet s s')
         \/ (r = Raise (SystemExit (-1)) /\ printed s s')).
Proof.
  split; intros r s'.
  - apply wrap_solve_outcomes.
  - apply wrap_check_outcomes.
Qed.

Lemma wrapped_solve_and_check_outcomes_witness :
  ((exists a, @Raise value (SystemExit (-1)) = Ok (VStr a)
              /\ quiet (State tt []) (faulted (SystemExit 0) (State tt [])))
   \/ (@Raise value (SystemExit (-1)) = Raise (SystemExit (-1))
       /\ printed (State tt []) (faulted (SystemExit 0) (State tt []))))
  /\ ((exists sc h, @Ok (value * value) (VInt 1, VStr "") = Ok (sc, VStr h)
                    /\ score_in_range sc = true /\ quiet (State tt []) (State tt []))
      \/ (@Ok (value * value) (VInt 1, VStr "") = Raise (SystemExit (-1))
          /\ printed (State tt []) (State tt []))).
Proof.
  pose proof (wrapped_solve_and_check_outcomes (W := unit)
                (raising_fun ["dataset"] (SystemExit 0))
                (const_fun ["reply"; "clue"] (VInt 1))
                (VStr "2 2") (VStr "4") VNone (State tt [])) as [Hs Hc].
  split.
  - apply (Hs (Raise (SystemExit (-1))) (faulted (SystemExit 0) (State tt []))).
    reflexivity.
  - apply (Hc (Ok (VInt 1, VStr "")) (State tt [])). reflexivity.
Defined.

(** X6: a dataset that [clean_dataset] has accepted reaches the raw solve
    as the raw dataset does: the wrapped solve takes the value out of the
    ["file"] entry that the cleaner has put around a string or a byte
    sequence, so the raw solve receives the bare string; a mapping of
    several entries is passed whole. *)
Theorem solve_receives_raw_dataset {W : Type}
        (v d : value) (s s' : state W) :
  BaseQuiz.clean_dataset v s = (Ok d, s') ->
  (forall (solve_fun : attr W) s1,
      BaseQuiz.wrap_solve solve_fun d s1 = BaseQuiz.wrap_solve solve_fun v s1)
  /\ (is_str_or_bytes v = true ->
      forall (solve_fun : attr W) s1,
        BaseQuiz.wrap_solve solve_fun d s1
        = (answer <- call_user_code solve_fun [v] ;;
           BaseQuiz.clean_answer answer) s1)
  /\ (forall kv1 kv2 items, v = VDict (kv1 :: kv2 :: items) ->
      forall (solve_fun : attr W) s1,
        BaseQuiz.wrap_solve solve_fun d s1
        = (answer <- call_user_code solve_fun [v] ;;
           BaseQuiz.clean_answer answer) s1).
Proof.
  intros H. pose proof (unwrap_file_cleaned _ _ _ _ H) as U.
  split; [| split].
  - intros solve_fun s1. now rewrite !wrap_solve_run, U.
  - intros E solve_fun s1. rewrite wrap_solve_run, U.
    destruct v; try discriminate E; reflexivity.
  - intros kv1 kv2 items -> solve_fun s1. rewrite wrap_solve_run, U.
    destruct kv1. reflexivity.
Qed.

Lemma solve_receives_raw_dataset_witness :
  BaseQuiz.wrap_solve (W := nat) (counting_fun ["dataset"] (VStr "4"))
    (VDict [(VStr "file", VStr "2 2")]) (State 0%nat [])
  = (answer <- call_user_code (counting_fun ["dataset"] (VStr "4")) [VStr "2 2"] ;;
     BaseQuiz.clean_answer answer) (State 0%nat []).
Proof.
  apply (proj1 (proj2 (solve_receives_raw_dataset (W := nat)
                         (VStr "2 2") (VDict [(VStr "file", VStr "2 2")])
                         (State 0%nat []) (State 0%nat []) eq_refl)) eq_refl).
Defined.

(** ** The wrapped generate of a DatasetQuiz *)

Section BaseGenerate.
Context {W : Type} {ser : Serialization}.

Lemma base_wrap_generate_run (generate_fun solve_fun check_fun : attr W)
      (s s1 : state W) (raw : value) :
  call_user_code generate_fun [] s = (Ok raw, s1) ->
  generate (BaseQuiz.init generate_fun solve_fun check_fun) s
  = match raw with
    | VTuple [dataset; clue] =>
        (d <- BaseQuiz.clean_dataset dataset ;;
         c <- BaseQuiz.clean_clue clue ;;
         ret (d, c)) s1
    | VTuple _ => (Raise (SystemExit (-1)), failed generate_tuple_message s1)
    | _ =>
        (clue <- BaseQuiz.wrap_solve solve_fun raw ;;
         d <- BaseQuiz.clean_dataset raw ;;
         c <- BaseQuiz.clean_clue clue ;;
         ret (d, c)) s1
    end.
Proof.
  intros H. unfold BaseQuiz.init; cbn [generate]. unfold BaseQuiz.wrap_generate.
  rewrite (bind_ok _ _ _ _ _ H).
  assert (K : forall v, is_tuple v = false ->
              (' (dataset, clue) <- (clue <- BaseQuiz.wrap_solve solve_fun v ;;
                                     ret (v, clue)) ;;
               dataset0 <- BaseQuiz.clean_dataset dataset ;;
               clue0 <- BaseQuiz.clean_clue clue ;; ret (dataset0, clue0)) s1
              = (clue <- BaseQuiz.wrap_solve solve_fun v ;;
                 d <- BaseQuiz.clean_dataset v ;;
                 c <- BaseQuiz.clean_clue clue ;; ret (d, c)) s1).
  { intros v _. unfold bind at 1 2 5.
    destruct (BaseQuiz.wrap_solve solve_fun v s1) as [[a | e] s2]; reflexivity. }
  destruct raw; try (apply K; reflexivity).
  destruct xs as [| a [| b [| c xs]]]; reflexivity.
Qed.

Lemma base_generate_post (generate_fun solve_fun check_fun : attr W)
      (s s' : state W) (d c : value) :
  generate (BaseQuiz.init generate_fun solve_fun check_fun) s = (Ok (d, c), s') ->
  is_mapping d = true /\ (exists x, round_trip x = Ok c) /\ quiet s s'.
Proof.
  intros H.
  destruct (call_user_code generate_fun [] s) as [[raw | e] s1] eqn:C.
  - rewrite (base_wrap_generate_run _ _ _ _ _ _ C) in H.
    apply call_user_code_outcomes in C as [(v & E & Q) | (E & _)]; [| discriminate E].
    assert (K : forall x y s2,
               quiet s s2 ->
               (d0 <- BaseQuiz.clean_dataset x ;;
                c0 <- BaseQuiz.clean_clue y ;; ret (d0, c0)) s2 = (Ok (d, c), s') ->
               is_mapping d = true /\ (exists x, round_trip x = Ok c) /\ quiet s s').
    { intros x y s2 Q2 R.
      apply bind_inv_ok in R as (d0 & s3 & R1 & R).
      apply bind_inv_ok in R as (c0 & s4 & R2 & R). inv R.
      apply clean_clue_inv in R2 as [R2 ->].
      apply base_clean_dataset_inv in R1 as (-> & R1).
      split; [| split; [exists y; exact R2 | exact Q2]].
      destruct R1 as [[E1 ->] | [_ ->]]; [exact E1 | reflexivity]. }
    assert (K' : forall x,
               (clue <- BaseQuiz.wrap_solve solve_fun x ;;
                d0 <- BaseQuiz.clean_dataset x ;;
                c0 <- BaseQuiz.clean_clue clue ;; ret (d0, c0)) s1 = (Ok (d, c), s') ->
               is_mapping d = true /\ (exists x, round_trip x = Ok c) /\ quiet s s').
    { intros x R. apply bind_inv_ok in R as (a & s2 & R0 & R).
      apply wrap_solve_outcomes in R0 as [(a' & Ea & Qa) | (Ea & _)];
        [| discriminate Ea].
      eapply K; [| exact R]. eapply quiet_trans; eauto. }
    destruct raw; cbv beta iota in H;
      try (match type of H with
           | context [BaseQuiz.wrap_solve solve_fun ?x] => exact (K' x H)
           end).
    destruct xs as [| a [| b [| c0 xs]]]; try discriminate H.
    exact (K a b s1 Q H).
  - unfold BaseQuiz.init in H; cbn [generate] in H. unfold BaseQuiz.wrap_generate in H.
    rewrite (bind_raise _ _ _ _ _ C) in H. discriminate H.
Qed.
End BaseGenerate.

(** X7: the wrapped generate of a [DatasetQuiz] ends in the fatal failure,
    with the message about the length, on a tuple that has not two
    components; on a 2-tuple it cleans the two components and the solve is
    not run; on anything else it runs the wrapped solve on the raw result
    first and cleans the dataset after. Whenever it returns, the dataset is a
    mapping, the clue is a value that the serializer has decoded, and nothing
    was printed. *)
Theorem base_generate_contract {W : Type} {ser : Serialization}
        (generate_fun solve_fun check_fun : attr W) (s s1 : state W) (raw : value) :
  call_user_code generate_fun [] s = (Ok raw, s1) ->
  let q := BaseQuiz.init generate_fun solve_fun check_fun in
  (forall xs, raw = VTuple xs -> List.length xs <> 2%nat ->
              generate q s = (Raise (SystemExit (-1)), failed generate_tuple_message s1))
  /\ (forall dataset clue, raw = VTuple [dataset; clue] ->
                           generate q s
                           = (d <- BaseQuiz.clean_dataset dataset ;;
                              c <- BaseQuiz.clean_clue clue ;;
                              ret (d, c)) s1)
  /\ (is_tuple raw = false ->
      generate q s
      = (clue <- solve q raw ;;
         d <- BaseQuiz.clean_dataset raw ;;
         c <- BaseQuiz.clean_clue clue ;;
         ret (d, c)) s1)
  /\ (forall d c s', generate q s = (Ok (d, c), s') ->
                     is_mapping d = true
                     /\ (exists x, round_trip x = Ok c)
                     /\ quiet s s').
Proof.
  intros H q. unfold q.
  split; [| split; [| split]].
  - intros xs -> L. rewrite (base_wrap_generate_run _ _ _ _ _ _ H).
    destruct xs as [| a [| b [| c xs]]]; try reflexivity. now elim L.
  - intros dataset clue ->. now rewrite (base_wrap_generate_run _ _ _ _ _ _ H).
  - intros T. rewrite (base_wrap_generate_run _ _ _ _ _ _ H).
    destruct raw; try discriminate T; reflexivity.
  - intros d c s'. apply base_generate_post.
Qed.

Lemma base_generate_contract_witness :
  let q raw := BaseQuiz.init (W := nat) (ser := copying_serialization)
                 (counting_fun [] raw)
                 (counting_fun ["dataset"] (VStr "4"))
                 (counting_fun ["reply"; "clue"] (VInt 1)) in
  generate (q (VTuple [VStr "2 2"])) (State 0%nat [])
  = (Raise (SystemExit (-1)), failed generate_tuple_message (State 1%nat []))
  /\ generate (q (VTuple [VStr "2 2"; VInt 4])) (State 0%nat [])
     = (Ok (VDict [(VStr "file", VStr "2 2")], VInt 4), State 1%nat [])
  /\ generate (q (VStr "2 2")) (State 0%nat [])
     = (Ok (VDict [(VStr "file", VStr "2 2")], VStr "4"), State 2%nat [])
  /\ (is_mapping (VDict [(VStr "file", VStr "2 2")]) = true
      /\ (exists x, round_trip (ser := copying_serialization) x = Ok (VStr "4"))
      /\ quiet (State 0%nat []) (State 2%nat [])).
Proof.
  intros q. split; [| split; [| split]].
  - apply (proj1 (base_generate_contract (ser := copying_serialization)
                    (counting_fun [] (VTuple [VStr "2 2"]))
                    (counting_fun ["dataset"] (VStr "4"))
                    (counting_fun ["reply"; "clue"] (VInt 1))
                    (State 0%nat []) (State 1%nat []) _ eq_refl)
                 [VStr "2 2"] eq_refl).
    discriminate.
  - apply (proj1 (proj2 (base_generate_contract (ser := copying_serialization)
                    (counting_fun [] (VTuple [VStr "2 2"; VInt 4]))
                    (counting_fun ["dataset"] (VStr "4"))
                    (counting_fun ["reply"; "clue"] (VInt 1))
                    (State 0%nat []) (State 1%nat []) _ eq_refl))
                 (VStr "2 2") (VInt 4) eq_refl).
  - apply (proj1 (proj2 (proj2 (base_generate_contract (ser := copying_serialization)
                    (counting_fun [] (VStr "2 2"))
                    (counting_fun ["dataset"] (VStr "4"))
                    (counting_fun ["reply"; "clue"] (VInt 1))
                    (State 0%nat []) (State 1%nat []) _ eq_refl))) eq_refl).
  - apply (proj2 (proj2 (proj2 (base_generate_contract (ser := copying_serialization)
                    (counting_fun [] (VStr "2 2"))
                    (counting_fun ["dataset"] (VStr "4"))
                    (counting_fun ["reply"; "clue"] (VInt 1))
                    (State 0%nat []) (State 1%nat []) _ eq_refl)))
                 _ _ (State 2%nat [])).
    reflexivity.
Defined.

(** ** The self checks, further *)

Section MoreSelfCheck.
Context {W : Type} {ser : Serialization}.

Lemma wrap_check_returns_score (check_fun : attr W) (reply clue score : value)
      (s : state W) (w : W) :
  call check_fun [reply; clue] (world s) = (Ok score, w) ->
  is_tuple score = false -> score_in_range score = true ->
  BaseQuiz.wrap_check check_fun reply clue s
  = (Ok (score, VStr ""), State w (stderr s)).
Proof.
  intros H T R. rewrite wrap_check_refines.
  rewrite (bind_ok _ _ _ _ _ (call_user_code_returns _ _ _ _ _ H)).
  destruct score; try discriminate T; unfold check_result_spec;
    rewrite (bind_ok _ _ _ _ _ (clean_score_accepts _ _ R)); reflexivity.
Qed.

Lemma all_starmap_false_iff (q : quiz W (list (value * value)))
      (cases : list (value * value)) (s s' : state W) :
  all_starmap (CodeQuiz.is_correct q) cases s = (Ok false, s')
  <-> exists pre dataset clue post answer score hint s1 s2,
      cases = pre ++ (dataset, clue) :: post
      /\ all_perfect q pre s s1
      /\ solve q dataset s1 = (Ok answer, s2)
      /\ check q answer clue s2 = (Ok (score, hint), s')
      /\ eq_one score = false.
Proof.
  split.
  - revert s. induction cases as [| [dataset clue] cases IH]; intros s H.
    + discriminate H.
    + cbn [all_starmap] in H.
      apply bind_inv_ok in H as (ok & s1 & Hc & H).
      destruct ok.
      * apply is_correct_true_iff in Hc as (answer & score & hint & s0 & Hs & Hc & E).
        apply IH in H
          as (pre & d & c & post & a & sc & h & t1 & t2 & -> & P & Hs' & Hc' & E').
        exists ((dataset, clue) :: pre), d, c, post, a, sc, h, t1, t2.
        repeat split; auto. econstructor; eauto.
      * inv H. unfold CodeQuiz.is_correct in Hc.
        apply bind_inv_ok in Hc as (answer & s0 & Hs & Hc).
        apply bind_inv_ok in Hc as ([score hint] & s2 & Hc & Hr). inv Hr.
        exists [], dataset, clue, cases, answer, score, hint, s, s0.
        repeat split; auto. constructor.
  - intros (pre & d & c & post & a & sc & h & s1 & s2 & -> & P & Hs & Hc & E).
    induction P as [s | dataset clue answer score hint cases s t1 t2 t3 Ps Pc Pe _ IH].
    + cbn [app all_starmap].
      assert (K : CodeQuiz.is_correct q d c s = (Ok false, s')).
      { unfold CodeQuiz.is_correct.
        rewrite (bind_ok _ _ _ _ _ Hs), (bind_ok _ _ _ _ _ Hc).
        cbn beta iota. unfold ret. now rewrite E. }
      rewrite (bind_ok _ _ _ _ _ K). reflexivity.
    + cbn [app all_starmap].
      assert (K : CodeQuiz.is_correct q dataset clue s = (Ok true, t2)).
      { apply is_correct_true_iff. exists answer, score, hint, t1. auto. }
      rewrite (bind_ok _ _ _ _ _ K). apply IH; assumption.
Qed.
End MoreSelfCheck.

Lemma base_clean_dataset_accepts {W : Type} (v : value) (s : state W) :
  is_mapping v || is_str_or_bytes v = true ->
  BaseQuiz.clean_dataset v s
  = (Ok (if is_str_or_bytes v then VDict [(VStr "file", v)] else v), s).
Proof. destruct v; try discriminate; reflexivity. Qed.

(** X8: when the raw generate of a [DatasetQuiz] returns a bare dataset,
    the self check runs the raw solve twice on the same argument: once in
    the wrapped generate, where the decoded answer becomes the clue, once
    for the answer that is checked against that clue; the raw check then
    runs once, and the result is whether its score equals 1. *)
Theorem dataset_self_check_solves_twice {W : Type} {ser : Serialization}
        (generate_fun solve_fun check_fun : attr W)
        (raw clue score : value) (a1 a2 : string)
        (s : state W) (w1 w2 w3 w4 : W) :
  call generate_fun [] (world s) = (Ok raw, w1) ->
  is_tuple raw = false ->
  is_mapping raw || is_str_or_bytes raw = true ->
  call solve_fun [unwrap_file raw] w1 = (Ok (VStr a1), w2) ->
  round_trip (VStr a1) = Ok clue ->
  call solve_fun [unwrap_file raw] w2 = (Ok (VStr a2), w3) ->
  call check_fun [VStr a2; clue] w3 = (Ok score, w4) ->
  is_tuple score = false ->
  score_in_range score = true ->
  DatasetQuiz.self_check (BaseQuiz.init generate_fun solve_fun check_fun) s
  = (Ok (eq_one score), State w4 (stderr s)).
Proof.
  intros Hg T D H1 R H2 Hc Ts Rs.
  pose proof (call_user_code_returns _ _ _ _ _ Hg) as Cg.
  assert (G : generate (BaseQuiz.init generate_fun solve_fun check_fun) s
              = (Ok (if is_str_or_bytes raw then VDict [(VStr "file", raw)] else raw,
                     clue),
                 State w2 (stderr s))).
  { rewrite (base_wrap_generate_run _ _ _ _ _ _ Cg).
    assert (E : (clue0 <- BaseQuiz.wrap_solve solve_fun raw ;;
                 d <- BaseQuiz.clean_dataset raw ;;
                 c <- BaseQuiz.clean_clue clue0 ;; ret (d, c))
                  (State w1 (stderr s))
                = (Ok (if is_str_or_bytes raw then VDict [(VStr "file", raw)] else raw,
                       clue),
                   State w2 (stderr s))).
    { rewrite (bind_ok _ _ _ _ _
                 (wrap_solve_returns solve_fun raw a1 (State w1 (stderr s)) w2 H1)).
      cbn [stderr].
      rewrite (bind_ok _ _ _ _ _ (base_clean_dataset_accepts raw _ D)).
      unfold bind. rewrite clean_clue_run, R. reflexivity. }
    destruct raw; try discriminate T; exact E. }
  assert (U : unwrap_file (if is_str_or_bytes raw
                           then VDict [(VStr "file", raw)] else raw)
              = unwrap_file raw).
  { destruct raw; try discriminate D; reflexivity. }
  unfold DatasetQuiz.self_check.
  rewrite (bind_ok _ _ _ _ _ G). cbn beta iota.
  assert (S2 : solve (BaseQuiz.init generate_fun solve_fun check_fun)
                     (if is_str_or_bytes raw then VDict [(VStr "file", raw)] else raw)
                     (State w2 (stderr s))
               = (Ok (VStr a2), State w3 (stderr s))).
  { unfold BaseQuiz.init; cbn [solve].
    apply (wrap_solve_returns solve_fun _ a2 (State w2 (stderr s)) w3).
    rewrite U. exact H2. }
  rewrite (bind_ok _ _ _ _ _ S2).
  assert (C2 : check (BaseQuiz.init generate_fun solve_fun check_fun)
                     (VStr a2) clue (State w3 (stderr s))
               = (Ok (score, VStr ""), State w4 (stderr s))).
  { unfold BaseQuiz.init; cbn [check].
    apply (wrap_check_returns_score check_fun _ _ _ (State w3 (stderr s)) w4 Hc Ts Rs). }
  rewrite (bind_ok _ _ _ _ _ C2). reflexivity.
Qed.

Lemma dataset_self_check_solves_twice_witness :
  DatasetQuiz.self_check
    (BaseQuiz.init (ser := copying_serialization)
       (counting_fun [] (VStr "2 2"))
       (counting_fun ["dataset"] (VStr "4"))
       counting_check_clue_4)
    (State 0%nat [])
  = (Ok (eq_one (VInt 1)), State 4%nat []).
Proof.
  apply (dataset_self_check_solves_twice (ser := copying_serialization)
           (counting_fun [] (VStr "2 2")) (counting_fun ["dataset"] (VStr "4"))
           counting_check_clue_4
           (VStr "2 2") (VStr "4") (VInt 1) "4" "4"
           (State 0%nat []) 1%nat 2%nat 3%nat 4%nat); reflexivity.
Defined.

(** X9: the self check of a [CodeQuiz] returns false exactly when the
    wrapped generate has returned the cases, the cases before some case are
    solved and checked with a score equal to 1, and that case is solved and
    checked with another score; it returns in the state that check has
    left: the cases after the first that fails are not run. *)
Theorem code_self_check_stops_at_first_failure {W : Type}
        (q : quiz W (list (value * value))) (s s' : state W) :
  CodeQuiz.self_check q s = (Ok false, s')
  <-> exists cases s0 pre dataset clue post answer score hint s1 s2,
      generate q s = (Ok cases, s0)
      /\ cases = pre ++ (dataset, clue) :: post
      /\ all_perfect q pre s0 s1
      /\ solve q dataset s1 = (Ok answer, s2)
      /\ check q answer clue s2 = (Ok (score, hint), s')
      /\ eq_one score = false.
Proof.
  unfold CodeQuiz.self_check. split.
  - intros H. apply bind_inv_ok in H as (cases & s0 & Hg & H).
    apply all_starmap_false_iff in H
      as (pre & d & c & post & a & sc & h & s1 & s2 & E & P & Hs & Hc & F).
    exists cases, s0, pre, d, c, post, a, sc, h, s1, s2. auto 10.
  - intros (cases & s0 & pre & d & c & post & a & sc & h & s1 & s2
            & Hg & E & P & Hs & Hc & F).
    rewrite (bind_ok _ _ _ _ _ Hg). apply all_starmap_false_iff.
    exists pre, d, c, post, a, sc, h, s1, s2. auto 10.
Qed.

Lemma code_self_check_stops_at_first_failure_witness :
  CodeQuiz.self_check
    (Quiz (CodeQuiz.wrap_generate (ser := copying_serialization)
             (BaseQuiz.wrap_solve (counting_fun ["dataset"] (VStr "4")))
             (counting_fun [] (VList [VTuple [VStr "2 2"; VStr "4"];
                                      VTuple [VStr "2 3"; VStr "5"];
                                      VTuple [VStr "1 3"; VStr "4"]])))
          (BaseQuiz.wrap_solve (counting_fun ["dataset"] (VStr "4")))
          (BaseQuiz.wrap_check counting_check_clue_4))
    (State 0%nat [])
  = (Ok false, State 5%nat []).
Proof.
  apply code_self_check_stops_at_first_failure.
  exists [(VStr "2 2", VStr "4"); (VStr "2 3", VStr "5"); (VStr "1 3", VStr "4")],
    (State 1%nat []), [(VStr "2 2", VStr "4")], (VStr "2 3"), (VStr "5"),
    [(VStr "1 3", VStr "4")], (VStr "4"), (VInt 0), (VStr ""),
    (State 3%nat []), (State 4%nat []).
  repeat split; try reflexivity.
  apply (perfect_cons _ (VStr "2 2") (VStr "4") (VStr "4") (VInt 1) (VStr "") []
                      (State 1%nat []) (State 2%nat []) (State 3%nat [])
                      (State 3%nat [])); try reflexivity.
  apply perfect_nil.
Defined.

(** ** The cases of a CodeQuiz, further *)

Section CodeCases.
Context {W : Type} {ser : Serialization}.

Lemma mapM_post {A B} (f : A -> M W B) (P : A -> B -> Prop) (xs : list A) :
  (forall x s r s', f x s = (Ok r, s') -> P x r /\ quiet s s') ->
  forall s ys s', mapM f xs s = (Ok ys, s') -> Forall2 P xs ys /\ quiet s s'.
Proof.
  intros Hf. induction xs as [| x xs IH]; intros s ys s' H.
  - inv H. split; [constructor | reflexivity].
  - cbn [mapM] in H.
    apply bind_inv_ok in H as (y & s1 & H1 & H).
    apply bind_inv_ok in H as (ys' & s2 & H2 & H). inv H.
    apply Hf in H1 as [Py Q1]. apply IH in H2 as [F Q2].
    split; [now constructor | eapply quiet_trans; eauto].
Qed.

Lemma code_wrap_generate_post (generate_fun solve_fun : attr W)
      (s s' : state W) (cases : list (value * value)) :
  CodeQuiz.wrap_generate (BaseQuiz.wrap_solve solve_fun) generate_fun s
  = (Ok cases, s') ->
  exists xs s1,
    call_user_code generate_fun [] s = (Ok (VList xs), s1)
    /\ Forall2 case_from xs cases
    /\ quiet s s'.
Proof.
  unfold CodeQuiz.wrap_generate. intros H.
  apply bind_inv_ok in H as (raw & s1 & C & H).
  pose proof C as C'.
  apply call_user_code_outcomes in C' as [(v & E & Q) | (E & _)]; [| discriminate E].
  destruct raw; try discriminate H.
  exists xs, s1. split; [exact C |].
  destruct (forallb CodeQuiz.is_dataset xs).
  - apply mapM_post with (P := case_from) in H as [F Q'].
    + split; [exact F | eapply quiet_trans; eauto].
    + intros x t r t' R.
      apply bind_inv_ok in R as (d & t1 & R1 & R).
      apply bind_inv_ok in R as (a & t2 & R2 & R).
      apply bind_inv_ok in R as (c & t3 & R3 & R). inv R.
      apply code_clean_dataset_inv in R1 as (Es & -> & ->).
      apply wrap_solve_outcomes in R2 as [(a' & Ea & Qa) | (Ea & _)];
        [| discriminate Ea].
      apply clean_clue_inv in R3 as [R3 ->].
      split; [| exact Qa].
      split; [exact Es | split; [left; reflexivity | exists a; exact R3]].
  - destruct (forallb CodeQuiz.is_dataset_and_clue xs); [| discriminate H].
    apply mapM_post with (P := case_from) in H as [F Q'].
    + split; [exact F | eapply quiet_trans; eauto].
    + intros x t r t' R.
      apply bind_inv_ok in R as ([d0 c0] & t1 & R1 & R).
      apply bind_inv_ok in R as (d & t2 & R2 & R).
      apply bind_inv_ok in R as (c & t3 & R3 & R). inv R.
      apply code_clean_dataset_inv in R2 as (Es & -> & ->).
      apply clean_clue_inv in R3 as [R3 ->].
      unfold lift in R1. injection R1 as U Et. subst t1.
      destruct x as [ | | | | | | | ys | | | ]; try discriminate U.
      destruct ys as [| x0 [| x1 [| x2 ys]]]; try discriminate U.
      cbn in U. inv U.
      split; [| reflexivity].
      split; [exact Es | split; [right; eexists; reflexivity | exists c0; exact R3]].
Qed.
End CodeCases.

(** X10: whenever the wrapped generate of a [CodeQuiz] returns, the raw
    generate has returned a list and the cases correspond to its elements one
    by one, in order: each case has a string for dataset, which is the
    element or its first component, and a clue that the serializer has
    decoded; nothing was printed. *)
Theorem code_generate_cases {W : Type} {ser : Serialization}
        (generate_fun solve_fun : attr W)
        (s s' : state W) (cases : list (value * value)) :
  CodeQuiz.wrap_generate (BaseQuiz.wrap_solve solve_fun) generate_fun s
  = (Ok cases, s') ->
  exists xs s1,
    call_user_code generate_fun [] s = (Ok (VList xs), s1)
    /\ Forall2 case_from xs cases
    /\ List.length cases = List.length xs
    /\ quiet s s'.
Proof.
  intros H. apply code_wrap_generate_post in H as (xs & s1 & C & F & Q).
  exists xs, s1. repeat split; auto.
  symmetry. eapply Forall2_length, F.
Qed.

Lemma code_generate_cases_witness :
  exists xs s1,
    call_user_code (W := unit) (const_fun [] (VList [VStr "2 2"; VStr "1 3"])) []
                   (State tt [])
    = (Ok (VList xs), s1)
    /\ Forall2 (case_from (ser := copying_serialization)) xs
               [(VStr "2 2", VStr "4"); (VStr "1 3", VStr "4")]
    /\ List.length [(VStr "2 2", VStr "4"); (VStr "1 3", VStr "4")] = List.length xs
    /\ quiet (State tt []) (State tt []).
Proof.
  apply (code_generate_cases (ser := copying_serialization)
           (const_fun [] (VList [VStr "2 2"; VStr "1 3"]))
           (const_fun ["dataset"] (VStr "4"))).
  reflexivity.
Defined.

(** ** The passes of the fixed-case verifier, further *)

Section Passes.
Context {W G : Type}.

Lemma testSamples_passes_iff (q : quiz W G) (tests : list (value * value * value))
      (s s' : state W) :
  QuizModuleTest.testSamples q tests s = (Ok tt, s') <-> samples_perfect q tests s s'.
Proof.
  split.
  - revert s. induction tests as [| [[d c] r] tests IH]; intros s H.
    + inv H. constructor.
    + cbn [QuizModuleTest.testSamples] in H.
      apply bind_inv_ok in H as ([score h] & s1 & Hc & H).
      apply bind_inv_ok in H as ([] & s2 & Ha & H).
      unfold QuizModuleTest.assertEqual_1 in Ha.
      destruct (eq_one score) eqn:E; inv Ha.
      econstructor; eauto.
  - induction 1 as [s | d c r score h tests s s1 s2 Hc E _ IH]; [reflexivity |].
    cbn [QuizModuleTest.testSamples].
    rewrite (bind_ok _ _ _ _ _ Hc). cbn beta iota.
    unfold QuizModuleTest.assertEqual_1. rewrite E.
    unfold bind at 1. cbn [ret]. exact IH.
Qed.

Lemma testSolve_passes_iff (q : quiz W G) (tests : list (value * value * value))
      (s s' : state W) :
  QuizModuleTest.testSolve q tests s = (Ok tt, s')
  <-> all_perfect q (map case_of tests) s s'.
Proof.
  split.
  - revert s. induction tests as [| [[d c] r] tests IH]; intros s H.
    + inv H. constructor.
    + cbn [QuizModuleTest.testSolve] in H.
      apply bind_inv_ok in H as (a & s0 & Hs & H).
      apply bind_inv_ok in H as ([score h] & s1 & Hc & H).
      apply bind_inv_ok in H as ([] & s2 & Ha & H).
      unfold QuizModuleTest.assertEqual_1 in Ha.
      destruct (eq_one score) eqn:E; inv Ha.
      cbn [map case_of fst snd]. econstructor; eauto.
  - revert s. induction tests as [| [[d c] r] tests IH]; intros s H.
    + inv H. reflexivity.
    + cbn [map case_of fst snd] in H. inv H.
      cbn [QuizModuleTest.testSolve].
      match goal with
      | Hs : solve q d s = _, Hc : check q _ c _ = _, E : eq_one _ = true |- _ =>
          rewrite (bind_ok _ _ _ _ _ Hs), (bind_ok _ _ _ _ _ Hc); cbn beta iota;
          unfold QuizModuleTest.assertEqual_1; rewrite E
      end.
      unfold bind at 1. cbn [ret]. now apply IH.
Qed.
End Passes.

(** X11: [testSamples] passes exactly when every declared reply, in order,
    is checked against its clue with a score equal to 1; [testSolve] passes
    exactly when every declared dataset, in order, is solved and the answer
    checked against the clue with a score equal to 1, which for a
    [CodeQuiz] is exactly when its batch oracle returns true on the declared
    (dataset, clue) pairs. *)
Theorem fixed_case_passes {W G : Type} (q : quiz W G)
        (tests : list (value * value * value)) (s s' : state W) :
  (QuizModuleTest.testSamples q tests s = (Ok tt, s') <-> samples_perfect q tests s s')
  /\ (QuizModuleTest.testSolve q tests s = (Ok tt, s')
      <-> all_perfect q (map case_of tests) s s')
  /\ (forall q' : quiz W (list (value * value)),
         QuizModuleTest.testSolve q' tests s = (Ok tt, s')
         <-> all_starmap (CodeQuiz.is_correct q') (map case_of tests) s = (Ok true, s')).
Proof.
  split; [apply testSamples_passes_iff | split; [apply testSolve_passes_iff |]].
  intros q'. rewrite testSolve_passes_iff. symmetry. apply all_starmap_true_iff.
Qed.

Lemma fixed_case_passes_witness :
  let q := Quiz (ret (VDict [], VNone))
                (BaseQuiz.wrap_solve (counting_fun ["dataset"] (VStr "4")))
                (BaseQuiz.wrap_check counting_check_clue_4) in
  QuizModuleTest.testSamples q [(VStr "2 2", VStr "4", VStr "four")] (State 0%nat [])
  = (Ok tt, State 1%nat [])
  /\ QuizModuleTest.testSolve q [(VStr "2 2", VStr "4", VStr "four")] (State 0%nat [])
     = (Ok tt, State 2%nat []).
Proof.
  intros q. split.
  - apply (proj1 (fixed_case_passes q [(VStr "2 2", VStr "4", VStr "four")]
                                    (State 0%nat []) (State 1%nat []))).
    apply (samples_cons q (VStr "2 2") (VStr "4") (VStr "four") (VInt 1) (VStr "") []
                        (State 0%nat []) (State 1%nat []) (State 1%nat []));
      try reflexivity.
    apply samples_nil.
  - apply (proj1 (proj2 (fixed_case_passes q [(VStr "2 2", VStr "4", VStr "four")]
                                           (State 0%nat []) (State 2%nat [])))).
    apply (perfect_cons q (VStr "2 2") (VStr "4") (VStr "4") (VInt 1) (VStr "") []
                        (State 0%nat []) (State 1%nat []) (State 2%nat [])
                        (State 2%nat [])); try reflexivity.
    apply perfect_nil.
Defined.

(** X12: a pass stops at the first case whose score is not 1. When the
    cases before it have passed, [testSamples] raises the assertion failure
    whose message carries the declared reply, the clue and the score, and
    [testSolve] the one that carries the computed reply, the clue and the
    score; the state is the one the check of that case has left, so the
    cases after it are not run, and the framework records the failure. *)
Theorem fixed_case_first_failure {W G : Type} (q : quiz W G)
        (pre post : list (value * value * value))
        (dataset clue reply : value) (s s1 : state W) :
  (QuizModuleTest.testSamples q pre s = (Ok tt, s1) ->
   forall score hint s2,
     check q reply clue s1 = (Ok (score, hint), s2) ->
     eq_one score = false ->
     QuizModuleTest.testSamples q (pre ++ (dataset, clue, reply) :: post) s
     = (Raise (AssertionError (samples_message reply clue score)), s2)
     /\ run_in_framework
          (QuizModuleTest.testSamples q (pre ++ (dataset, clue, reply) :: post)) s
        = (Reported (AssertionError (samples_message reply clue score)), s2))
  /\ (QuizModuleTest.testSolve q pre s = (Ok tt, s1) ->
      forall computed_reply score hint s2 s3,
        solve q dataset s1 = (Ok computed_reply, s2) ->
        check q computed_reply clue s2 = (Ok (score, hint), s3) ->
        eq_one score = false ->
        QuizModuleTest.testSolve q (pre ++ (dataset, clue, reply) :: post) s
        = (Raise (AssertionError (solve_message computed_reply clue score)), s3)
        /\ run_in_framework
             (QuizModuleTest.testSolve q (pre ++ (dataset, clue, reply) :: post)) s
           = (Reported (AssertionError (solve_message computed_reply clue score)), s3)).
Proof.
  split.
  - intros Hp score hint s2 Hc E.
    assert (K : QuizModuleTest.testSamples q (pre ++ (dataset, clue, reply) :: post) s
                = (Raise (AssertionError (samples_message reply clue score)), s2)).
    { rewrite (testSamples_app q pre _ s s1 Hp). cbn [QuizModuleTest.testSamples].
      rewrite (bind_ok _ _ _ _ _ Hc). cbn beta iota.
      unfold QuizModuleTest.assertEqual_1. rewrite E. reflexivity. }
    split; [exact K |]. unfold run_in_framework. rewrite K. reflexivity.
  - intros Hp a score hint s2 s3 Hs Hc E.
    assert (K : QuizModuleTest.testSolve q (pre ++ (dataset, clue, reply) :: post) s
                = (Raise (AssertionError (solve_message a clue score)), s3)).
    { rewrite (testSolve_app q pre _ s s1 Hp). cbn [QuizModuleTest.testSolve].
      rewrite (bind_ok _ _ _ _ _ Hs), (bind_ok _ _ _ _ _ Hc). cbn beta iota.
      unfold QuizModuleTest.assertEqual_1. rewrite E. reflexivity. }
    split; [exact K |]. unfold run_in_framework. rewrite K. reflexivity.
Qed.

Lemma fixed_case_first_failure_witness :
  let q := Quiz (ret (VDict [], VNone))
                (BaseQuiz.wrap_solve (counting_fun ["dataset"] (VStr "4")))
                (BaseQuiz.wrap_check counting_check_clue_4) in
  let tests := [] ++ (VStr "2 3", VStr "5", VStr "five")
                  :: [(VStr "2 2", VStr "4", VStr "four")] in
  QuizModuleTest.testSamples q tests (State 0%nat [])
  = (Raise (AssertionError (samples_message (VStr "five") (VStr "5") (VInt 0))),
     State 1%nat [])
  /\ QuizModuleTest.testSolve q tests (State 0%nat [])
     = (Raise (AssertionError (solve_message (VStr "4") (VStr "5") (VInt 0))),
        State 2%nat []).
Proof.
  intros q tests.
  pose proof (fixed_case_first_failure q [] [(VStr "2 2", VStr "4", VStr "four")]
                (VStr "2 3") (VStr "5") (VStr "five")
                (State 0%nat []) (State 0%nat [])) as [Ha Hb].
  split.
  - apply (proj1 (Ha eq_refl (VInt 0) (VStr "") (State 1%nat []) eq_refl eq_refl)).
  - apply (proj1 (Hb eq_refl (VStr "4") (VInt 0) (VStr "") (State 1%nat [])
                     (State 2%nat []) eq_refl eq_refl eq_refl)).
Defined.

Section PassDiscipline.
Context {W G : Type}.

Lemma testSamples_outcome (gen : M W G) (solve_fun check_fun : attr W)
      (tests : list (value * value * value)) :
  forall s r s',
    QuizModuleTest.testSamples
      (Quiz gen (BaseQuiz.wrap_solve solve_fun) (BaseQuiz.wrap_check check_fun))
      tests s = (r, s') ->
    pass_outcome s r s'.
Proof.
  induction tests as [| [[d c] rp] tests IH]; intros s r s' H.
  - inv H. left. split; reflexivity.
  - cbn [QuizModuleTest.testSamples check] in H. unfold bind at 1 in H.
    destruct (BaseQuiz.wrap_check check_fun rp c s) as [[[sc h] | e] s1] eqn:C;
      apply wrap_check_outcomes in C as [(sc' & h' & E & _ & Q) | (E & P)];
      try discriminate E.
    + unfold bind at 1, QuizModuleTest.assertEqual_1 in H.
      destruct (eq_one sc).
      * cbn [ret] in H. apply IH in H as [(-> & Q') | [(Hm & Q') | (-> & P')]].
        -- left. split; [reflexivity | eapply quiet_trans; eauto].
        -- right; left. split; [exact Hm | eapply quiet_trans; eauto].
        -- right; right. split; [reflexivity | eapply printed_after_quiet; eauto].
      * inv H. right; left. split; [eexists; reflexivity | exact Q].
    + inv H. inv E. right; right. split; [reflexivity | exact P].
Qed.

Lemma testSolve_outcome (gen : M W G) (solve_fun check_fun : attr W)
      (tests : list (value * value * value)) :
  forall s r s',
    QuizModuleTest.testSolve
      (Quiz gen (BaseQuiz.wrap_solve solve_fun) (BaseQuiz.wrap_check check_fun))
      tests s = (r, s') ->
    pass_outcome s r s'.
Proof.
  induction tests as [| [[d c] rp] tests IH]; intros s r s' H.
  - inv H. left. split; reflexivity.
  - cbn [QuizModuleTest.testSolve check solve] in H. unfold bind at 1 in H.
    destruct (BaseQuiz.wrap_solve solve_fun d s) as [[a | e] s0] eqn:S;
      apply wrap_solve_outcomes in S as [(a' & Ea & Q0) | (Ea & P0)];
      try discriminate Ea.
    + unfold bind at 1 in H.
      destruct (BaseQuiz.wrap_check check_fun a c s0) as [[[sc h] | e] s1] eqn:C;
        apply wrap_check_outcomes in C as [(sc' & h' & E & _ & Q) | (E & P)];
        try discriminate E.
      * unfold bind at 1, QuizModuleTest.assertEqual_1 in H.
        assert (Q1 : quiet s s1) by (eapply quiet_trans; eauto).
        destruct (eq_one sc).
        -- cbn [ret] in H. apply IH in H as [(-> & Q') | [(Hm & Q') | (-> & P')]].
           ++ left. split; [reflexivity | eapply quiet_trans; eauto].
           ++ right; left. split; [exact Hm | eapply quiet_trans; eauto].
           ++ right; right. split; [reflexivity | eapply printed_after_quiet; eauto].
        -- inv H. right; left. split; [eexists; reflexivity | exact Q1].
      * inv H. inv E. right; right.
        split; [reflexivity | eapply printed_after_quiet; eauto].
    + inv H. inv Ea. right; right. split; [reflexivity | exact P0].
Qed.
End PassDiscipline.

(** X13: whatever the raw solve and the raw check do, a pass of the
    fixed-case verifier over wrapped functions ends in one of three ways: it
    passes, or an assertion fails, and in both cases nothing was printed; or
    the harness has printed and the pass is left by [SystemExit (-1)]. No
    exception of the user's functions reaches the framework as it was
    raised. *)
Theorem fixed_case_pass_outcomes {W G : Type}
        (gen : M W G) (solve_fun check_fun : attr W)
        (tests : list (value * value * value)) (s : state W) :
  let q := Quiz gen (BaseQuiz.wrap_solve solve_fun) (BaseQuiz.wrap_check check_fun) in
  (forall r s', QuizModuleTest.testSamples q tests s = (r, s') -> pass_outcome s r s')
  /\ (forall r s', QuizModuleTest.testSolve q tests s = (r, s') -> pass_outcome s r s').
Proof.
  intros q. split; intros r s'.
  - apply testSamples_outcome.
  - apply testSolve_outcome.
Qed.

Lemma fixed_case_pass_outcomes_witness :
  pass_outcome (State tt []) (Raise (SystemExit (-1)))
               (faulted (OtherError "ZeroDivisionError") (State tt [])).
Proof.
  apply (proj1 (fixed_case_pass_outcomes (W := unit)
                  (ret (VDict [], VNone))
                  (const_fun ["dataset"] (VStr "4"))
                  (raising_fun ["reply"; "clue"] (OtherError "ZeroDivisionError"))
                  [(VStr "2 2", VStr "4", VStr "four")] (State tt []))).
  reflexivity.
Defined.

(** ** runTest and the tests of a module *)

Section RunTest.
Context {W G : Type}.

Lemma check_test_shape_run (test : value) (s : state W) :
  QuizModuleTest.check_test_shape test s
  = match shape test with
    | Some triple => (Ok triple, s)
    | None => (Raise (AssertionError (shape_error test)), s)
    end.
Proof.
  destruct test as [ | | | | | | | xs | | | ]; try reflexivity.
  destruct xs as [| d [| c [| r [| x xs]]]]; try reflexivity.
  all: destruct d; try reflexivity.
  all: destruct r; reflexivity.
Qed.

Lemma shapes_accepted (tests : list value) (triples : list (value * value * value))
      (s : state W) :
  map shape tests = map Some triples ->
  mapM QuizModuleTest.check_test_shape tests s = (Ok triples, s).
Proof.
  revert triples. induction tests as [| t tests IH]; intros [| tr triples] H;
    try discriminate H; [reflexivity |].
  cbn [map] in H. injection H as Ht Hr.
  cbn [mapM]. unfold bind at 1. rewrite check_test_shape_run, Ht.
  rewrite (bind_ok _ _ _ _ _ (IH _ Hr)). reflexivity.
Qed.

Lemma shape_refused (pre post : list value) (t : value) (s : state W) :
  forallb is_shaped pre = true -> shape t = None ->
  mapM QuizModuleTest.check_test_shape (pre ++ t :: post) s
  = (Raise (AssertionError (shape_error t)), s).
Proof.
  intros Hp Ht. induction pre as [| p pre IH].
  - cbn [app mapM]. unfold bind. rewrite check_test_shape_run, Ht. reflexivity.
  - cbn [forallb] in Hp. apply andb_true_iff in Hp as [Hp1 Hp2].
    cbn [app mapM]. unfold bind at 1. rewrite check_test_shape_run.
    unfold is_shaped in Hp1. destruct (shape p); [| discriminate Hp1].
    apply bind_raise. now apply IH.
Qed.
End RunTest.

(** X14: [runTest] looks at the shape of every declared case before it
    runs any: when [tests] is no list, or when some element is no 3-tuple of
    a string, a clue and a string, it raises the assertion failure of the
    first such element in the state it started in, so no function of the
    module has run, not even on the well-formed cases before that element.
    When every element is well formed it runs [testSamples] on all the
    cases and then [testSolve] on all the cases; on the empty list it
    passes and runs nothing. *)
Theorem runTest_validates_first {W G : Type} (q : quiz W G) (s : state W) :
  (forall a, (forall xs, a <> Val (VList xs)) ->
             QuizModuleTest.runTest (QuizModuleTest.Test q a) s
             = (Raise (AssertionError QuizModuleTest.tests_msg), s))
  /\ (forall pre t post,
         forallb is_shaped pre = true -> shape t = None ->
         QuizModuleTest.runTest
           (QuizModuleTest.Test q (Val (VList (pre ++ t :: post)))) s
         = (Raise (AssertionError (shape_error t)), s))
  /\ (forall tests triples,
         map shape tests = map Some triples ->
         QuizModuleTest.runTest (QuizModuleTest.Test q (Val (VList tests))) s
         = (QuizModuleTest.testSamples q triples ;;
            QuizModuleTest.testSolve q triples) s)
  /\ QuizModuleTest.runTest (QuizModuleTest.Test q (Val (VList []))) s = (Ok tt, s).
Proof.
  split; [| split; [| split]].
  - intros a H. unfold QuizModuleTest.runTest; cbn [QuizModuleTest.the_tests].
    destruct a as [f | v]; [reflexivity |].
    destruct v; try reflexivity. now elim (H xs).
  - intros pre t post Hp Ht. unfold QuizModuleTest.runTest.
    cbn [QuizModuleTest.the_tests QuizModuleTest.the_quiz].
    apply bind_raise. now apply shape_refused.
  - intros tests triples H. unfold QuizModuleTest.runTest.
    cbn [QuizModuleTest.the_tests QuizModuleTest.the_quiz].
    rewrite (bind_ok _ _ _ _ _ (shapes_accepted _ _ s H)). reflexivity.
  - reflexivity.
Qed.

Lemma runTest_validates_first_witness :
  let q := Quiz (ret (VDict [], VNone))
                (BaseQuiz.wrap_solve (counting_fun ["dataset"] (VStr "4")))
                (BaseQuiz.wrap_check counting_check_clue_4) in
  QuizModuleTest.runTest (QuizModuleTest.Test q (Val (VDict []))) (State 0%nat [])
  = (Raise (AssertionError QuizModuleTest.tests_msg), State 0%nat [])
  /\ QuizModuleTest.runTest
       (QuizModuleTest.Test q
          (Val (VList ([VTuple [VStr "2 2"; VStr "4"; VStr "four"]]
                         ++ VTuple [VStr "2 3"; VStr "5"; VInt 5] :: []))))
       (State 0%nat [])
     = (Raise (AssertionError (Text "reply should be a string")), State 0%nat [])
  /\ QuizModuleTest.runTest
       (QuizModuleTest.Test q
          (Val (VList [VTuple [VStr "2 2"; VStr "4"; VStr "four"]])))
       (State 0%nat [])
     = (Ok tt, State 3%nat []).
Proof.
  intros q.
  pose proof (runTest_validates_first q (State 0%nat [])) as (Ha & Hb & Hc & _).
  split; [| split].
  - apply Ha. discriminate.
  - apply (Hb [VTuple [VStr "2 2"; VStr "4"; VStr "four"]]
              (VTuple [VStr "2 3"; VStr "5"; VInt 5]) []); reflexivity.
  - rewrite (Hc [VTuple [VStr "2 2"; VStr "4"; VStr "four"]]
                [(VStr "2 2", VStr "4", VStr "four")] eq_refl).
    reflexivity.
Defined.

(** ** Construction runs no user code *)

Section Construction.
Context {W : Type} {ser : Serialization}.

Lemma check_signatures_world (specs : list (string * attr W * nat))
      (s s' : state W) (r : result unit) :
  check_signatures specs s = (r, s') -> world s' = world s.
Proof.
  rewrite check_signatures_run.
  destruct (first_signature_error specs); intros H; inv H; reflexivity.
Qed.

Lemma dataset_init_world (generate_fun solve_fun check_fun : attr W)
      (s s' : state W) (r : result (quiz W (value * value))) :
  DatasetQuiz.init generate_fun solve_fun check_fun s = (r, s') -> world s' = world s.
Proof.
  unfold DatasetQuiz.init.
  destruct generate_fun as [g | []]; unfold bind;
    match goal with
    | |- context [check_signatures ?specs s] =>
        destruct (check_signatures specs s) as [[[] | e] s1] eqn:C;
        apply check_signatures_world in C; intros H; inv H; exact C
    end.
Qed.

Lemma code_init_world (generate_fun solve_fun check_fun : attr W)
      (s s' : state W) (r : result (quiz W (list (value * value)))) :
  CodeQuiz.init generate_fun solve_fun check_fun s = (r, s') -> world s' = world s.
Proof.
  unfold CodeQuiz.init.
  assert (K : forall s0, world s0 = world s ->
              (check_signatures (full_specs generate_fun solve_fun check_fun) ;;
               ret (let solve := BaseQuiz.wrap_solve solve_fun in
                    Quiz (CodeQuiz.wrap_generate solve generate_fun) solve
                         (BaseQuiz.wrap_check check_fun))) s0 = (r, s') ->
              world s' = world s).
  { intros s0 E. unfold bind.
    destruct (check_signatures _ s0) as [[[] | e] s1] eqn:C;
      apply check_signatures_world in C; intros H; inv H; congruence. }
  destruct generate_fun as [g | []]; try (apply (K s eq_refl)).
  intros H. inv H. reflexivity.
Qed.
End Construction.

(** X16: building a quiz runs no function of the module: whether
    [DatasetQuiz] or [CodeQuiz] is built or refused, directly or through
    [import_quiz], the user world is the one it was before; signatures are
    read, nothing is called. *)
Theorem construction_runs_no_user_code {W : Type} {ser : Serialization}
        (generate_fun solve_fun check_fun : attr W)
        (module : pymodule W) (s : state W) :
  (forall r s', DatasetQuiz.init generate_fun solve_fun check_fun s = (r, s') ->
                world s' = world s)
  /\ (forall r s', CodeQuiz.init generate_fun solve_fun check_fun s = (r, s') ->
                   world s' = world s)
  /\ (forall r s', BaseQuiz.import_quiz DatasetQuiz.init module s = (r, s') ->
                   world s' = world s)
  /\ (forall r s', BaseQuiz.import_quiz CodeQuiz.init module s = (r, s') ->
                   world s' = world s).
Proof.
  split; [| split; [| split]]; intros r s'.
  - apply dataset_init_world.
  - apply code_init_world.
  - rewrite import_quiz_run.
    destruct (getattr module "solve"); [| intros H; inv H; reflexivity].
    destruct (getattr module "check"); [| intros H; inv H; reflexivity].
    apply dataset_init_world.
  - rewrite import_quiz_run.
    destruct (getattr module "solve"); [| intros H; inv H; reflexivity].
    destruct (getattr module "check"); [| intros H; inv H; reflexivity].
    apply code_init_world.
Qed.

Lemma construction_runs_no_user_code_witness :
  world (failed (Text "Expected `check` with 2 arguments, got none.")
                (State 7%nat []))
  = world (State 7%nat []).
Proof.
  apply (proj1 (proj2 (construction_runs_no_user_code (ser := copying_serialization)
                         (counting_fun [] (VList []))
                         (counting_fun ["dataset"] (VStr "4"))
                         (counting_fun [] (VInt 1))
                         [] (State 7%nat [])))
               (Raise (SystemExit (-1)))).
  reflexivity.
Defined.

(** X17: among the integers only 0 and 1 are scores; every [bool] is a
    score, and it equals 1 exactly when it is [True]: a raw check that
    returns a truth value grades as one that returns 1 or 0. *)
Theorem integer_and_bool_scores {W : Type} (s : state W) :
  (forall n, BaseQuiz.clean_score (VInt n) s = (Ok (VInt n), s)
             <-> (n = 0 \/ n = 1)%Z)
  /\ (forall b, BaseQuiz.clean_score (VBool b) s = (Ok (VBool b), s)
                /\ eq_one (VBool b) = b)
  /\ (forall n, eq_one (VInt n) = true <-> n = 1%Z).
Proof.
  split; [| split].
  - intros n. split.
    + intros H. apply clean_score_inv in H as (E & _).
      apply score_in_range_iff in E as (q & Hq & H0 & H1).
      cbn in Hq. inv Hq.
      unfold Qle in H0, H1. cbn in H0, H1. lia.
    + intros [-> | ->]; reflexivity.
  - intros b. split; destruct b; reflexivity.
  - intros n. unfold eq_one; cbn [exact_value]. rewrite Qeq_bool_iff.
    unfold Qeq; cbn. lia.
Qed.

Lemma integer_and_bool_scores_witness :
  BaseQuiz.clean_score (VInt 1) (State tt []) = (Ok (VInt 1), State tt [])
  /\ eq_one (VInt 1) = true.
Proof.
  pose proof (integer_and_bool_scores (State tt [])) as (Hn & _ & He).
  split.
  - apply Hn. right. reflexivity.
  - apply He. reflexivity.
Defined.
